(** * adbmcp: the ADB tool server, its UI-hierarchy extractor and reports

    A shallow embedding of [adbmcp.py] and the proofs of what its
    specification says of it.

    - Python's [str] is [string]; a character stands for the code point
      of the same number (0..255).  Python's [int] is [Z]; the
      conversions between a number and its decimal text have CPython's
      limit of 4300 digits.
    - A function that can raise returns a [res]; a tool, which runs
      commands on the bridge, is a computation [Py] over the trace of
      the commands run so far.
    - [subprocess.run], [ET.fromstring] and [os.path.abspath] belong to
      the standard library: they are parameters.  [RefXml] is one
      parser, for the examples.
    - The registration of the tools with the MCP server and the two
      [print] calls made when the module is loaded are left out. *)

From Stdlib Require Import ZArith String Ascii List Bool Lia Arith DecimalString DecimalFacts DecimalPos DecimalN DecimalZ.
From stdpp Require Import base option gmap strings.
Import ListNotations.

Local Open Scope string_scope.
Local Open Scope list_scope.

#[local] Arguments String.append !_ _ /.

(** * The program *)

(** ** Python string primitives *)

Module PyStr.

(** [s.startswith(p)] *)
Fixpoint startswith (p s : string) : bool :=
  match p, s with
  | EmptyString, _ => true
  | String a p', String b s' => if Ascii.eqb a b then startswith p' s' else false
  | String _ _, EmptyString => false
  end.

(** [s[n:]] *)
Fixpoint drop (n : nat) (s : string) : string :=
  match n, s with
  | O, _ => s
  | S n', String _ s' => drop n' s'
  | S _, EmptyString => EmptyString
  end.

(** [s[:n]] *)
Fixpoint take (n : nat) (s : string) : string :=
  match n, s with
  | O, _ => EmptyString
  | S n', String c s' => String c (take n' s')
  | S _, EmptyString => EmptyString
  end.

(** [p in s] *)
Fixpoint contains (p s : string) : bool :=
  if startswith p s then true
  else match s with
       | EmptyString => false
       | String _ s' => contains p s'
       end.

(** [c.isspace()] on the code points below 256: TAB, LF, VT, FF, CR,
    FS, GS, RS, US, SPACE, NEL and NBSP. *)
Definition isspace (c : ascii) : bool :=
  let n := nat_of_ascii c in
  (((9 <=? n) && (n <=? 13)) || ((28 <=? n) && (n <=? 32))
   || (n =? 133) || (n =? 160))%nat.

(** [s.lstrip()] *)
Fixpoint lstrip (s : string) : string :=
  match s with
  | String c s' => if isspace c then lstrip s' else s
  | EmptyString => EmptyString
  end.

(** [s.rstrip()] *)
Fixpoint rstrip (s : string) : string :=
  match s with
  | String c s' =>
      match rstrip s' with
      | EmptyString => if isspace c then EmptyString else String c EmptyString
      | r => String c r
      end
  | EmptyString => EmptyString
  end.

(** [s.strip()] *)
Definition strip (s : string) : string := rstrip (lstrip s).

(** [s.split(sep)] for a separator of one character *)
Fixpoint split (sep : ascii) (s : string) : list string :=
  match s with
  | EmptyString => [EmptyString]
  | String c s' =>
      if Ascii.eqb c sep then EmptyString :: split sep s'
      else match split sep s' with
           | l :: ls => String c l :: ls
           | [] => [String c EmptyString]
           end
  end.

(** [s.replace(old, new)] for a non-empty [old]: the occurrences of
    [old] are replaced from left to right, the scan resuming after each
    one.  [fuel] bounds the number of steps. *)
Fixpoint replace_fuel (fuel : nat) (old new s : string) : string :=
  match fuel with
  | O => s
  | S fuel' =>
      if startswith old s then new ++ replace_fuel fuel' old new (drop (String.length old) s)
      else match s with
           | EmptyString => EmptyString
           | String c s' => String c (replace_fuel fuel' old new s')
           end
  end.

Definition replace (old new s : string) : string :=
  replace_fuel (S (String.length s)) old new s.

(** [s.split()]: the maximal runs of characters that are not white
    space.  [cur] is the run being read, when there is one. *)
Fixpoint split_whitespace_from (cur : option string) (s : string) : list string :=
  match s with
  | EmptyString =>
      match cur with
      | Some w => [w]
      | None => []
      end
  | String c s' =>
      if isspace c then
        match cur with
        | Some w => w :: split_whitespace_from None s'
        | None => split_whitespace_from None s'
        end
      else
        match cur with
        | Some w => split_whitespace_from (Some (w ++ String c EmptyString)%string) s'
        | None => split_whitespace_from (Some (String c EmptyString)) s'
        end
  end.

Definition split_whitespace (s : string) : list string := split_whitespace_from None s.

(** [sep.join(l)] *)
Definition join (sep : string) (l : list string) : string := String.concat sep l.

(** Truth value of a string: it is not empty. *)
Definition nonempty (s : string) : bool :=
  match s with
  | EmptyString => false
  | String _ _ => true
  end.

End PyStr.

(** ** The fragment of Python's [re] the program uses

    A pattern is a sequence of atoms, matched left to right by
    backtracking, as [re] does: a lazy star first tries the rest of the
    pattern and only then consumes a character, a greedy star first
    consumes.  [Mark] stands for a parenthesis of a capturing group and
    records the position reached. *)

Module Re.

Inductive atom : Type :=
  | Chr (c : ascii)                    (* a literal character            *)
  | Cls (cls : ascii -> bool)          (* one character of a class       *)
  | LazyStar (cls : ascii -> bool)     (* [cls*?]                        *)
  | GreedyStar (cls : ascii -> bool)   (* [cls*]                         *)
  | Mark.                              (* [(] or [)] of a group          *)

Definition pattern := list atom.

(** [.] under [re.DOTALL] *)
Definition dot : ascii -> bool := fun _ => true.

(** [\d], on the code points below 256 *)
Definition digit (c : ascii) : bool :=
  let n := nat_of_ascii c in ((48 <=? n) && (n <=? 57))%nat.

(** The literal text [l] as a pattern. *)
Fixpoint lits (l : string) : pattern :=
  match l with
  | EmptyString => []
  | String c l' => Chr c :: lits l'
  end.

(** A position in the subject is the text that remains after it.
    [match_here p marks s] matches [p] at the start of [s]; it returns
    the marks passed (latest first) and what remains after the match. *)
Fixpoint match_here (p : pattern) : list string -> string -> option (list string * string) :=
  match p with
  | [] => fun marks s => Some (marks, s)
  | Chr c :: p' => fun marks s =>
      match s with
      | String d s' => if Ascii.eqb c d then match_here p' marks s' else None
      | EmptyString => None
      end
  | Cls cls :: p' => fun marks s =>
      match s with
      | String d s' => if cls d then match_here p' marks s' else None
      | EmptyString => None
      end
  | LazyStar cls :: p' => fun marks =>
      fix lazy (s : string) : option (list string * string) :=
        match match_here p' marks s with
        | Some r => Some r
        | None =>
            match s with
            | String d s' => if cls d then lazy s' else None
            | EmptyString => None
            end
        end
  | GreedyStar cls :: p' => fun marks =>
      fix greedy (s : string) : option (list string * string) :=
        match s with
        | String d s' =>
            if cls d then
              match greedy s' with
              | Some r => Some r
              | None => match_here p' marks s
              end
            else match_here p' marks s
        | EmptyString => match_here p' marks s
        end
  | Mark :: p' => fun marks s => match_here p' (s :: marks) s
  end.

(** The text between two positions [from] and [to] of one subject. *)
Definition between (from to : string) : string :=
  PyStr.take (String.length from - String.length to) from.

(** A match object: [group(0)] and the text that follows the match. *)
Record match_obj : Type := MatchObj { group0 : string; after : string; marks : list string }.

Definition match_at (p : pattern) (s : string) : option match_obj :=
  match match_here p [] s with
  | Some (ms, rest) => Some (MatchObj (between s rest) rest ms)
  | None => None
  end.

(** [re.search(p, s)]: the match at the leftmost position that has one. *)
Fixpoint search (p : pattern) (s : string) : option match_obj :=
  match match_at p s with
  | Some m => Some m
  | None =>
      match s with
      | String _ s' => search p s'
      | EmptyString => None
      end
  end.

(** The two groups of a match of a pattern with two capturing groups. *)
Definition groups2 (m : match_obj) : option (string * string) :=
  match marks m with
  | [c2; o2; c1; o1] => Some (between o1 c1, between o2 c2)
  | _ => None
  end.

(** [re.findall(p, s)] for a pattern with two groups whose matches are
    not empty: the groups of the successive matches, each search
    resuming where the previous match ended.  [fuel] bounds the number
    of steps; [findall] gives one more than the length of the subject. *)
Fixpoint findall_fuel (fuel : nat) (p : pattern) (s : string) : list (string * string) :=
  match fuel with
  | O => []
  | S fuel' =>
      match match_at p s with
      | Some m =>
          match groups2 m with
          | Some g => g :: findall_fuel fuel' p (after m)
          | None => []
          end
      | None =>
          match s with
          | String _ s' => findall_fuel fuel' p s'
          | EmptyString => []
          end
      end
  end.

Definition findall (p : pattern) (s : string) : list (string * string) :=
  findall_fuel (S (String.length s)) p s.

End Re.

(** The two patterns of the program. *)

(** [r"<\?xml.*?>.*?</hierarchy>"] *)
Definition xml_pattern : Re.pattern :=
  Re.lits "<?xml" ++ [Re.LazyStar Re.dot; Re.Chr ">"; Re.LazyStar Re.dot] ++ Re.lits "</hierarchy>".

(** [r"\[(\d+),(\d+)\]"] *)
Definition bounds_pattern : Re.pattern :=
  [Re.Chr "["; Re.Mark; Re.Cls Re.digit; Re.GreedyStar Re.digit; Re.Mark; Re.Chr ",";
   Re.Mark; Re.Cls Re.digit; Re.GreedyStar Re.digit; Re.Mark; Re.Chr "]"].

(** ** Exceptions and results

    A call either returns a value or raises.  The classes are the ones
    the program's [except] clauses tell apart; all of them derive from
    [Exception]. *)

Inductive exn : Type :=
  | CalledProcessError (stderr : string)  (* [subprocess.CalledProcessError], with [e.stderr] *)
  | ParseError (msg : string)             (* [xml.etree.ElementTree.ParseError] *)
  | ValueError (msg : string)
  | IndexError (msg : string)
  | OtherException (msg : string).        (* any other [Exception]; [msg] is [str(e)] *)

Inductive res (A : Type) : Type :=
  | Return (a : A)
  | Raise (e : exn).
Arguments Return {A} a.
Arguments Raise {A} e.

Definition res_bind {A B : Type} (m : res A) (k : A -> res B) : res B :=
  match m with
  | Return a => k a
  | Raise e => Raise e
  end.

Notation "'let*' x ':=' m 'in' k" := (res_bind m (fun x => k))
  (at level 10, x name, m at level 100, k at level 200).

(** [try: body except (ValueError, IndexError): handler] *)
Definition try_except_value_index {A : Type} (body : res A) (handler : res A) : res A :=
  match body with
  | Raise (ValueError _) | Raise (IndexError _) => handler
  | other => other
  end.

(** ** Python integers and their text *)

Module PyInt.

(** [sys.get_int_max_str_digits()]: the most digits CPython converts
    between an [int] and its decimal text.  The program leaves it at
    its default. *)
Definition max_str_digits : nat := 4300.

Definition digit_val (c : ascii) : Z := Z.of_nat (nat_of_ascii c - 48).

(** The digits of a literal, a single [_] allowed between two digits. *)
Fixpoint digits (acc : Z) (after_digit : bool) (s : string) : option Z :=
  match s with
  | EmptyString => if after_digit then Some acc else None
  | String c s' =>
      if Re.digit c then digits (10 * acc + digit_val c) true s'
      else if Ascii.eqb c "_" then (if after_digit then digits acc false s' else None)
      else None
  end.

Definition signed (s : string) : option Z :=
  match s with
  | String "-" s' => option_map Z.opp (digits 0 false s')
  | String "+" s' => digits 0 false s'
  | _ => digits 0 false s
  end.

(** The number of digits of a literal: the sign and the underscores do
    not count, leading zeros do. *)
Fixpoint count_digits (s : string) : nat :=
  match s with
  | EmptyString => 0
  | String c s' => if Re.digit c then S (count_digits s') else count_digits s'
  end.

(** The decimal text of a number: a [-] for a negative one, then its
    digits, without leading zeros. *)
Definition decimal (z : Z) : string := DecimalString.NilZero.string_of_int (Z.to_int z).

(** [int(s)] for a string [s], on the code points below 256: a literal
    of more than [max_str_digits] digits is refused.  Both failures are
    a [ValueError]; the program never reads its message. *)
Definition int (s : string) : res Z :=
  match signed (PyStr.strip s) with
  | Some z =>
      if (count_digits (PyStr.strip s) <=? max_str_digits)%nat then Return z
      else Raise (ValueError
                    ("Exceeds the limit (4300 digits) for integer string conversion: value has "
                     ++ decimal (Z.of_nat (count_digits (PyStr.strip s)))
                     ++ " digits; use sys.set_int_max_str_digits() to increase the limit"))
  | None => Raise (ValueError ("invalid literal for int() with base 10: " ++ s))
  end.

(** The error of a conversion to text that is refused. *)
Definition too_many_digits : exn :=
  ValueError ("Exceeds the limit (4300 digits) for integer string conversion; "
              ++ "use sys.set_int_max_str_digits() to increase the limit").

(** [str(z)], and [z] formatted in an f-string: the decimal text, and a
    [ValueError] for a number of more than [max_str_digits] digits. *)
Definition str (z : Z) : res string :=
  if (String.length (decimal (Z.abs z)) <=? max_str_digits)%nat then Return (decimal z)
  else Raise too_many_digits.

(** [str(b)] for a [bool] *)
Definition str_bool (b : bool) : string := if b then "True" else "False".

(** [str((x, y))] for two numbers within the limit, as the coordinates
    of a center are. *)
Definition str_pair (p : Z * Z) : string :=
  "(" ++ decimal (fst p) ++ ", " ++ decimal (snd p) ++ ")".

End PyInt.

(** ** The element tree of [xml.etree.ElementTree]

    Only what the program reads: the tag, the attribute dictionary and
    the children.  An element is identified by its path from the root
    (the child indexes), which is what [is] compares. *)

#[warnings="-register-all"]
Inductive Element : Type :=
  | mkElement (tag : string) (attrib : gmap string string) (children : list Element).

Definition tag (e : Element) : string := match e with mkElement t _ _ => t end.
Definition attrib (e : Element) : gmap string string := match e with mkElement _ a _ => a end.
Definition children (e : Element) : list Element := match e with mkElement _ _ cs => cs end.

(** [e.get(key, default)] *)
Definition get (e : Element) (key default : string) : string :=
  match attrib e !! key with
  | Some v => v
  | None => default
  end.

(** [e.get(key)], [None] when absent *)
Definition get_opt (e : Element) (key : string) : option string := attrib e !! key.

Definition path := list nat.

(** [Element.iter(tag)]: the element itself when its tag is [t], then
    the same for each child in turn. *)
Fixpoint iter (t : string) (p : path) (e : Element) : list (path * Element) :=
  (if String.eqb (tag e) t then [(p, e)] else []) ++
  match e with
  | mkElement _ _ cs =>
      (fix over_children (i : nat) (cs : list Element) : list (path * Element) :=
         match cs with
         | [] => []
         | c :: cs' => iter t (p ++ [i]) c ++ over_children (S i) cs'
         end) 0%nat cs
  end.

(** [root.findall(".//" + t)]: for the one element [root] of the
    context, every [e] of [root.iter(t)] with [e is not root]. *)
Definition findall_descendants (t : string) (root : Element) : list Element :=
  map snd (List.filter (fun pe => negb (bool_decide (fst pe = []))) (iter t [] root)).

Definition nl : string := String (ascii_of_nat 10) EmptyString.

(** ** The hierarchy extractor *)

(** The dictionary built for one [node]. *)
Record ElementRecord : Type := mkRecord {
  el_text : string;
  el_content_desc : string;
  el_resource_id : string;
  el_class : string;
  el_package : string;
  el_clickable : bool;
  el_bounds : string;
  el_center : option (Z * Z)
}.

(** [matches[i]] *)
Definition index {A : Type} (l : list A) (i : nat) : res A :=
  match nth_error l i with
  | Some x => Return x
  | None => Raise (IndexError "list index out of range")
  end.

(** Lines 40 to 48 of [_parse_hierarchy]: the center of a bounds string. *)
Definition center_of_bounds (bounds_str : string) : res (option (Z * Z)) :=
  let matches := Re.findall bounds_pattern bounds_str in
  let center := None in
  if (List.length matches =? 2)%nat then
    try_except_value_index
      (let* m0 := index matches 0 in
       let* x1 := PyInt.int (fst m0) in
       let* y1 := PyInt.int (snd m0) in
       let* m1 := index matches 1 in
       let* x2 := PyInt.int (fst m1) in
       let* y2 := PyInt.int (snd m1) in
       Return (Some ((x1 + x2) / 2, (y1 + y2) / 2)%Z))
      (Return center)
  else Return center.

(** The body of the loop of [_parse_hierarchy] for one [node]. *)
Definition record_of_node (node : Element) : res ElementRecord :=
  let bounds_str := get node "bounds" "" in
  let* center := center_of_bounds bounds_str in
  Return {|
    el_text := PyStr.strip (get node "text" "");
    el_content_desc := PyStr.strip (get node "content-desc" "");
    el_resource_id := PyStr.strip (get node "resource-id" "");
    el_class := PyStr.strip (get node "class" "");
    el_package := PyStr.strip (get node "package" "");
    el_clickable := bool_decide (get_opt node "clickable" = Some "true");
    el_bounds := bounds_str;
    el_center := center
  |}.

(** [for node in nodes: elements.append(...)], from [elements]. *)
Fixpoint append_records (elements : list ElementRecord) (nodes : list Element)
  : res (list ElementRecord) :=
  match nodes with
  | [] => Return elements
  | node :: rest =>
      let* r := record_of_node node in
      append_records (elements ++ [r]) rest
  end.

Section Extractor.

(** [ET.fromstring], the XML parser of the standard library. *)
Variable fromstring : string -> res Element.

Definition _parse_hierarchy (xml_data : string) : res (list ElementRecord) :=
  match fromstring xml_data with
  | Raise _ => Return []
  | Return root => append_records [] (findall_descendants "node" root)
  end.

End Extractor.

(** ** The tools

    A tool runs commands on the device bridge one after the other.  The
    state is the list of the commands run so far; what a command prints
    or how it fails may depend on it. *)

Definition command := list string.
Definition trace := list command.

Definition Py (A : Type) : Type := trace -> res A * trace.

Definition py_ret {A : Type} (a : A) : Py A := fun h => (Return a, h).

Definition py_bind {A B : Type} (m : Py A) (k : A -> Py B) : Py B :=
  fun h =>
    match m h with
    | (Return a, h') => k a h'
    | (Raise e, h') => (Raise e, h')
    end.

Definition py_lift {A : Type} (r : res A) : Py A := fun h => (r, h).

(** [try: body except Exception as e: handler(e)] *)
Definition py_try {A : Type} (body : Py A) (handler : exn -> Py A) : Py A :=
  fun h =>
    match body h with
    | (Return a, h') => (Return a, h')
    | (Raise e, h') => handler e h'
    end.

Notation "'run' x ':=' m 'in' k" := (py_bind m (fun x => k))
  (at level 10, x name, m at level 100, k at level 200).

Local Open Scope string_scope.

Section Tools.

(** [subprocess.run(cmd, capture_output=True, text=True, check=True)]
    after the commands of the trace: it returns [result.stdout], raises
    [CalledProcessError] when the exit status is not zero, or raises
    something else (the executable is missing, the output does not
    decode, ...). *)
Variable device : trace -> command -> res string.

(** [ET.fromstring] *)
Variable fromstring : string -> res Element.

(** [os.path.abspath], in the working directory the server has after
    the commands of the trace: it returns the absolute path, or raises
    when there is none (the directory is gone). *)
Variable abspath : trace -> string -> res string.

Definition subprocess_run (cmd : command) : Py string :=
  fun h => (device h cmd, app h [cmd]).

Definition run_adb (args : list string) (device_serial : option string) : Py string :=
  let cmd := ["adb"] in
  let cmd :=
    match device_serial with
    | Some serial => if PyStr.nonempty serial then app cmd ["-s"; serial] else cmd
    | None => cmd
    end in
  let cmd := (cmd ++ args)%list in
  py_try
    (run stdout := subprocess_run cmd in py_ret stdout)
    (fun e =>
       match e with
       | CalledProcessError stderr => py_ret ("Error: " ++ stderr)
       | ParseError msg | ValueError msg | IndexError msg | OtherException msg =>
           py_ret ("Unexpected Error: " ++ msg)
       end).

Definition get_packages (device_serial : option string) : Py string :=
  run output := run_adb ["shell"; "pm"; "list"; "packages"] device_serial in
  if PyStr.startswith "Error" output then py_ret output
  else
    let packages :=
      map (fun line => PyStr.strip (PyStr.replace "package:" "" line))
          (List.filter (fun line => PyStr.startswith "package:" line)
                       (PyStr.split (ascii_of_nat 10) output)) in
    py_ret (PyStr.join nl packages).

Definition execute_adb_shell_command (command : string) (device_serial : option string)
  : Py string :=
  let inner_cmd :=
    if PyStr.startswith "adb shell " command then PyStr.drop 10 command
    else if PyStr.startswith "adb " command then PyStr.drop 4 command
    else command in
  let args := "shell" :: PyStr.split_whitespace inner_cmd in
  run_adb args device_serial.

Definition take_screenshot (filename : string) (device_serial : option string) : Py string :=
  let remote_path := "/sdcard/mcp_screenshot.png" in
  run _ := run_adb ["shell"; "screencap"; "-p"; remote_path] device_serial in
  run _ := run_adb ["pull"; remote_path; filename] device_serial in
  run path := (fun h => (abspath h filename, h)) in
  py_ret ("Screenshot saved to: " ++ path).

(** The first lines of the loop body of [get_uilayout]: the block of
    one element that passes the filter.  The coordinates of a center
    the extractor computed are within the limit of the conversion to
    text, so the f-string writes their decimal text. *)
Definition element_block (el : ElementRecord) : string :=
  let info := ["Element (Clickable: " ++ PyInt.str_bool (el_clickable el) ++ "):"] in
  let info := if PyStr.nonempty (el_text el)
              then app info ["  Text: '" ++ el_text el ++ "'"] else info in
  let info := if PyStr.nonempty (el_content_desc el)
              then app info ["  Description: '" ++ el_content_desc el ++ "'"] else info in
  let info := if PyStr.nonempty (el_resource_id el)
              then app info ["  Resource ID: '" ++ el_resource_id el ++ "'"] else info in
  let info := app info ["  Bounds: " ++ el_bounds el] in
  let info := match el_center el with
              | Some c => app info ["  Center: " ++ PyInt.str_pair c]
              | None => info
              end in
  PyStr.join nl info.

(** [for el in elements: if ...: result.append(...)], from [result]. *)
Fixpoint report_blocks (result : list string) (elements : list ElementRecord) : list string :=
  match elements with
  | [] => result
  | el :: rest =>
      if PyStr.nonempty (el_text el) || PyStr.nonempty (el_content_desc el)
         || PyStr.nonempty (el_resource_id el)
      then report_blocks (app result [element_block el]) rest
      else report_blocks result rest
  end.

(** Lines 101 to 104: the text handed to the extractor. *)
Definition clean_xml (xml_data : string) : string :=
  match Re.search xml_pattern xml_data with
  | Some m => Re.group0 m
  | None => xml_data
  end.

(** Lines 95 to 99 of [get_uilayout]: the dump, straight to the
    terminal first and through a file on the device when that fails. *)
Definition dump_hierarchy (device_serial : option string) : Py string :=
  run xml_data := run_adb ["shell"; "uiautomator"; "dump"; "/dev/tty"] device_serial in
  if negb (PyStr.contains "UI hierchary dumped to:" xml_data)
     && negb (PyStr.startswith "<?xml" (PyStr.strip xml_data))
  then
    run _ := run_adb ["shell"; "uiautomator"; "dump"; "/sdcard/view.xml"] device_serial in
    run xml_data := run_adb ["shell"; "cat"; "/sdcard/view.xml"] device_serial in
    py_ret xml_data
  else py_ret xml_data.

(** Lines 108 to 121 of [get_uilayout]: the report for the elements. *)
Definition report (elements : list ElementRecord) : string :=
  let result := report_blocks [] elements in
  match result with
  | [] => "No meaningful elements found."
  | _ :: _ => PyStr.join (nl ++ nl) result
  end.

Definition get_uilayout (device_serial : option string) : Py string :=
  run xml_data := dump_hierarchy device_serial in
  let xml_data := clean_xml xml_data in
  run elements := py_lift (_parse_hierarchy fromstring xml_data) in
  py_ret (report elements).

(** The arguments of a call are evaluated before it: a number [str]
    refuses stops the tool before [run_adb] is entered. *)
Definition touch (x y : Z) (device_serial : option string) : Py string :=
  run sx := py_lift (PyInt.str x) in
  run sy := py_lift (PyInt.str y) in
  run _ := run_adb ["shell"; "input"; "tap"; sx; sy] device_serial in
  run fx := py_lift (PyInt.str x) in
  run fy := py_lift (PyInt.str y) in
  py_ret ("Touch at (" ++ fx ++ ", " ++ fy ++ ")").

Definition swipe (x1 y1 x2 y2 duration_ms : Z) (device_serial : option string) : Py string :=
  run sx1 := py_lift (PyInt.str x1) in
  run sy1 := py_lift (PyInt.str y1) in
  run sx2 := py_lift (PyInt.str x2) in
  run sy2 := py_lift (PyInt.str y2) in
  run sd := py_lift (PyInt.str duration_ms) in
  run _ := run_adb ["shell"; "input"; "swipe"; sx1; sy1; sx2; sy2; sd] device_serial in
  run fx1 := py_lift (PyInt.str x1) in
  run fy1 := py_lift (PyInt.str y1) in
  run fx2 := py_lift (PyInt.str x2) in
  run fy2 := py_lift (PyInt.str y2) in
  py_ret ("Swipe from (" ++ fx1 ++ ", " ++ fy1 ++ ") to (" ++ fx2 ++ ", " ++ fy2 ++ ")").

Definition launch_app (package_name : string) (activity : option string)
    (device_serial : option string) : Py string :=
  run _ :=
    (match activity with
     | Some (String c a) =>
         run_adb ["shell"; "am"; "start"; "-n"; package_name ++ "/" ++ String c a] device_serial
     | _ =>
         run_adb ["shell"; "monkey"; "-p"; package_name; "-c";
                  "android.intent.category.LAUNCHER"; "1"] device_serial
     end) in
  py_ret ("Launched " ++ package_name).

Definition stop_app (package_name : string) (device_serial : option string) : Py string :=
  run _ := run_adb ["shell"; "am"; "force-stop"; package_name] device_serial in
  py_ret ("Stopped " ++ package_name).

Definition input_text (text : string) (device_serial : option string) : Py string :=
  let escaped := PyStr.replace " " "%s" text in
  run _ := run_adb ["shell"; "input"; "text"; escaped] device_serial in
  py_ret ("Typed: " ++ text).

End Tools.

(** ** A reference parser for the worked examples

    [ET.fromstring] is the expat parser of the standard library and is
    a parameter of the development.  The examples run the program on
    real dumps, so they need one parser: this one reads the fragment of
    XML that [uiautomator] writes (an optional declaration, elements,
    quoted attributes, character data between the tags, no comments,
    no entity references) and raises [ParseError] on everything else. *)

Module RefXml.

Definition xml_space (c : ascii) : bool :=
  let n := nat_of_ascii c in ((n =? 32) || (n =? 9) || (n =? 10) || (n =? 13))%nat.

Definition name_start (c : ascii) : bool :=
  let n := nat_of_ascii c in
  (((65 <=? n) && (n <=? 90)) || ((97 <=? n) && (n <=? 122)) || (n =? 95) || (n =? 58))%nat.

Definition name_char (c : ascii) : bool :=
  name_start c || Re.digit c || Ascii.eqb c "-" || Ascii.eqb c ".".

(** The longest prefix of [s] in the class, and what follows it. *)
Fixpoint span (cls : ascii -> bool) (s : string) : string * string :=
  match s with
  | String c s' =>
      if cls c then let (a, b) := span cls s' in (String c a, b) else (EmptyString, s)
  | EmptyString => (EmptyString, EmptyString)
  end.

Definition skip_space (s : string) : string := snd (span xml_space s).

Definition name (s : string) : option (string * string) :=
  match s with
  | String c _ => if name_start c then Some (span name_char s) else None
  | EmptyString => None
  end.

(** An attribute value up to its closing quote [q]; white space is
    normalised to a space. *)
Fixpoint attr_value (q : ascii) (s : string) : option (string * string) :=
  match s with
  | EmptyString => None
  | String c s' =>
      if Ascii.eqb c q then Some (EmptyString, s')
      else if Ascii.eqb c "<" || Ascii.eqb c "&" then None
      else match attr_value q s' with
           | Some (v, r) => Some (String (if xml_space c then " "%char else c) v, r)
           | None => None
           end
  end.

(** The attributes of a start tag and its end: [true] for [/>]. *)
Fixpoint attributes (fuel : nat) (acc : gmap string string) (s : string)
  : option (gmap string string * bool * string) :=
  match fuel with
  | O => None
  | S fuel' =>
      let s1 := skip_space s in
      if PyStr.startswith "/>" s1 then Some (acc, true, PyStr.drop 2 s1)
      else if PyStr.startswith ">" s1 then Some (acc, false, PyStr.drop 1 s1)
      else if (String.length s1 =? String.length s)%nat then None
      else
        match name s1 with
        | None => None
        | Some (k, s2) =>
            match skip_space s2 with
            | String "=" s3 =>
                match skip_space s3 with
                | String q s4 =>
                    if Ascii.eqb q (ascii_of_nat 34) || Ascii.eqb q "'" then
                      match attr_value q s4 with
                      | Some (v, s5) =>
                          match acc !! k with
                          | Some _ => None
                          | None => attributes fuel' (<[k := v]> acc) s5
                          end
                      | None => None
                      end
                    else None
                | EmptyString => None
                end
            | _ => None
            end
        end
  end.

(** Character data up to the next tag. *)
Fixpoint chardata (s : string) : option string :=
  match s with
  | String c s' =>
      if Ascii.eqb c "<" then Some s
      else if Ascii.eqb c "&" then None
      else chardata s'
  | EmptyString => Some EmptyString
  end.

(** An element at the start of [s], and the content of an element up
    to its end tag. *)
Fixpoint element (fuel : nat) (s : string) : option (Element * string) :=
  match fuel with
  | O => None
  | S fuel' =>
      match s with
      | String "<" s1 =>
          match name s1 with
          | None => None
          | Some (t, s2) =>
              match attributes (S (String.length s2)) ∅ s2 with
              | Some (a, true, s3) => Some (mkElement t a [], s3)
              | Some (a, false, s3) =>
                  match content fuel' s3 with
                  | Some (cs, s4) =>
                      if PyStr.startswith ("</" ++ t) s4 then
                        match skip_space (PyStr.drop (2 + String.length t) s4) with
                        | String ">" s5 => Some (mkElement t a cs, s5)
                        | _ => None
                        end
                      else None
                  | None => None
                  end
              | None => None
              end
          end
      | _ => None
      end
  end
with content (fuel : nat) (s : string) : option (list Element * string) :=
  match fuel with
  | O => None
  | S fuel' =>
      match chardata s with
      | None => None
      | Some s1 =>
          if PyStr.startswith "</" s1 then Some ([], s1)
          else
            match element fuel' s1 with
            | Some (c, s2) =>
                match content fuel' s2 with
                | Some (cs, s3) => Some (c :: cs, s3)
                | None => None
                end
            | None => None
            end
      end
  end.

(** The declaration [<?xml ... ?>], when the document starts with one. *)
Fixpoint after_declaration (s : string) : option string :=
  match s with
  | String c s' => if PyStr.startswith "?>" s then Some (PyStr.drop 2 s) else after_declaration s'
  | EmptyString => None
  end.

Definition fromstring (s : string) : res Element :=
  let body :=
    if PyStr.startswith "<?xml" s then after_declaration (PyStr.drop 5 s) else Some s in
  match body with
  | None => Raise (ParseError "syntax error")
  | Some b =>
      match element (S (String.length b)) (skip_space b) with
      | Some (root, rest) =>
          match skip_space rest with
          | EmptyString => Return root
          | _ => Raise (ParseError "junk after document element")
          end
      | None => Raise (ParseError "syntax error")
      end
  end.

End RefXml.

(** * What the specification speaks of *)

(** ** Occurrences of a text in another *)

(** [p] occurs in [s] between [pre] and [post], and does not occur
    further left. *)
Definition first_occurrence (p s pre post : string) : Prop :=
  s = pre ++ p ++ post /\
  forall pre' post', s = pre' ++ p ++ post' -> (String.length pre <= String.length pre')%nat.

(** [s.find(p)], as the text before and after the first occurrence. *)
Fixpoint split_first (p s : string) : option (string * string) :=
  if PyStr.startswith p s then Some (EmptyString, PyStr.drop (String.length p) s)
  else match s with
       | EmptyString => None
       | String c s' =>
           match split_first p s' with
           | Some (a, b) => Some (String c a, b)
           | None => None
           end
       end.

(** [s.rfind(p)], as the text before and after the last occurrence. *)
Fixpoint split_last (p s : string) : option (string * string) :=
  match s with
  | EmptyString =>
      if PyStr.startswith p s then Some (EmptyString, PyStr.drop (String.length p) s) else None
  | String c s' =>
      match split_last p s' with
      | Some (a, b) => Some (String c a, b)
      | None =>
          if PyStr.startswith p s then Some (EmptyString, PyStr.drop (String.length p) s)
          else None
      end
  end.

(** The text from the first [<?xml] to the last [</hierarchy>], as a
    greedy match would isolate it; the text itself when there is none. *)
Definition greedy_clean (s : string) : string :=
  match split_first "<?xml" s with
  | Some (_, r) =>
      match split_last "</hierarchy>" r with
      | Some (b, _) => "<?xml" ++ b ++ "</hierarchy>"
      | None => s
      end
  | None => s
  end.

(** What follows [<?xml] in the pattern: the text up to the first [>],
    then the text up to the first [</hierarchy>] after it. *)
Definition declaration_and_body (r1 : string) : option (string * string * string) :=
  match split_first ">" r1 with
  | Some (a, r2) =>
      match split_first "</hierarchy>" r2 with
      | Some (b, post) => Some (a, b, post)
      | None => None
      end
  | None => None
  end.

(** The text from the first [<?xml], cut as the pattern cuts it. *)
Definition first_match (s : string) : option (string * string * string * string) :=
  match split_first "<?xml" s with
  | Some (pre, r1) =>
      match declaration_and_body r1 with
      | Some (a, b, post) => Some (pre, a, b, post)
      | None => None
      end
  | None => None
  end.

(** ** The command line of [run_adb] and the text it returns *)

(** The command line [run_adb] builds. *)
Definition adb_command (args : list string) (device_serial : option string) : command :=
  ("adb" ::
   match device_serial with
   | Some (String c serial) => ["-s"; String c serial]
   | _ => []
   end ++ args)%list.

(** [str(e)] for the exceptions [run_adb] reports as unexpected. *)
Definition exn_message (e : exn) : string :=
  match e with
  | CalledProcessError stderr => stderr
  | ParseError msg | ValueError msg | IndexError msg | OtherException msg => msg
  end.

(** The text [run_adb] returns for each outcome of the process. *)
Definition adb_text (outcome : res string) : string :=
  match outcome with
  | Return stdout => stdout
  | Raise (CalledProcessError stderr) => "Error: " ++ stderr
  | Raise e => "Unexpected Error: " ++ exn_message e
  end.

(** ** Lines *)

(** [c not in s] *)
Fixpoint lacks (c : ascii) (s : string) : bool :=
  match s with
  | EmptyString => true
  | String d s' => negb (Ascii.eqb c d) && lacks c s'
  end.

(** The line feed. *)
Definition LF : ascii := ascii_of_nat 10.

(** [lines] are the lines of [text]: there is at least one, none holds
    a line feed, and joined by line feeds they give the text. *)
Definition lines_of (text : string) (lines : list string) : Prop :=
  lines <> [] /\ Forall (fun l => lacks LF l = true) lines /\ text = PyStr.join nl lines.

(** The text without the occurrences of [p]: the first one is taken
    out, then the first one of what follows it, and so on.  [fuel]
    bounds the number of occurrences. *)
Fixpoint without_fuel (fuel : nat) (p s : string) : string :=
  match fuel with
  | O => s
  | S fuel' =>
      match split_first p s with
      | Some (a, b) => a ++ without_fuel fuel' p b
      | None => s
      end
  end.

Definition without (p s : string) : string := without_fuel (String.length s) p s.

(** The entry [get_packages] makes of a line: every [package:] taken
    out, not the one at the start alone, and the white space at both
    ends. *)
Definition package_entry (line : string) : string :=
  PyStr.strip (without "package:" line).

(** The entries of the lines that start with [package:], in order. *)
Definition package_entries (lines : list string) : list string :=
  map package_entry (List.filter (PyStr.startswith "package:") lines).

(** The list of packages as the claim words it: of each line that
    starts with [package:], what follows that prefix. *)
Definition prefix_removed (lines : list string) : list string :=
  map (PyStr.drop 8) (List.filter (PyStr.startswith "package:") lines).

(** The characters of the lines, one more for each line. *)
Fixpoint total (lines : list string) : nat :=
  match lines with
  | [] => 0%nat
  | l :: ls => S (String.length l + total ls)
  end.

(** The expression [get_packages] joins, named for the proofs. *)
Definition package_lines (output : string) : list string :=
  map (fun line => PyStr.strip (PyStr.replace "package:" "" line))
      (List.filter (fun line => PyStr.startswith "package:" line)
                   (PyStr.split (ascii_of_nat 10) output)).

(** ** Bracket pairs and their numbers *)

(** The longest run of digits at the start of a text, and the rest. *)
Fixpoint digits_span (s : string) : string * string :=
  match s with
  | String c s' =>
      if Re.digit c then let (a, r) := digits_span s' in (String c a, r)
      else (EmptyString, s)
  | EmptyString => (EmptyString, EmptyString)
  end.

(** One bracket pair [[a,b]] of digit runs at the start of a text: the
    two runs and the text after the pair. *)
Definition bracket_at (s : string) : option (string * string * string) :=
  match s with
  | String "[" s1 =>
      match digits_span s1 with
      | (String d a, String "," s3) =>
          match digits_span s3 with
          | (String e b, String "]" s5) => Some (String d a, String e b, s5)
          | _ => None
          end
      | _ => None
      end
  | _ => None
  end.

(** A text of digits only. *)
Fixpoint all_digits (s : string) : bool :=
  match s with
  | EmptyString => true
  | String c s' => Re.digit c && all_digits s'
  end.

(** A run of at least one digit: what [\d+] matches. *)
Definition is_int_text (s : string) : bool := PyStr.nonempty s && all_digits s.

(** The number a run of digits denotes, from [acc]. *)
Fixpoint decimal_value (acc : Z) (s : string) : Z :=
  match s with
  | EmptyString => acc
  | String c s' => decimal_value (10 * acc + PyInt.digit_val c) s'
  end.

(** The text of a bracket pair. *)
Definition bracket (a b : string) : string := "[" ++ a ++ "," ++ b ++ "]".

(** The digits [str] writes for a number that is not negative. *)
Definition uint_value : Z -> Decimal.uint -> Z :=
  fix value (acc : Z) (d : Decimal.uint) : Z :=
    match d with
    | Decimal.Nil => acc
    | Decimal.D0 d' => value (10 * acc + 0)%Z d'
    | Decimal.D1 d' => value (10 * acc + 1)%Z d'
    | Decimal.D2 d' => value (10 * acc + 2)%Z d'
    | Decimal.D3 d' => value (10 * acc + 3)%Z d'
    | Decimal.D4 d' => value (10 * acc + 4)%Z d'
    | Decimal.D5 d' => value (10 * acc + 5)%Z d'
    | Decimal.D6 d' => value (10 * acc + 6)%Z d'
    | Decimal.D7 d' => value (10 * acc + 7)%Z d'
    | Decimal.D8 d' => value (10 * acc + 8)%Z d'
    | Decimal.D9 d' => value (10 * acc + 9)%Z d'
    end.

(** The midpoint the program computes from two pairs of digit runs. *)
Definition midpoint (g1 g2 : string * string) : Z * Z :=
  ((decimal_value 0 (fst g1) + decimal_value 0 (fst g2)) / 2,
   (decimal_value 0 (snd g1) + decimal_value 0 (snd g2)) / 2)%Z.

(** A run of at most 4300 digits: one that is read as a number. *)
Definition readable (s : string) : bool := (String.length s <=? 4300)%nat.

(** Both runs of a pair are read as numbers. *)
Definition readable_pair (g : string * string) : bool := readable (fst g) && readable (snd g).

(** The center in terms of the pairs found: the midpoint of exactly
    two pairs whose four runs are read as numbers. *)
Definition center_of_matches (matches : list (string * string)) : option (Z * Z) :=
  match matches with
  | [g1; g2] => if readable_pair g1 && readable_pair g2 then Some (midpoint g1 g2) else None
  | _ => None
  end.

(** The least number that is not negative and has more than 4300 digits. *)
Definition digit_limit : Z := (10 ^ 4300)%Z.

(** A text with none of the characters [[], []] and [,]. *)
Definition plain (s : string) : bool := lacks "[" s && lacks "]" s && lacks "," s.

(** Bracket pairs one after the other, each after some text, and a
    text after the last. *)
Fixpoint render (l : list (string * string * string)) (last : string) : string :=
  match l with
  | [] => last
  | (noise, a, b) :: l' => noise ++ bracket a b ++ render l' last
  end.

Definition int_pair (e : string * string * string) : bool :=
  is_int_text (snd (fst e)) && is_int_text (snd e).

Definition pair_of (e : string * string * string) : string * string := (snd (fst e), snd e).

(** The text [[x1,y1][x2,y2]] of two corners, for any four integers. *)
Definition bounds_text (x1 y1 x2 y2 : Z) : string :=
  bracket (PyInt.decimal x1) (PyInt.decimal y1) ++ bracket (PyInt.decimal x2) (PyInt.decimal y2).

(** *** The center as the claim words it

    A bracket pair is what stands between a [[] and the next []]; it is
    a pair of integers when a comma splits it in two integers, each
    with or without a sign. *)
Fixpoint bracket_pairs_from (cur : option string) (s : string) : list string :=
  match s with
  | EmptyString => []
  | String c s' =>
      match cur with
      | None =>
          if Ascii.eqb c "[" then bracket_pairs_from (Some EmptyString) s'
          else bracket_pairs_from None s'
      | Some g =>
          if Ascii.eqb c "]" then g :: bracket_pairs_from None s'
          else bracket_pairs_from (Some (g ++ String c EmptyString)%string) s'
      end
  end.

Definition bracket_pairs (s : string) : list string := bracket_pairs_from None s.

Definition integer_pair (g : string) : option (Z * Z) :=
  match split_first "," g with
  | Some (a, b) =>
      match PyInt.signed a, PyInt.signed b with
      | Some x, Some y => Some (x, y)
      | _, _ => None
      end
  | None => None
  end.

(** The midpoint for exactly two bracket pairs, both of integers;
    absent for any other number of pairs or other content. *)
Definition center_as_claimed (s : string) : option (Z * Z) :=
  match map integer_pair (bracket_pairs s) with
  | [Some (x1, y1); Some (x2, y2)] => Some ((x1 + x2) / 2, (y1 + y2) / 2)%Z
  | _ => None
  end.

(** ** The elements of a document and their records *)

(** Every element of the tree under [e], [e] first: document order. *)
Fixpoint preorder (e : Element) : list Element :=
  match e with
  | mkElement _ _ cs => e :: flat_map preorder cs
  end.

(** The elements below [e], in document order. *)
Definition descendants (e : Element) : list Element := flat_map preorder (children e).

Definition is_node (e : Element) : bool := String.eqb (tag e) "node".

(** The [node] elements of a document, in document order. *)
Definition node_elements (root : Element) : list Element := List.filter is_node (preorder root).

(** The record of a node, field by field. *)
Definition describes (node : Element) (r : ElementRecord) : Prop :=
  el_text r = PyStr.strip (default "" (attrib node !! "text")) /\
  el_content_desc r = PyStr.strip (default "" (attrib node !! "content-desc")) /\
  el_resource_id r = PyStr.strip (default "" (attrib node !! "resource-id")) /\
  el_class r = PyStr.strip (default "" (attrib node !! "class")) /\
  el_package r = PyStr.strip (default "" (attrib node !! "package")) /\
  (el_clickable r = true <-> attrib node !! "clickable" = Some "true") /\
  el_bounds r = default "" (attrib node !! "bounds") /\
  el_center r = center_of_matches (Re.findall bounds_pattern (el_bounds r)).

(** The children part of [iter], from child number [i]. *)
Fixpoint iter_children (t : string) (p : path) (i : nat) (cs : list Element)
  : list (path * Element) :=
  match cs with
  | [] => []
  | c :: cs' => (iter t (p ++ [i]) c ++ iter_children t p (S i) cs')%list
  end.

(** The record of one node, as a value. *)
Definition node_record (node : Element) : ElementRecord :=
  {| el_text := PyStr.strip (get node "text" "");
     el_content_desc := PyStr.strip (get node "content-desc" "");
     el_resource_id := PyStr.strip (get node "resource-id" "");
     el_class := PyStr.strip (get node "class" "");
     el_package := PyStr.strip (get node "package" "");
     el_clickable := bool_decide (get_opt node "clickable" = Some "true");
     el_bounds := get node "bounds" "";
     el_center := center_of_matches (Re.findall bounds_pattern (get node "bounds" "")) |}.

(** ** The report *)

(** The test of the presentation filter. *)
Definition meaningful (el : ElementRecord) : bool :=
  PyStr.nonempty (el_text el) || PyStr.nonempty (el_content_desc el)
  || PyStr.nonempty (el_resource_id el).

Definition sentinel : string := "No meaningful elements found.".

(** The first attempt asks for the fallback. *)
Definition needs_fallback (xml_data : string) : bool :=
  negb (PyStr.contains "UI hierchary dumped to:" xml_data)
  && negb (PyStr.startswith "<?xml" (PyStr.strip xml_data)).

Definition dump_to_tty : list string := ["shell"; "uiautomator"; "dump"; "/dev/tty"].
Definition dump_to_file : list string := ["shell"; "uiautomator"; "dump"; "/sdcard/view.xml"].
Definition cat_file : list string := ["shell"; "cat"; "/sdcard/view.xml"].

(** The report [get_uilayout] makes of a dumped text. *)
Definition layout_of (fromstring : string -> res Element) (xml_data : string) : string :=
  report match fromstring (clean_xml xml_data) with
         | Return root => map node_record (List.filter is_node (descendants root))
         | Raise _ => []
         end.

(** ** Bridges and dumps for the examples *)

(** A bridge on which every command fails because [adb] is missing. *)
Definition no_adb : trace -> command -> res string :=
  fun _ _ => Raise (OtherException "[Errno 2] No such file or directory: 'adb'").

(** A device that answers the dump to [/dev/tty] with the text [out]
    and fails on every other command. *)
Definition tty_device (out : string) : trace -> command -> res string :=
  fun _ cmd =>
    match cmd with
    | [_; _; _; _; "/dev/tty"] => Return out
    | _ => Raise (CalledProcessError "error: closed")
    end.

(** A device with no [/dev/tty] dump and the text [out] in the file. *)
Definition file_device (out : string) : trace -> command -> res string :=
  fun _ cmd =>
    match cmd with
    | [_; _; "cat"; _] => Return out
    | [_; _; _; _; "/dev/tty"] => Raise (CalledProcessError "ERROR: could not get idle state.")
    | _ => Return "UI hierchary dumped to: /sdcard/view.xml"
    end.

(** A dump of three nodes, two of them nested, among other elements. *)
Definition ex_dump : string :=
  "<?xml version='1.0' encoding='UTF-8' standalone='yes' ?>"
  ++ "<hierarchy rotation='0'>"
  ++ "<node text=' Settings ' class='android.widget.TextView' clickable='true'"
  ++ " bounds='[0,100][200,301]'>"
  ++ "<group><node resource-id='com.app:id/ok' clickable='false' bounds='[5,5]'/></group>"
  ++ "</node>"
  ++ "<node class='android.view.View' clickable='TRUE' bounds='[0,0][10,10][20,20]'/>"
  ++ "</hierarchy>".

Definition ex_root : Element :=
  Eval vm_compute in
    match RefXml.fromstring ex_dump with
    | Return root => root
    | Raise _ => mkElement "" ∅ []
    end.

Definition ex_tty_output : string := ex_dump ++ "UI hierchary dumped to: /dev/tty" ++ nl.

(** A hierarchy whose only node has none of the three attributes. *)
Definition ex_bare_output : string :=
  "<?xml version='1.0' encoding='UTF-8' standalone='yes' ?>"
  ++ "<hierarchy rotation='0'><node class='android.view.View' clickable='true'/></hierarchy>"
  ++ "UI hierchary dumped to: /dev/tty".

(** A dump between a shell banner and a line that names the closing
    tag again. *)
Definition ex_noisy : string :=
  "* daemon started successfully" ++ nl
  ++ "<?xml version='1.0'?><hierarchy><node text='A'/></hierarchy>" ++ nl
  ++ "trailing </hierarchy> junk".

(** ** Words, listings and invariants of the further properties *)

(** No character of the text is white space. *)
Fixpoint no_space (s : string) : bool :=
  match s with
  | EmptyString => true
  | String c s' => negb (PyStr.isspace c) && no_space s'
  end.

(** Every character of the text is white space. *)
Fixpoint all_space (s : string) : bool :=
  match s with
  | EmptyString => true
  | String c s' => PyStr.isspace c && all_space s'
  end.

(** A word: at least one character, none of them white space. *)
Definition word (s : string) : bool := PyStr.nonempty s && no_space s.

(** Each space replaced by [%s], character by character. *)
Fixpoint escape_spaces (s : string) : string :=
  match s with
  | EmptyString => EmptyString
  | String c s' =>
      if Ascii.eqb c " " then String "%" (String "s" (escape_spaces s'))
      else String c (escape_spaces s')
  end.

(** What [pm list packages] prints for the packages [names]: one line
    [package:name] for each. *)
Fixpoint pm_listing (names : list string) : string :=
  match names with
  | [] => EmptyString
  | n :: names' => "package:" ++ n ++ nl ++ pm_listing names'
  end.

(** A name that can stand on such a line: no white space in it, and
    no [package:]. *)
Definition package_name (n : string) : bool :=
  no_space n && negb (PyStr.contains "package:" n).

(** The text is empty or starts with a character that is not white space. *)
Definition starts_clean (s : string) : bool :=
  match s with
  | EmptyString => true
  | String c _ => negb (PyStr.isspace c)
  end.

(** The text is empty or ends with a character that is not white space. *)
Fixpoint ends_clean (s : string) : bool :=
  match s with
  | EmptyString => true
  | String c EmptyString => negb (PyStr.isspace c)
  | String _ s' => ends_clean s'
  end.

(** [e] is [s] without the white space at its two ends. *)
Definition trimmed_of (s e : string) : Prop :=
  exists lead trail,
    s = lead ++ e ++ trail /\ all_space lead = true /\ all_space trail = true /\
    starts_clean e = true /\ ends_clean e = true.

(** A device with two packages. *)
Definition two_packages : trace -> command -> res string :=
  fun _ _ => Return (pm_listing ["com.android.settings"; "org.example.app"]).

(** The center of a record, when there is one, comes from exactly two
    corners found in its bounds and lies between them on both axes,
    whichever corner comes first; its coordinates are not negative. *)
Definition center_inside (r : ElementRecord) : Prop :=
  forall cx cy, el_center r = Some (cx, cy) ->
  exists a1 b1 a2 b2,
    Re.findall bounds_pattern (el_bounds r) = [(a1, b1); (a2, b2)] /\
    (0 <= Z.min (decimal_value 0 a1) (decimal_value 0 a2) <= cx)%Z /\
    (cx <= Z.max (decimal_value 0 a1) (decimal_value 0 a2))%Z /\
    (0 <= Z.min (decimal_value 0 b1) (decimal_value 0 b2) <= cy)%Z /\
    (cy <= Z.max (decimal_value 0 b1) (decimal_value 0 b2))%Z.

(** The five text fields of a record have no white space at either end. *)
Definition trimmed (r : ElementRecord) : Prop :=
  Forall (fun s => PyStr.strip s = s /\ starts_clean s = true)
    [el_text r; el_content_desc r; el_resource_id r; el_class r; el_package r].

(** The records of the example dump. *)
Definition ex_records : list ElementRecord :=
  Eval vm_compute in
    match _parse_hierarchy RefXml.fromstring ex_dump with
    | Return records => records
    | Raise _ => []
    end.

(** A dump whose root is a node. *)
Definition ex_node_root : string :=
  "<node text='root' bounds='[0,0][9,9]'><node text='child' bounds='[1,1][3,3]'/></node>".

Definition ex_node_root_tree : Element :=
  Eval vm_compute in
    match RefXml.fromstring ex_node_root with
    | Return root => root
    | Raise _ => mkElement "" ∅ []
    end.




(** Words with the white space that follows each: a word is not empty
    and holds no white space, a gap is white space only and is not
    empty unless it is the last. *)
Fixpoint spaced (l : list (string * string)) : string :=
  match l with
  | [] => EmptyString
  | (w, gap) :: l' => w ++ gap ++ spaced l'
  end.

Fixpoint well_spaced (l : list (string * string)) : bool :=
  match l with
  | [] => true
  | (w, gap) :: l' =>
      word w && all_space gap && well_spaced l'
      && match l' with
         | [] => true
         | _ :: _ => PyStr.nonempty gap
         end
  end.

(** The text of a shell command once [adb shell ] or else [adb ] is
    taken off its start. *)
Definition inner_command (command inner : string) : Prop :=
  command = "adb shell " ++ inner \/
  (PyStr.startswith "adb shell " command = false /\ command = "adb " ++ inner) \/
  (PyStr.startswith "adb " command = false /\ command = inner).

(** A device whose listing prints nothing, one that prints a line with
    [package:] twice, and a bridge whose failure has a message of two
    lines. *)
Definition silent_device : trace -> command -> res string := fun _ _ => Return "".

Definition nested_listing : trace -> command -> res string :=
  fun _ _ => Return "package:a.package:b ".

Definition failing_with_a_line : trace -> command -> res string :=
  fun _ _ => Raise (OtherException ("boom" ++ nl ++ "package:evil")).

(** A bridge of a machine whose working directory is gone. *)
Definition no_cwd : trace -> string -> res string :=
  fun _ _ => Raise (OtherException "[Errno 2] No such file or directory").

(** A machine whose working directory is [/srv]. *)
Definition in_srv : trace -> string -> res string :=
  fun _ filename => Return ("/srv/" ++ filename).

(** A node whose text is white space and that has no other attribute. *)
Definition ex_blank_node : Element := mkElement "node" {[ "text" := "   " ]} [].

(** * Proofs *)

(** ** Strings *)

Section StringFacts.

Lemma append_nil_r (s : string) : s ++ "" = s.
Proof. induction s as [|c s IH]; simpl; [reflexivity | now rewrite IH]. Qed.

Lemma append_assoc (a b c : string) : (a ++ b) ++ c = a ++ b ++ c.
Proof. induction a as [|x a IH]; simpl; [reflexivity | now rewrite IH]. Qed.

Lemma length_append (a b : string) :
  String.length (a ++ b) = (String.length a + String.length b)%nat.
Proof. induction a as [|x a IH]; simpl; [reflexivity | now rewrite IH]. Qed.

Lemma append_inv_length (a a' x y : string) :
  a ++ x = a' ++ y -> String.length a = String.length a' -> a = a' /\ x = y.
Proof.
  revert a'; induction a as [|c a IH]; intros [|c' a'] H L; simpl in *; try discriminate.
  - split; [reflexivity | exact H].
  - injection H as -> H. injection L as L.
    destruct (IH _ H L) as [-> ->]. split; reflexivity.
Qed.

Lemma startswith_app (p r : string) : PyStr.startswith p (p ++ r) = true.
Proof.
  induction p as [|c p IH]; simpl; [reflexivity |].
  now rewrite Ascii.eqb_refl.
Qed.

Lemma startswith_true (p s : string) :
  PyStr.startswith p s = true -> s = p ++ PyStr.drop (String.length p) s.
Proof.
  revert s; induction p as [|c p IH]; intros s H; simpl in *; [reflexivity |].
  destruct s as [|d s]; [discriminate |].
  destruct (Ascii.eqb_spec c d) as [->|]; [| discriminate].
  now rewrite <- (IH _ H).
Qed.

Lemma drop_app (p r : string) : PyStr.drop (String.length p) (p ++ r) = r.
Proof. induction p as [|c p IH]; simpl; [now destruct r | exact IH]. Qed.

Lemma take_app (p r : string) : PyStr.take (String.length p) (p ++ r) = p.
Proof. induction p as [|c p IH]; simpl; [now destruct r | now rewrite IH]. Qed.

Lemma startswith_iff (p s : string) :
  PyStr.startswith p s = true <-> exists r, s = p ++ r.
Proof.
  split.
  - intros H. eexists. now apply startswith_true.
  - intros [r ->]. apply startswith_app.
Qed.

Lemma between_app (m post : string) : Re.between (m ++ post) post = m.
Proof.
  unfold Re.between. rewrite length_append.
  replace (String.length m + String.length post - String.length post)%nat
    with (String.length m) by lia.
  apply take_app.
Qed.

End StringFacts.

(** Appends associated to the right, with the literals pushed inside. *)
Ltac normalize_append :=
  repeat first [rewrite !append_assoc | progress cbn [String.append]].

(** ** The primitives on some inputs *)

Example findall_examples :
  Re.findall bounds_pattern "[10,20][30,40]" = [("10", "20"); ("30", "40")] /\
  Re.findall bounds_pattern "[-1,2][3,4]" = [("3", "4")] /\
  Re.findall bounds_pattern "[1.5,2][3,4]" = [("3", "4")] /\
  Re.findall bounds_pattern "[007,1][1,2]" = [("007", "1"); ("1", "2")] /\
  Re.findall bounds_pattern "[[1,2]][3,4,5][6,7]" = [("1", "2"); ("6", "7")].
Proof. repeat split; reflexivity. Qed.

Example search_examples :
  option_map Re.group0 (Re.search xml_pattern "<?xml</hierarchy>") = None /\
  option_map Re.group0
    (Re.search xml_pattern "<?xml a <?xml b> c </hierarchy> d </hierarchy>")
  = Some "<?xml a <?xml b> c </hierarchy>".
Proof. split; vm_compute; reflexivity. Qed.

Example int_examples :
  PyInt.int " -1_000 " = Return (-1000)%Z /\
  PyInt.int "+5" = Return 5%Z /\
  PyInt.int "007" = Return 7%Z /\
  PyInt.int "1__0" = Raise (ValueError "invalid literal for int() with base 10: 1__0") /\
  PyInt.int "" = Raise (ValueError "invalid literal for int() with base 10: ") /\
  PyInt.str (-120) = Return "-120" /\
  PyInt.str_pair (0, 15)%Z = "(0, 15)".
Proof. repeat split; reflexivity. Qed.

Example string_examples :
  PyStr.split (ascii_of_nat 10) ("package:a " ++ nl ++ "x" ++ nl) = ["package:a "; "x"; ""] /\
  PyStr.split (ascii_of_nat 10) "" = [""] /\
  PyStr.replace "package:" "" "package:b.package:c" = "b.c" /\
  PyStr.replace " " "%s" "a b" = "a%sb" /\
  PyStr.strip ("  a b " ++ nl) = "a b" /\
  PyStr.split_whitespace "  ls   -la /sdcard " = ["ls"; "-la"; "/sdcard"].
Proof. repeat split; vm_compute; reflexivity. Qed.

Example without_examples :
  without "package:" "package:b.package:c" = "b.c" /\
  without "package:" "packpackage:age:x" = "package:x" /\
  without "aa" "aaa" = "a" /\
  package_entry "package: com.app " = "com.app" /\
  bracket_pairs "a[1,2]b[x]" = ["1,2"; "x"] /\
  PyInt.int ("0012" ++ nl) = Return 12%Z /\
  PyInt.str 0 = Return "0".
Proof. repeat split; vm_compute; reflexivity. Qed.

(** ** First occurrences *)

Section Occurrences.

Lemma split_first_sound (p s a b : string) :
  split_first p s = Some (a, b) -> first_occurrence p s a b.
Proof.
  revert a b; induction s as [|c s IH]; intros a b; simpl.
  - destruct (PyStr.startswith p "") eqn:E; [| discriminate].
    intros [= <- <-]. split; [| simpl; lia].
    now apply startswith_true in E.
  - destruct (PyStr.startswith p (String c s)) eqn:E.
    + intros [= <- <-]. split; [| simpl; lia].
      now apply startswith_true in E.
    + destruct (split_first p s) as [[a' b']|] eqn:F; [| discriminate].
      intros [= <- <-]. destruct (IH _ _ eq_refl) as [Hs Hmin].
      split; [simpl; now rewrite <- Hs |].
      intros [|c' pre'] post' H; simpl in H.
      * rewrite H, startswith_app in E. discriminate.
      * injection H as _ H. simpl. apply le_n_S. now apply (Hmin pre' post').
Qed.

Lemma split_first_complete (p s a b : string) :
  s = a ++ p ++ b -> exists a' b', split_first p s = Some (a', b').
Proof.
  revert s; induction a as [|c a IH]; intros s ->; simpl.
  - destruct (p ++ b) eqn:E; simpl; rewrite <- ?E, startswith_app; eauto.
  - destruct (PyStr.startswith p (String c (a ++ p ++ b))); [eauto |].
    destruct (IH _ eq_refl) as (a' & b' & ->). eauto.
Qed.

Lemma split_first_None (p s : string) :
  split_first p s = None -> forall a b, s <> a ++ p ++ b.
Proof.
  intros H a b E. destruct (split_first_complete _ _ _ _ E) as (a' & b' & F). congruence.
Qed.

Lemma first_occurrence_unique (p s a b a' b' : string) :
  first_occurrence p s a b -> first_occurrence p s a' b' -> a = a' /\ b = b'.
Proof.
  intros [E M] [E' M'].
  assert (L : String.length a = String.length a').
  { apply Nat.le_antisymm; [apply (M a' b') | apply (M' a b)]; assumption. }
  rewrite E in E'. destruct (append_inv_length _ _ _ _ E' L) as [-> E2].
  split; [reflexivity |].
  apply (append_inv_length p p) in E2; [tauto | reflexivity].
Qed.

Lemma split_first_unique (p s a b : string) :
  first_occurrence p s a b -> split_first p s = Some (a, b).
Proof.
  intros H. destruct (split_first_complete p s a b (proj1 H)) as (a' & b' & F).
  destruct (first_occurrence_unique _ _ _ _ _ _ H (split_first_sound _ _ _ _ F)) as [-> ->].
  exact F.
Qed.

(** Dropping the first character of a text does not create an occurrence. *)
Lemma split_first_tail_None (p : string) (c : ascii) (s : string) :
  split_first p (String c s) = None -> split_first p s = None.
Proof.
  simpl. destruct (PyStr.startswith p (String c s)); [discriminate |].
  now destruct (split_first p s) as [[? ?]|].
Qed.

End Occurrences.

(** ** The matcher on the XML pattern *)

Section XmlPattern.

Lemma match_here_lits (l : string) (p : Re.pattern) (ms : list string) (s : string) :
  Re.match_here (Re.lits l ++ p)%list ms s =
  if PyStr.startswith l s then Re.match_here p ms (PyStr.drop (String.length l) s) else None.
Proof.
  revert s; induction l as [|c l IH]; intros s; simpl; [reflexivity |].
  destruct s as [|d s]; [reflexivity |].
  destruct (Ascii.eqb c d); [apply IH | reflexivity].
Qed.

Lemma match_here_lazy (cls : ascii -> bool) (p : Re.pattern) (ms : list string) (s : string) :
  Re.match_here (Re.LazyStar cls :: p) ms s =
  match Re.match_here p ms s with
  | Some r => Some r
  | None =>
      match s with
      | String d s' => if cls d then Re.match_here (Re.LazyStar cls :: p) ms s' else None
      | EmptyString => None
      end
  end.
Proof. destruct s; reflexivity. Qed.

Lemma match_here_lits_end (l : string) (ms : list string) (s : string) :
  Re.match_here (Re.lits l) ms s =
  if PyStr.startswith l s then Some (ms, PyStr.drop (String.length l) s) else None.
Proof. rewrite <- (app_nil_r (Re.lits l)) at 1. apply match_here_lits. Qed.

(** A lazy [.*?] before a literal that ends the pattern stops at the
    first occurrence of the literal. *)
Lemma lazy_then_lits (l : string) (ms : list string) (s : string) :
  Re.match_here (Re.LazyStar Re.dot :: Re.lits l) ms s =
  match split_first l s with
  | Some (_, post) => Some (ms, post)
  | None => None
  end.
Proof.
  induction s as [|c s IH]; rewrite match_here_lazy, match_here_lits_end; cbn [split_first].
  - destruct (PyStr.startswith l ""); reflexivity.
  - destruct (PyStr.startswith l (String c s)); [reflexivity |].
    cbn [Re.dot]. rewrite IH.
    now destruct (split_first l s) as [[? ?]|].
Qed.

Lemma declaration_and_body_tail (c : ascii) (r : string) :
  declaration_and_body (String c r) = None -> declaration_and_body r = None.
Proof.
  unfold declaration_and_body. cbn [split_first].
  destruct (PyStr.startswith ">" (String c r)) eqn:E.
  - apply startswith_true in E. simpl in E. injection E as ->.
    cbn [String.length PyStr.drop].
    destruct (split_first "</hierarchy>" r) as [[b post]|] eqn:F; [discriminate |].
    intros _. destruct (split_first ">" r) as [[a r2]|] eqn:G; [| reflexivity].
    destruct (split_first "</hierarchy>" r2) as [[b post]|] eqn:H; [| reflexivity].
    exfalso. apply split_first_sound in G. apply split_first_sound in H.
    destruct G as [-> _], H as [-> _].
    apply (split_first_None _ _ F (a ++ ">" ++ b) post).
    now rewrite !append_assoc.
  - destruct (split_first ">" r) as [[a r2]|]; [| reflexivity].
    now destruct (split_first "</hierarchy>" r2) as [[b post]|].
Qed.

Lemma declaration_and_body_drop (n : nat) (r : string) :
  declaration_and_body r = None -> declaration_and_body (PyStr.drop n r) = None.
Proof.
  revert r; induction n as [|n IH]; intros r H; [now destruct r |].
  destruct r as [|c r]; [exact H |]. simpl. apply IH.
  now apply declaration_and_body_tail with c.
Qed.

Lemma lazy_declaration (ms : list string) (s : string) :
  Re.match_here (Re.LazyStar Re.dot :: Re.Chr ">" :: Re.LazyStar Re.dot
                   :: Re.lits "</hierarchy>") ms s =
  match declaration_and_body s with
  | Some (_, _, post) => Some (ms, post)
  | None => None
  end.
Proof.
  induction s as [|c s IH]; rewrite match_here_lazy.
  - reflexivity.
  - change (Re.match_here (Re.Chr ">" :: Re.LazyStar Re.dot :: Re.lits "</hierarchy>")
              ms (String c s))
      with (if Ascii.eqb ">" c
            then Re.match_here (Re.LazyStar Re.dot :: Re.lits "</hierarchy>") ms s
            else None).
    unfold declaration_and_body at 1. cbn [split_first PyStr.startswith].
    destruct (Ascii.eqb_spec ">" c) as [<-|Hc].
    + cbn [String.length PyStr.drop]. rewrite lazy_then_lits.
      destruct (split_first "</hierarchy>" s) as [[b post]|] eqn:F; [reflexivity |].
      cbn [Re.dot]. rewrite IH.
      assert (N : declaration_and_body (String ">" s) = None).
      { unfold declaration_and_body. cbn [split_first PyStr.startswith].
        rewrite Ascii.eqb_refl. cbn [String.length PyStr.drop]. now rewrite F. }
      now rewrite (declaration_and_body_tail _ _ N).
    + cbn [Re.dot]. rewrite IH. unfold declaration_and_body.
      destruct (split_first ">" s) as [[a r2]|]; [| reflexivity].
      now destruct (split_first "</hierarchy>" r2) as [[b post]|].
Qed.

End XmlPattern.

Section XmlSearch.

Lemma drop_drop (n m : nat) (s : string) :
  PyStr.drop n (PyStr.drop m s) = PyStr.drop (m + n) s.
Proof.
  revert s; induction m as [|m IH]; intros s; simpl; [reflexivity |].
  destruct s as [|c s]; [now destruct n | apply IH].
Qed.

Lemma take_drop (n : nat) (s : string) : PyStr.take n s ++ PyStr.drop n s = s.
Proof.
  revert s; induction n as [|n IH]; intros [|c s]; simpl; try reflexivity.
  now rewrite IH.
Qed.

Lemma drop_app_length (a r : string) (n : nat) :
  n = String.length a -> PyStr.drop n (a ++ r) = r.
Proof. intros ->. apply drop_app. Qed.

Lemma declaration_and_body_sound (r1 a b post : string) :
  declaration_and_body r1 = Some (a, b, post) ->
  exists r2, first_occurrence ">" r1 a r2 /\ first_occurrence "</hierarchy>" r2 b post.
Proof.
  unfold declaration_and_body.
  destruct (split_first ">" r1) as [[a' r2]|] eqn:F; [| discriminate].
  destruct (split_first "</hierarchy>" r2) as [[b' post']|] eqn:G; [| discriminate].
  intros [= <- <- <-]. exists r2. split; now apply split_first_sound.
Qed.

Lemma declaration_and_body_complete (r a b post : string) :
  r = a ++ ">" ++ b ++ "</hierarchy>" ++ post -> declaration_and_body r <> None.
Proof.
  intros E. unfold declaration_and_body.
  destruct (split_first_complete ">" r a _ E) as (a' & r2 & F). rewrite F.
  destruct (split_first_sound _ _ _ _ F) as [E' M].
  specialize (M a _ E).
  assert (D : PyStr.drop (String.length a - String.length a') r2
              = b ++ "</hierarchy>" ++ post).
  { transitivity (PyStr.drop (String.length a + 1) r).
    - rewrite E'. rewrite <- (append_assoc a' ">").
      replace (String.length a + 1)%nat
        with (String.length (a' ++ ">") + (String.length a - String.length a'))%nat
        by (rewrite length_append; simpl; lia).
      now rewrite <- drop_drop, drop_app.
    - rewrite E. rewrite <- (append_assoc a ">"). apply drop_app_length.
      rewrite length_append. reflexivity. }
  pose proof (take_drop (String.length a - String.length a') r2) as T.
  rewrite D, <- append_assoc in T.
  destruct (split_first_complete "</hierarchy>" r2 _ post (eq_sym T)) as (b' & post' & G).
  rewrite G. discriminate.
Qed.

Lemma match_at_xml (s : string) :
  Re.match_at xml_pattern s =
  if PyStr.startswith "<?xml" s then
    match declaration_and_body (PyStr.drop 5 s) with
    | Some (a, b, post) =>
        Some (Re.MatchObj ("<?xml" ++ a ++ ">" ++ b ++ "</hierarchy>") post [])
    | None => None
    end
  else None.
Proof.
  unfold Re.match_at, xml_pattern. rewrite match_here_lits.
  destruct (PyStr.startswith "<?xml" s) eqn:E; [| reflexivity].
  change (String.length "<?xml") with 5%nat.
  change ([Re.LazyStar Re.dot; Re.Chr ">"; Re.LazyStar Re.dot] ++ Re.lits "</hierarchy>")%list
    with (Re.LazyStar Re.dot :: Re.Chr ">" :: Re.LazyStar Re.dot :: Re.lits "</hierarchy>").
  rewrite lazy_declaration.
  destruct (declaration_and_body (PyStr.drop 5 s)) as [[[a b] post]|] eqn:D; [| reflexivity].
  destruct (declaration_and_body_sound _ _ _ _ D) as (r2 & [E1 _] & [E2 _]).
  apply startswith_true in E. change (String.length "<?xml") with 5%nat in E.
  do 2 f_equal. rewrite E, E1, E2.
  replace ("<?xml" ++ a ++ ">" ++ b ++ "</hierarchy>" ++ post)
    with (("<?xml" ++ a ++ ">" ++ b ++ "</hierarchy>") ++ post)
    by now rewrite !append_assoc.
  now rewrite between_app.
Qed.

Lemma search_xml (s : string) :
  Re.search xml_pattern s =
  match first_match s with
  | Some (_, a, b, post) =>
      Some (Re.MatchObj ("<?xml" ++ a ++ ">" ++ b ++ "</hierarchy>") post [])
  | None => None
  end.
Proof.
  unfold first_match.
  induction s as [|c s IH]; cbn [Re.search]; rewrite match_at_xml; cbn [split_first].
  - reflexivity.
  - destruct (PyStr.startswith "<?xml" (String c s)) eqn:E.
    + change (String.length "<?xml") with 5%nat.
      destruct (declaration_and_body (PyStr.drop 5 (String c s))) as [[[a b] post]|] eqn:D;
        [reflexivity |].
      rewrite IH.
      destruct (split_first "<?xml" s) as [[pre r1]|] eqn:F; [| reflexivity].
      destruct (split_first_sound _ _ _ _ F) as [E1 _].
      assert (R : r1 = PyStr.drop (String.length pre + 1) (PyStr.drop 5 (String c s))).
      { change (PyStr.drop 5 (String c s)) with (PyStr.drop 4 s).
        rewrite drop_drop. rewrite E1.
        rewrite <- (append_assoc pre "<?xml"). apply eq_sym, drop_app_length.
        rewrite length_append. simpl. lia. }
      rewrite R. now rewrite declaration_and_body_drop.
    + rewrite IH.
      destruct (split_first "<?xml" s) as [[pre r1]|]; [| reflexivity].
      now destruct (declaration_and_body r1) as [[[a b] post]|].
Qed.

Lemma clean_xml_first_match (s : string) :
  clean_xml s =
  match first_match s with
  | Some (_, a, b, _) => "<?xml" ++ a ++ ">" ++ b ++ "</hierarchy>"
  | None => s
  end.
Proof.
  unfold clean_xml. rewrite search_xml.
  now destruct (first_match s) as [[[[pre a] b] post]|].
Qed.

End XmlSearch.

(** ** Integers from runs of digits *)

Section IntText.

Lemma digit_not_space (c : ascii) : Re.digit c = true -> PyStr.isspace c = false.
Proof. destruct c as [[] [] [] [] [] [] [] []]; intros H; try reflexivity; discriminate H. Qed.

Lemma digit_not_sign (c : ascii) :
  Re.digit c = true -> forall s, PyInt.signed (String c s) = PyInt.digits 0 false (String c s).
Proof. destruct c as [[] [] [] [] [] [] [] []]; intros H; try reflexivity; discriminate H. Qed.

Lemma rstrip_all_digits (s : string) : all_digits s = true -> PyStr.rstrip s = s.
Proof.
  induction s as [|c s IH]; [reflexivity |]. simpl.
  intros H. apply andb_prop in H as [Hc Hs]. rewrite (IH Hs).
  destruct s; [now rewrite (digit_not_space _ Hc) | reflexivity].
Qed.

Lemma strip_all_digits (s : string) : all_digits s = true -> PyStr.strip s = s.
Proof.
  intros H. unfold PyStr.strip.
  destruct s as [|c s]; [reflexivity |].
  simpl in H |- *. apply andb_prop in H as [Hc Hs].
  rewrite (digit_not_space _ Hc).
  apply (rstrip_all_digits (String c s)). simpl. now rewrite Hc.
Qed.

Lemma digits_all_digits (acc : Z) (s : string) :
  all_digits s = true -> PyInt.digits acc true s = Some (decimal_value acc s).
Proof.
  revert acc; induction s as [|c s IH]; intros acc H; [reflexivity |].
  simpl in H |- *. apply andb_prop in H as [Hc Hs]. rewrite Hc. now apply IH.
Qed.

Lemma count_digits_all_digits (s : string) :
  all_digits s = true -> PyInt.count_digits s = String.length s.
Proof.
  induction s as [|c s IH]; [reflexivity |]. cbn [all_digits PyInt.count_digits String.length].
  intros H. apply andb_prop in H as [Hc Hs]. now rewrite Hc, (IH Hs).
Qed.

Lemma signed_int_text (s : string) :
  is_int_text s = true -> PyInt.signed s = Some (decimal_value 0 s).
Proof.
  unfold is_int_text. intros H. apply andb_prop in H as [Hn Hd].
  destruct s as [|c s]; [discriminate |].
  simpl in Hd. apply andb_prop in Hd as [Hc Hs].
  rewrite (digit_not_sign _ Hc). cbn [PyInt.digits]. rewrite Hc.
  now rewrite (digits_all_digits _ _ Hs).
Qed.

(** [int] reads what [\d+] matches when it has at most 4300 digits. *)
Lemma int_of_int_text (s : string) :
  is_int_text s = true -> readable s = true -> PyInt.int s = Return (decimal_value 0 s).
Proof.
  intros H R. unfold PyInt.int.
  assert (D : all_digits s = true) by (unfold is_int_text in H; now apply andb_prop in H).
  rewrite (strip_all_digits _ D), (signed_int_text _ H), (count_digits_all_digits _ D).
  unfold readable in R. unfold PyInt.max_str_digits. now rewrite R.
Qed.

(** It raises [ValueError] when it has more. *)
Lemma int_of_long_text (s : string) :
  is_int_text s = true -> readable s = false -> exists msg, PyInt.int s = Raise (ValueError msg).
Proof.
  intros H R. unfold PyInt.int.
  assert (D : all_digits s = true) by (unfold is_int_text in H; now apply andb_prop in H).
  rewrite (strip_all_digits _ D), (signed_int_text _ H), (count_digits_all_digits _ D).
  unfold readable in R. unfold PyInt.max_str_digits. rewrite R. eauto.
Qed.

Lemma string_of_uint_digits (d : Decimal.uint) :
  all_digits (NilEmpty.string_of_uint d) = true.
Proof. induction d; simpl; auto. Qed.

Lemma string_of_uint_value (acc : Z) (d : Decimal.uint) :
  decimal_value acc (NilEmpty.string_of_uint d) = uint_value acc d.
Proof. revert acc; induction d; intros acc; simpl; try reflexivity; apply IHd. Qed.

Lemma string_of_uint_length (d : Decimal.uint) :
  String.length (NilEmpty.string_of_uint d) = Decimal.nb_digits d.
Proof. induction d; simpl; congruence. Qed.

Lemma of_uint_acc_value (d : Decimal.uint) (acc : positive) :
  Z.pos (Pos.of_uint_acc d acc) = uint_value (Z.pos acc) d.
Proof.
  revert acc; induction d; intros acc; simpl; try reflexivity;
    rewrite IHd; f_equal; lia.
Qed.

Lemma of_uint_value (d : Decimal.uint) : Z.of_uint d = uint_value 0 d.
Proof.
  unfold Z.of_uint.
  induction d; simpl; try reflexivity; try exact IHd;
    rewrite of_uint_acc_value; reflexivity.
Qed.

(** The text of a positive number is the run of its digits. *)
Lemma decimal_pos (p : positive) :
  PyInt.decimal (Z.pos p) = NilEmpty.string_of_uint (Pos.to_uint p).
Proof.
  unfold PyInt.decimal. cbn [Z.to_int NilZero.string_of_int].
  pose proof (DecimalPos.Unsigned.to_uint_nonnil p) as Hn.
  destruct (Pos.to_uint p); [now destruct Hn | reflexivity ..].
Qed.

(** The text of a negative number is [-] and the text of its opposite. *)
Lemma decimal_neg (p : positive) :
  PyInt.decimal (Z.neg p) = String "-" (PyInt.decimal (Z.pos p)).
Proof. reflexivity. Qed.

Lemma pos_uint_value (p : positive) : uint_value 0 (Pos.to_uint p) = Z.pos p.
Proof.
  rewrite <- of_uint_value. unfold Z.of_uint.
  now rewrite DecimalPos.Unsigned.of_to.
Qed.

(** The text of a number that is not negative is a run of digits with
    that value. *)
Lemma decimal_int_text (n : N) :
  is_int_text (PyInt.decimal (Z.of_N n)) = true /\
  decimal_value 0 (PyInt.decimal (Z.of_N n)) = Z.of_N n.
Proof.
  destruct n as [|p]; [split; reflexivity |].
  change (Z.of_N (N.pos p)) with (Z.pos p). rewrite decimal_pos. split.
  - unfold is_int_text. rewrite string_of_uint_digits.
    pose proof (DecimalPos.Unsigned.to_uint_nonnil p) as Hn.
    destruct (Pos.to_uint p); [now destruct Hn | reflexivity ..].
  - now rewrite string_of_uint_value, pos_uint_value.
Qed.

(** *** The number of digits of a number *)

Lemma uint_value_split (d : Decimal.uint) :
  forall acc,
    uint_value acc d = (acc * 10 ^ Z.of_nat (Decimal.nb_digits d) + uint_value 0 d)%Z.
Proof.
  induction d; intros acc; cbn [Decimal.nb_digits uint_value];
    [change (10 ^ Z.of_nat 0)%Z with 1%Z; lia | ..];
    rewrite Nat2Z.inj_succ, Z.pow_succ_r by lia;
    match goal with
    | |- uint_value ?a _ = (_ + uint_value ?b _)%Z => rewrite (IHd a), (IHd b)
    end; ring.
Qed.

Lemma uint_value_bound (d : Decimal.uint) :
  (0 <= uint_value 0 d < 10 ^ Z.of_nat (Decimal.nb_digits d))%Z.
Proof.
  induction d; cbn [Decimal.nb_digits uint_value];
    [change (10 ^ Z.of_nat 0)%Z with 1%Z; lia | ..];
    rewrite Nat2Z.inj_succ, Z.pow_succ_r by lia;
    match goal with
    | |- (0 <= uint_value ?a _ < _)%Z => rewrite (uint_value_split d a)
    end;
    set (P := (10 ^ Z.of_nat (Decimal.nb_digits d))%Z) in *; lia.
Qed.

(** The text of a positive number does not start with a zero. *)
Lemma to_uint_head (p : positive) : Decimal.nzhead (Pos.to_uint p) = Pos.to_uint p.
Proof.
  pose proof (DecimalPos.Unsigned.to_of (Pos.to_uint p)) as T.
  rewrite DecimalPos.Unsigned.of_to in T. cbn [N.to_uint] in T.
  unfold Decimal.unorm in T.
  destruct (Decimal.nzhead (Pos.to_uint p)) eqn:E; try (symmetry; exact T).
  now destruct (DecimalPos.Unsigned.to_uint_nonzero p).
Qed.

Lemma uint_value_lower (d : Decimal.uint) :
  d <> Decimal.Nil -> Decimal.nzhead d = d ->
  (10 ^ Z.of_nat (Decimal.nb_digits d - 1) <= uint_value 0 d)%Z.
Proof.
  intros Hn Hh.
  destruct d; [now destruct Hn | now destruct (DecimalFacts.nzhead_nonzero (Decimal.D0 d) d) | ..];
    cbn [Decimal.nb_digits uint_value]; rewrite Nat.sub_succ, Nat.sub_0_r;
    match goal with
    | |- (_ <= uint_value ?a _)%Z => rewrite (uint_value_split d a)
    end;
    pose proof (uint_value_bound d);
    set (P := (10 ^ Z.of_nat (Decimal.nb_digits d))%Z) in *; lia.
Qed.

(** A positive number has at most [n] digits exactly when it is below
    [10 ^ n]. *)
Lemma pos_digits (p : positive) (n : nat) :
  (Decimal.nb_digits (Pos.to_uint p) <= n)%nat <-> (Z.pos p < 10 ^ Z.of_nat n)%Z.
Proof.
  pose proof (pos_uint_value p) as V. split.
  - intros L. pose proof (uint_value_bound (Pos.to_uint p)) as B.
    rewrite <- V. apply Z.lt_le_trans with (1 := proj2 B).
    apply Z.pow_le_mono_r; lia.
  - intros L. rewrite <- V in L.
    pose proof (uint_value_lower (Pos.to_uint p)
                  (DecimalPos.Unsigned.to_uint_nonnil p) (to_uint_head p)) as B.
    destruct (Nat.le_gt_cases (Decimal.nb_digits (Pos.to_uint p)) n) as [|G]; [assumption |].
    assert (M : (10 ^ Z.of_nat n <= 10 ^ Z.of_nat (Decimal.nb_digits (Pos.to_uint p) - 1))%Z)
      by (apply Z.pow_le_mono_r; lia).
    lia.
Qed.

Lemma decimal_length (z : Z) (n : nat) :
  (0 < n)%nat ->
  (String.length (PyInt.decimal (Z.abs z)) <= n)%nat <-> (Z.abs z < 10 ^ Z.of_nat n)%Z.
Proof.
  intros Hn. destruct z as [|p|p].
  - change (String.length (PyInt.decimal (Z.abs 0))) with 1%nat. change (Z.abs 0) with 0%Z.
    assert (P : (0 < 10 ^ Z.of_nat n)%Z) by (apply Z.pow_pos_nonneg; lia).
    split; intros _; [exact P | lia].
  - change (Z.abs (Z.pos p)) with (Z.pos p).
    rewrite decimal_pos, string_of_uint_length. apply pos_digits.
  - change (Z.abs (Z.neg p)) with (Z.pos p).
    rewrite decimal_pos, string_of_uint_length. apply pos_digits.
Qed.

Lemma digit_limit_eq : (10 ^ Z.of_nat PyInt.max_str_digits)%Z = digit_limit.
Proof. reflexivity. Qed.

(** [str] gives the decimal text of a number below the limit in
    absolute value, and raises [ValueError] for any other. *)
Lemma str_within (z : Z) :
  (Z.abs z < digit_limit)%Z -> PyInt.str z = Return (PyInt.decimal z).
Proof.
  intros H. unfold PyInt.str. rewrite <- digit_limit_eq in H.
  apply (decimal_length z PyInt.max_str_digits) in H; [| unfold PyInt.max_str_digits; lia].
  apply Nat.leb_le in H. now rewrite H.
Qed.

Lemma str_beyond (z : Z) :
  (digit_limit <= Z.abs z)%Z -> PyInt.str z = Raise PyInt.too_many_digits.
Proof.
  intros H. unfold PyInt.str. rewrite <- digit_limit_eq in H.
  destruct (String.length (PyInt.decimal (Z.abs z)) <=? PyInt.max_str_digits)%nat eqn:E;
    [| reflexivity].
  apply Nat.leb_le in E.
  apply (decimal_length z PyInt.max_str_digits) in E; [lia | unfold PyInt.max_str_digits; lia].
Qed.

Lemma str_cases (z : Z) :
  PyInt.str z = Return (PyInt.decimal z) \/ PyInt.str z = Raise PyInt.too_many_digits.
Proof.
  unfold PyInt.str.
  destruct (String.length (PyInt.decimal (Z.abs z)) <=? PyInt.max_str_digits)%nat; eauto.
Qed.

Lemma digit_limit_nonneg : (0 <= digit_limit)%Z.
Proof. unfold digit_limit. apply Z.pow_nonneg. lia. Qed.

Lemma within_or_beyond (z : Z) : (Z.abs z < digit_limit)%Z \/ (digit_limit <= Z.abs z)%Z.
Proof. destruct (Z.lt_ge_cases (Z.abs z) digit_limit); auto. Qed.

(** A run of digits is readable exactly when its value could have that
    many digits: a number below the limit has a readable text. *)
Lemma decimal_readable (z : Z) :
  (0 <= z < digit_limit)%Z -> readable (PyInt.decimal z) = true.
Proof.
  intros [H0 H1]. unfold readable. apply Nat.leb_le.
  rewrite <- (Z.abs_eq z) at 1 by exact H0.
  apply (decimal_length z 4300); [lia |].
  rewrite Z.abs_eq by exact H0. exact H1.
Qed.

Lemma decimal_unreadable (z : Z) :
  (digit_limit <= z)%Z -> readable (PyInt.decimal z) = false.
Proof.
  intros H. unfold readable. apply Nat.leb_gt.
  assert (H0 : (0 <= z)%Z).
  { apply Z.le_trans with (2 := H). unfold digit_limit. apply Z.pow_nonneg. lia. }
  destruct (Nat.le_gt_cases (String.length (PyInt.decimal z)) 4300) as [L|G]; [| exact G].
  rewrite <- (Z.abs_eq z) in L at 1 by exact H0.
  apply (decimal_length z 4300) in L; [| lia].
  rewrite Z.abs_eq in L by exact H0.
  change (10 ^ Z.of_nat 4300)%Z with digit_limit in L. lia.
Qed.

End IntText.

(** ** The command executor *)

Section Executor.

Variable device : trace -> command -> res string.

Lemma run_adb_eq (args : list string) (device_serial : option string) (h : trace) :
  run_adb device args device_serial h =
  (Return (adb_text (device h (adb_command args device_serial))),
   (h ++ [adb_command args device_serial])%list).
Proof.
  unfold run_adb, py_try, py_bind, subprocess_run, py_ret, adb_command, adb_text.
  destruct device_serial as [[|c serial]|]; cbn [PyStr.nonempty app];
    match goal with |- context [device h ?c] => destruct (device h c) as [out|[]] end;
    reflexivity.
Qed.

(** C7.  Whatever the arguments, the device identifier and the state
    of the bridge, [run_adb] runs one command, [adb] with [-s serial]
    when a serial is given, and returns a string: the captured standard
    output when the process succeeds, [Error: ] followed by the
    captured error text when it exits with a non-zero status, and
    [Unexpected Error: ] followed by the text of the exception on any
    other failure.  It never raises. *)
Theorem run_adb_never_raises (args : list string) (device_serial : option string) (h : trace) :
  let cmd := adb_command args device_serial in
  (exists out, run_adb device args device_serial h = (Return out, (h ++ [cmd])%list)) /\
  (forall stdout, device h cmd = Return stdout ->
     fst (run_adb device args device_serial h) = Return stdout) /\
  (forall stderr, device h cmd = Raise (CalledProcessError stderr) ->
     fst (run_adb device args device_serial h) = Return ("Error: " ++ stderr) /\
     PyStr.startswith "Error:" ("Error: " ++ stderr) = true) /\
  (forall e, device h cmd = Raise e -> (forall stderr, e <> CalledProcessError stderr) ->
     fst (run_adb device args device_serial h) = Return ("Unexpected Error: " ++ exn_message e) /\
     PyStr.startswith "Unexpected Error:" ("Unexpected Error: " ++ exn_message e) = true).
Proof.
  intros cmd. rewrite run_adb_eq. fold cmd. cbn [fst].
  split; [eauto |]. split; [| split].
  - intros stdout ->. reflexivity.
  - intros stderr ->. split; reflexivity.
  - intros e -> Hne. split; [| reflexivity].
    destruct e; try reflexivity. now destruct (Hne stderr).
Qed.

End Executor.

Lemma run_adb_never_raises_witness :
  fst (run_adb no_adb ["shell"; "ls"] (Some "emulator-5554") [])
  = Return "Unexpected Error: [Errno 2] No such file or directory: 'adb'".
Proof.
  apply (proj1 (proj2 (proj2 (proj2
           (run_adb_never_raises no_adb ["shell"; "ls"] (Some "emulator-5554") [])))
           (OtherException "[Errno 2] No such file or directory: 'adb'") eq_refl
           (fun stderr H => eq_ind (OtherException "[Errno 2] No such file or directory: 'adb'")
                              (fun e => match e with OtherException _ => True | _ => False end)
                              I _ H))).
Defined.

(** ** The device actions *)

Section Actions.

Variable device : trace -> command -> res string.
Variable abspath : trace -> string -> res string.

(** [touch] in terms of the two conversions it makes first. *)
Lemma touch_eq (x y : Z) (device_serial : option string) (h : trace) :
  touch device x y device_serial h =
  match PyInt.str x, PyInt.str y with
  | Return sx, Return sy =>
      (Return ("Touch at (" ++ sx ++ ", " ++ sy ++ ")"),
       (h ++ [adb_command ["shell"; "input"; "tap"; sx; sy] device_serial])%list)
  | Raise e, _ | Return _, Raise e => (Raise e, h)
  end.
Proof.
  unfold touch, py_bind, py_lift, py_ret.
  destruct (PyInt.str x) as [sx|e]; [| reflexivity].
  destruct (PyInt.str y) as [sy|e]; [| reflexivity].
  now rewrite run_adb_eq.
Qed.

(** [swipe] in terms of the five conversions it makes first. *)
Lemma swipe_eq (x1 y1 x2 y2 duration_ms : Z) (device_serial : option string) (h : trace) :
  swipe device x1 y1 x2 y2 duration_ms device_serial h =
  match PyInt.str x1, PyInt.str y1, PyInt.str x2, PyInt.str y2, PyInt.str duration_ms with
  | Return s1, Return s2, Return s3, Return s4, Return s5 =>
      (Return ("Swipe from (" ++ s1 ++ ", " ++ s2 ++ ") to (" ++ s3 ++ ", " ++ s4 ++ ")"),
       (h ++ [adb_command ["shell"; "input"; "swipe"; s1; s2; s3; s4; s5] device_serial])%list)
  | Raise e, _, _, _, _
  | Return _, Raise e, _, _, _
  | Return _, Return _, Raise e, _, _
  | Return _, Return _, Return _, Raise e, _
  | Return _, Return _, Return _, Return _, Raise e => (Raise e, h)
  end.
Proof.
  unfold swipe, py_bind, py_lift, py_ret.
  destruct (PyInt.str x1) as [s1|e]; [| reflexivity].
  destruct (PyInt.str y1) as [s2|e]; [| reflexivity].
  destruct (PyInt.str x2) as [s3|e]; [| reflexivity].
  destruct (PyInt.str y2) as [s4|e]; [| reflexivity].
  destruct (PyInt.str duration_ms) as [s5|e]; [| reflexivity].
  now rewrite run_adb_eq.
Qed.

(** A number beyond the limit among the arguments: the first one stops
    the tool, with the same error whichever it is. *)
Lemma touch_beyond (x y : Z) (device_serial : option string) (h : trace) :
  (digit_limit <= Z.abs x)%Z \/ (digit_limit <= Z.abs y)%Z ->
  touch device x y device_serial h = (Raise PyInt.too_many_digits, h).
Proof.
  intros H. rewrite touch_eq.
  destruct (str_cases x) as [Ex | Ex]; rewrite Ex; [| reflexivity].
  destruct (str_cases y) as [Ey | Ey]; rewrite Ey; [| reflexivity].
  destruct H as [H|H]; apply str_beyond in H; congruence.
Qed.

Lemma swipe_beyond (x1 y1 x2 y2 duration_ms : Z) (device_serial : option string) (h : trace) :
  Exists (fun z => (digit_limit <= Z.abs z)%Z) [x1; y1; x2; y2; duration_ms] ->
  swipe device x1 y1 x2 y2 duration_ms device_serial h = (Raise PyInt.too_many_digits, h).
Proof.
  intros H. rewrite swipe_eq.
  destruct (str_cases x1) as [E1 | ->]; [| reflexivity].
  destruct (str_cases y1) as [E2 | E2]; [| now rewrite E1, E2].
  destruct (str_cases x2) as [E3 | E3]; [| now rewrite E1, E2, E3].
  destruct (str_cases y2) as [E4 | E4]; [| now rewrite E1, E2, E3, E4].
  destruct (str_cases duration_ms) as [E5 | E5]; [| now rewrite E1, E2, E3, E4, E5].
  repeat match goal with
         | H : Exists _ (_ :: _) |- _ => apply Exists_cons in H as [H|H]
         | H : Exists _ [] |- _ => apply Exists_nil in H; destruct H
         end;
    apply str_beyond in H; congruence.
Qed.

Lemma take_screenshot_eq (filename : string) (device_serial : option string) (h : trace) :
  let h' := (h ++ [adb_command ["shell"; "screencap"; "-p"; "/sdcard/mcp_screenshot.png"]
                     device_serial;
                   adb_command ["pull"; "/sdcard/mcp_screenshot.png"; filename]
                     device_serial])%list in
  take_screenshot device abspath filename device_serial h =
  (match abspath h' filename with
   | Return path => Return ("Screenshot saved to: " ++ path)
   | Raise e => Raise e
   end, h').
Proof.
  intros h'. unfold take_screenshot, py_bind, py_ret. rewrite !run_adb_eq.
  rewrite <- app_assoc. cbn [app]. fold h'.
  now destruct (abspath h' filename).
Qed.

(** C9, as the program has it.  Each device action runs its command
    and then returns its success message, whatever the bridge did: the
    string [run_adb] returns is dropped, also when it starts with
    [Error:] or [Unexpected Error:].  This holds for every bridge and
    every state of it, for every text argument, and for the numbers of
    [touch] and [swipe] that are below [10 ^ 4300] in absolute value.
    A number at or beyond that limit makes [touch] and [swipe] raise
    [ValueError] before any command is run, and [take_screenshot]
    returns its message when [os.path.abspath] returns, and raises what
    it raises, after the two commands. *)
Theorem device_actions_report_success (device_serial : option string) (h : trace) :
  (forall x y, (Z.abs x < digit_limit)%Z -> (Z.abs y < digit_limit)%Z ->
     touch device x y device_serial h
     = (Return ("Touch at (" ++ PyInt.decimal x ++ ", " ++ PyInt.decimal y ++ ")"),
        (h ++ [adb_command ["shell"; "input"; "tap"; PyInt.decimal x; PyInt.decimal y]
                 device_serial])%list)) /\
  (forall x y, (digit_limit <= Z.abs x)%Z \/ (digit_limit <= Z.abs y)%Z ->
     touch device x y device_serial h = (Raise PyInt.too_many_digits, h)) /\
  (forall x1 y1 x2 y2 duration_ms,
     Forall (fun z => (Z.abs z < digit_limit)%Z) [x1; y1; x2; y2; duration_ms] ->
     swipe device x1 y1 x2 y2 duration_ms device_serial h
     = (Return ("Swipe from (" ++ PyInt.decimal x1 ++ ", " ++ PyInt.decimal y1 ++ ") to ("
                ++ PyInt.decimal x2 ++ ", " ++ PyInt.decimal y2 ++ ")"),
        (h ++ [adb_command ["shell"; "input"; "swipe"; PyInt.decimal x1; PyInt.decimal y1;
                            PyInt.decimal x2; PyInt.decimal y2; PyInt.decimal duration_ms]
                 device_serial])%list)) /\
  (forall x1 y1 x2 y2 duration_ms,
     Exists (fun z => (digit_limit <= Z.abs z)%Z) [x1; y1; x2; y2; duration_ms] ->
     swipe device x1 y1 x2 y2 duration_ms device_serial h = (Raise PyInt.too_many_digits, h)) /\
  (forall package_name c activity,
     launch_app device package_name (Some (String c activity)) device_serial h
     = (Return ("Launched " ++ package_name),
        (h ++ [adb_command ["shell"; "am"; "start"; "-n";
                            (package_name ++ "/" ++ String c activity)%string]
                 device_serial])%list)) /\
  (forall package_name activity, activity = None \/ activity = Some EmptyString ->
     launch_app device package_name activity device_serial h
     = (Return ("Launched " ++ package_name),
        (h ++ [adb_command ["shell"; "monkey"; "-p"; package_name; "-c";
                            "android.intent.category.LAUNCHER"; "1"] device_serial])%list)) /\
  (forall package_name,
     stop_app device package_name device_serial h
     = (Return ("Stopped " ++ package_name),
        (h ++ [adb_command ["shell"; "am"; "force-stop"; package_name] device_serial])%list)) /\
  (forall text,
     input_text device text device_serial h
     = (Return ("Typed: " ++ text),
        (h ++ [adb_command ["shell"; "input"; "text"; PyStr.replace " " "%s" text]
                 device_serial])%list)) /\
  (forall filename,
     let h' := (h ++ [adb_command ["shell"; "screencap"; "-p"; "/sdcard/mcp_screenshot.png"]
                        device_serial;
                      adb_command ["pull"; "/sdcard/mcp_screenshot.png"; filename]
                        device_serial])%list in
     (forall path, abspath h' filename = Return path ->
        take_screenshot device abspath filename device_serial h
        = (Return ("Screenshot saved to: " ++ path), h')) /\
     (forall e, abspath h' filename = Raise e ->
        take_screenshot device abspath filename device_serial h = (Raise e, h'))).
Proof.
  split; [| split; [| split; [| split; [| split; [| split; [| split; [| split]]]]]]].
  - intros x y Hx Hy. now rewrite touch_eq, (str_within _ Hx), (str_within _ Hy).
  - intros x y H. now apply touch_beyond.
  - intros x1 y1 x2 y2 d H. rewrite swipe_eq.
    inversion H as [|? ? H1 H']; subst. inversion H' as [|? ? H2 H'']; subst.
    inversion H'' as [|? ? H3 H3']; subst. inversion H3' as [|? ? H4 H4']; subst.
    inversion H4' as [|? ? H5 _]; subst.
    now rewrite (str_within _ H1), (str_within _ H2), (str_within _ H3),
      (str_within _ H4), (str_within _ H5).
  - intros x1 y1 x2 y2 d H. now apply swipe_beyond.
  - intros package_name c activity. unfold launch_app, py_bind, py_ret.
    now rewrite run_adb_eq.
  - intros package_name activity [-> | ->]; unfold launch_app, py_bind, py_ret;
      now rewrite run_adb_eq.
  - intros package_name. unfold stop_app, py_bind, py_ret. now rewrite run_adb_eq.
  - intros text. unfold input_text, py_bind, py_ret. now rewrite run_adb_eq.
  - intros filename h'. pose proof (take_screenshot_eq filename device_serial h) as T.
    cbv zeta in T. fold h' in T. rewrite T.
    split; [intros path -> | intros e ->]; reflexivity.
Qed.

End Actions.

(** With no [adb] on the machine every command fails, and a tap still
    reports success. *)
Lemma device_actions_report_success_witness :
  touch no_adb 3 (-4) None []
  = (Return "Touch at (3, -4)", [["adb"; "shell"; "input"; "tap"; "3"; "-4"]]).
Proof.
  apply (proj1 (device_actions_report_success no_adb in_srv None []) 3%Z (-4)%Z);
    reflexivity.
Defined.

(** C9 as the claim states it fails here: a tap at a coordinate of
    4301 digits returns no message, it raises, and runs no command;
    and a screenshot taken from a working directory that is gone raises
    after its two commands. *)
Lemma device_actions_can_raise :
  touch no_adb digit_limit 0 None [] = (Raise PyInt.too_many_digits, []) /\
  swipe no_adb 0 0 10 10 digit_limit None [] = (Raise PyInt.too_many_digits, []) /\
  take_screenshot no_adb no_cwd "screenshot.png" None []
  = (Raise (OtherException "[Errno 2] No such file or directory"),
     [["adb"; "shell"; "screencap"; "-p"; "/sdcard/mcp_screenshot.png"];
      ["adb"; "pull"; "/sdcard/mcp_screenshot.png"; "screenshot.png"]]).
Proof.
  assert (B : (digit_limit <= Z.abs digit_limit)%Z)
    by (rewrite Z.abs_eq; [apply Z.le_refl | apply digit_limit_nonneg]).
  split; [| split].
  - apply touch_beyond. now left.
  - apply swipe_beyond. do 4 apply Exists_cons_tl. now apply Exists_cons_hd.
  - reflexivity.
Qed.

Example touch_without_adb :
  run_adb no_adb ["shell"; "input"; "tap"; "3"; "-4"] None []
  = (Return "Unexpected Error: [Errno 2] No such file or directory: 'adb'",
     [["adb"; "shell"; "input"; "tap"; "3"; "-4"]]) /\
  touch no_adb 3 (-4) None []
  = (Return "Touch at (3, -4)", [["adb"; "shell"; "input"; "tap"; "3"; "-4"]]) /\
  take_screenshot no_adb in_srv "shot.png" (Some "emulator-5554") []
  = (Return "Screenshot saved to: /srv/shot.png",
     [["adb"; "-s"; "emulator-5554"; "shell"; "screencap"; "-p"; "/sdcard/mcp_screenshot.png"];
      ["adb"; "-s"; "emulator-5554"; "pull"; "/sdcard/mcp_screenshot.png"; "shot.png"]]).
Proof. repeat split; reflexivity. Qed.

(** ** White space *)

Section Spaces.

Lemma rstrip_cons (c : ascii) (s : string) :
  PyStr.rstrip (String c s) =
  match PyStr.rstrip s with
  | EmptyString => if PyStr.isspace c then EmptyString else String c EmptyString
  | String d r => String c (String d r)
  end.
Proof. reflexivity. Qed.

Lemma rstrip_idempotent (s : string) : PyStr.rstrip (PyStr.rstrip s) = PyStr.rstrip s.
Proof.
  induction s as [|c s IH]; [reflexivity |]. rewrite rstrip_cons.
  destruct (PyStr.rstrip s) as [|d r] eqn:E.
  - destruct (PyStr.isspace c) eqn:Hc; [reflexivity |].
    rewrite rstrip_cons. cbn [PyStr.rstrip]. now rewrite Hc.
  - rewrite rstrip_cons, IH. reflexivity.
Qed.

Lemma lstrip_starts_clean (s : string) : starts_clean (PyStr.lstrip s) = true.
Proof.
  induction s as [|c s IH]; [reflexivity |]. cbn [PyStr.lstrip].
  destruct (PyStr.isspace c) eqn:Hc; [exact IH |]. cbn [starts_clean]. now rewrite Hc.
Qed.

Lemma lstrip_clean (s : string) : starts_clean s = true -> PyStr.lstrip s = s.
Proof.
  destruct s as [|c s]; [reflexivity |]. cbn [starts_clean PyStr.lstrip].
  destruct (PyStr.isspace c); cbn [negb]; [discriminate | reflexivity].
Qed.

Lemma rstrip_starts_clean (s : string) :
  starts_clean s = true -> starts_clean (PyStr.rstrip s) = true.
Proof.
  destruct s as [|c s]; [reflexivity |]. cbn [starts_clean]. intros Hc.
  rewrite rstrip_cons. destruct (PyStr.rstrip s); [| exact Hc].
  revert Hc. destruct (PyStr.isspace c) eqn:E; cbn [negb starts_clean];
    [discriminate | now rewrite E].
Qed.

Lemma rstrip_empty_clean (s : string) :
  starts_clean s = true -> PyStr.rstrip s = EmptyString -> s = EmptyString.
Proof.
  destruct s as [|c s]; [reflexivity |]. cbn [starts_clean]. intros Hc.
  rewrite rstrip_cons. destruct (PyStr.rstrip s); [| discriminate].
  revert Hc. destruct (PyStr.isspace c); cbn [negb]; discriminate.
Qed.

Lemma strip_idempotent (s : string) : PyStr.strip (PyStr.strip s) = PyStr.strip s.
Proof.
  unfold PyStr.strip.
  rewrite (lstrip_clean (PyStr.rstrip (PyStr.lstrip s))).
  - apply rstrip_idempotent.
  - apply rstrip_starts_clean, lstrip_starts_clean.
Qed.

Lemma lstrip_all_space (s : string) :
  PyStr.lstrip s = EmptyString <-> all_space s = true.
Proof.
  induction s as [|c s IH]; [split; reflexivity |]. cbn [PyStr.lstrip all_space].
  destruct (PyStr.isspace c); [exact IH |]. split; discriminate.
Qed.

Lemma strip_empty_iff (s : string) : PyStr.strip s = EmptyString <-> all_space s = true.
Proof.
  unfold PyStr.strip. rewrite <- lstrip_all_space. split.
  - apply rstrip_empty_clean, lstrip_starts_clean.
  - intros ->. reflexivity.
Qed.

Lemma rstrip_no_space (s : string) : no_space s = true -> PyStr.rstrip s = s.
Proof.
  induction s as [|c s IH]; [reflexivity |]. cbn [no_space]. intros H.
  apply andb_prop in H as [Hc Hs]. rewrite rstrip_cons, (IH Hs).
  destruct s; [| reflexivity]. cbn [PyStr.rstrip].
  revert Hc. destruct (PyStr.isspace c); cbn [negb]; [discriminate | reflexivity].
Qed.

Lemma strip_no_space (s : string) : no_space s = true -> PyStr.strip s = s.
Proof.
  intros H. unfold PyStr.strip. rewrite lstrip_clean; [now apply rstrip_no_space |].
  destruct s as [|c s]; [reflexivity |]. cbn [no_space] in H.
  apply andb_prop in H as [Hc _]. exact Hc.
Qed.

End Spaces.

(** ** Replacing a text by another *)

Lemma nonempty_length (s : string) :
  PyStr.nonempty s = true -> (0 < String.length s)%nat.
Proof. destruct s; [discriminate | simpl; lia]. Qed.

Section Replace.

Variables old new : string.
Hypothesis old_nonempty : PyStr.nonempty old = true.

Lemma startswith_length (p s : string) :
  PyStr.startswith p s = true ->
  (String.length (PyStr.drop (String.length p) s) + String.length p)%nat = String.length s.
Proof.
  intros H. apply startswith_true in H. rewrite H at 2. rewrite length_append. lia.
Qed.

Lemma replace_fuel_S (fuel : nat) (s : string) :
  PyStr.replace_fuel (S fuel) old new s =
  if PyStr.startswith old s
  then new ++ PyStr.replace_fuel fuel old new (PyStr.drop (String.length old) s)
  else match s with
       | EmptyString => EmptyString
       | String c s' => String c (PyStr.replace_fuel fuel old new s')
       end.
Proof. reflexivity. Qed.

Lemma replace_fuel_enough (f1 f2 : nat) (s : string) :
  (String.length s < f1)%nat -> (String.length s < f2)%nat ->
  PyStr.replace_fuel f1 old new s = PyStr.replace_fuel f2 old new s.
Proof.
  revert f2 s; induction f1 as [|f1 IH]; intros [|f2] s H1 H2; try lia.
  rewrite !replace_fuel_S.
  destruct (PyStr.startswith old s) eqn:E.
  - f_equal. apply startswith_length in E.
    pose proof (nonempty_length _ old_nonempty). apply IH; lia.
  - destruct s as [|c s]; [reflexivity |]. simpl in H1, H2. f_equal. apply IH; lia.
Qed.

(** The equation of [replace] for a pattern that is not empty. *)
Lemma replace_eq (s : string) :
  PyStr.replace old new s =
  if PyStr.startswith old s
  then new ++ PyStr.replace old new (PyStr.drop (String.length old) s)
  else match s with
       | EmptyString => EmptyString
       | String c s' => String c (PyStr.replace old new s')
       end.
Proof.
  unfold PyStr.replace at 1. rewrite replace_fuel_S.
  destruct (PyStr.startswith old s) eqn:E.
  - f_equal. apply startswith_length in E.
    pose proof (nonempty_length _ old_nonempty).
    unfold PyStr.replace. apply replace_fuel_enough; lia.
  - destruct s as [|c s]; reflexivity.
Qed.

(** A text without the pattern is left as it is. *)
Lemma replace_absent (s : string) :
  PyStr.contains old s = false -> PyStr.replace old new s = s.
Proof.
  induction s as [|c s IH]; intros H; rewrite replace_eq; cbn [PyStr.contains] in H.
  - now destruct (PyStr.startswith old "").
  - destruct (PyStr.startswith old (String c s)); [discriminate |].
    now rewrite IH.
Qed.

End Replace.

(** ** The package list *)

Section Lines.

Variable sep : ascii.

Lemma startswith_first_line (p s hd : string) (tl : list string) :
  lacks sep p = true -> PyStr.split sep s = hd :: tl ->
  PyStr.startswith p hd = true -> PyStr.startswith p s = true.
Proof.
  revert s hd tl; induction p as [|a p IH]; intros s hd tl Hp Hs Hhd; [reflexivity |].
  simpl in Hp. apply andb_prop in Hp as [Ha Hp].
  destruct s as [|c s]; simpl in Hs.
  - injection Hs as <- <-. discriminate.
  - destruct (Ascii.eqb_spec c sep) as [->|Hc].
    + injection Hs as <- <-. discriminate.
    + destruct (PyStr.split sep s) as [|hd' tl'] eqn:E.
      * injection Hs as <- <-. simpl in Hhd |- *.
        destruct (Ascii.eqb a c); [| discriminate].
        destruct p; [reflexivity | discriminate].
      * injection Hs as <- <-. simpl in Hhd |- *.
        destruct (Ascii.eqb a c); [| discriminate].
        now apply (IH s hd' tl').
Qed.

(** When [sep] followed by [p] occurs nowhere in a text, none of its
    lines after the first starts with [p]. *)
Lemma later_lines_lack_prefix (p s : string) :
  lacks sep p = true -> PyStr.contains (String sep p) s = false ->
  Forall (fun l => PyStr.startswith p l = false) (List.tl (PyStr.split sep s)).
Proof.
  intros Hp. induction s as [|c s IH]; intros H; [constructor |].
  cbn [PyStr.contains] in H.
  destruct (PyStr.startswith (String sep p) (String c s)) eqn:E; [discriminate |].
  specialize (IH H). cbn [PyStr.split].
  destruct (Ascii.eqb_spec c sep) as [->|Hc].
  - cbn [List.tl]. destruct (PyStr.split sep s) as [|hd tl] eqn:S; [constructor |].
    constructor; [| exact IH].
    destruct (PyStr.startswith p hd) eqn:F; [| reflexivity].
    apply (startswith_first_line p s hd tl Hp S) in F.
    simpl in E. rewrite Ascii.eqb_refl in E. congruence.
  - destruct (PyStr.split sep s) as [|hd tl]; [constructor | exact IH].
Qed.

End Lines.

Lemma filter_none {A : Type} (f : A -> bool) (l : list A) :
  Forall (fun x => f x = false) l -> List.filter f l = [].
Proof. induction 1 as [|x l Hx _ IH]; simpl; [reflexivity | now rewrite Hx]. Qed.

Lemma split_app_lacks (sep : ascii) (q s : string) :
  lacks sep q = true ->
  PyStr.split sep (q ++ s) =
  match PyStr.split sep s with
  | hd :: tl => (q ++ hd) :: tl
  | [] => [q]
  end.
Proof.
  induction q as [|c q IH]; intros H.
  - cbn [String.append]. destruct s as [|d s]; [reflexivity |].
    cbn [PyStr.split]. destruct (Ascii.eqb d sep); [reflexivity |].
    now destruct (PyStr.split sep s).
  - simpl in H. apply andb_prop in H as [Hc Hq].
    cbn [String.append PyStr.split]. rewrite Ascii.eqb_sym.
    destruct (Ascii.eqb sep c); [discriminate |].
    rewrite (IH Hq). now destruct (PyStr.split sep s).
Qed.

Lemma package_lines_unexpected (msg : string) :
  PyStr.contains (nl ++ "package:") msg = false ->
  package_lines ("Unexpected Error: " ++ msg) = [].
Proof.
  intros H. unfold package_lines.
  rewrite split_app_lacks by reflexivity.
  pose proof (later_lines_lack_prefix (ascii_of_nat 10) "package:" msg eq_refl H) as L.
  destruct (PyStr.split (ascii_of_nat 10) msg) as [|hd tl]; [reflexivity |].
  cbn [List.tl] in L. cbn [List.filter].
  replace (PyStr.startswith "package:" ("Unexpected Error: " ++ hd)) with false
    by reflexivity.
  now rewrite (filter_none (fun line => PyStr.startswith "package:" line) tl L).
Qed.

(** *** The lines of a text *)

Section LinesOf.

Lemma split_line (q rest : string) :
  lacks LF q = true -> PyStr.split LF (q ++ nl ++ rest) = q :: PyStr.split LF rest.
Proof.
  intros H. rewrite (split_app_lacks _ _ _ H).
  change (PyStr.split LF (nl ++ rest)) with (EmptyString :: PyStr.split LF rest).
  cbv iota. now rewrite append_nil_r.
Qed.

Lemma split_one_line (q : string) : lacks LF q = true -> PyStr.split LF q = [q].
Proof.
  intros H. rewrite <- (append_nil_r q) at 1. rewrite (split_app_lacks _ _ _ H).
  change (PyStr.split LF EmptyString) with [EmptyString]. cbv iota. now rewrite append_nil_r.
Qed.

Lemma join_cons (sep x y : string) (l : list string) :
  PyStr.join sep (x :: y :: l) = x ++ sep ++ PyStr.join sep (y :: l).
Proof. reflexivity. Qed.

(** A text has the lines [split] gives, and no others. *)
Lemma lines_of_unique (text : string) (lines : list string) :
  lines_of text lines -> PyStr.split LF text = lines.
Proof.
  intros (N & F & ->).
  induction F as [|l ls Hl F IH]; [now destruct N |].
  destruct ls as [|l2 ls]; [now apply split_one_line |].
  rewrite join_cons, (split_line _ _ Hl). now rewrite IH.
Qed.

Lemma lines_of_split (text : string) : lines_of text (PyStr.split LF text).
Proof.
  unfold lines_of. induction text as [|c s (N & F & E)].
  - split; [discriminate |]. split; [repeat constructor | reflexivity].
  - cbn [PyStr.split].
    destruct (PyStr.split LF s) as [|l ls]; [now destruct N |].
    apply Forall_cons in F as [Hl F'].
    destruct (Ascii.eqb_spec c LF) as [->|Hc].
    + split; [discriminate |]. split; [repeat constructor; assumption |].
      rewrite join_cons. cbn [String.append nl]. now rewrite <- E.
    + split; [discriminate |]. split.
      * constructor; [| exact F']. cbn [lacks]. rewrite Hl, andb_true_r.
        rewrite Ascii.eqb_sym. now destruct (Ascii.eqb_spec c LF).
      * rewrite E. now destruct ls.
Qed.

End LinesOf.

(** *** A text without the occurrences of another *)

Section Without.

Variable p : string.
Hypothesis p_nonempty : PyStr.nonempty p = true.

Lemma startswith_empty : PyStr.startswith p EmptyString = false.
Proof. destruct p; [discriminate | reflexivity]. Qed.

Lemma split_first_empty : split_first p EmptyString = None.
Proof. cbn [split_first]. now rewrite startswith_empty. Qed.

Lemma split_first_lengths (s a b : string) :
  split_first p s = Some (a, b) ->
  String.length s = (String.length a + String.length p + String.length b)%nat.
Proof.
  intros H. apply split_first_sound in H as [-> _]. rewrite !length_append. lia.
Qed.

Lemma without_fuel_enough (f1 f2 : nat) (s : string) :
  (String.length s <= f1)%nat -> (String.length s <= f2)%nat ->
  without_fuel f1 p s = without_fuel f2 p s.
Proof.
  pose proof (nonempty_length _ p_nonempty) as P.
  revert f2 s; induction f1 as [|f1 IH]; intros [|f2] s H1 H2; cbn [without_fuel];
    try reflexivity.
  - destruct s; [now rewrite split_first_empty | simpl in H1; lia].
  - destruct s; [now rewrite split_first_empty | simpl in H2; lia].
  - destruct (split_first p s) as [[a b]|] eqn:E; [| reflexivity].
    apply split_first_lengths in E. f_equal. apply IH; lia.
Qed.

(** The equation of [without]. *)
Lemma without_eq (s : string) :
  without p s =
  match split_first p s with
  | Some (a, b) => a ++ without p b
  | None => s
  end.
Proof.
  pose proof (nonempty_length _ p_nonempty) as P.
  unfold without. destruct (String.length s) as [|n] eqn:L.
  - destruct s; [| discriminate L]. now rewrite split_first_empty.
  - cbn [without_fuel]. destruct (split_first p s) as [[a b]|] eqn:E; [| reflexivity].
    apply split_first_lengths in E. f_equal. apply without_fuel_enough; lia.
Qed.

Lemma replace_split (new s : string) :
  PyStr.replace p new s =
  match split_first p s with
  | Some (a, b) => a ++ new ++ PyStr.replace p new b
  | None => s
  end.
Proof.
  induction s as [|c s IH]; rewrite (replace_eq p new p_nonempty); cbn [split_first].
  - now rewrite startswith_empty.
  - destruct (PyStr.startswith p (String c s)); [reflexivity |].
    rewrite IH. now destruct (split_first p s) as [[a b]|].
Qed.

(** [s.replace(p, "")] is [s] without the occurrences of [p]. *)
Lemma replace_without (s : string) : PyStr.replace p EmptyString s = without p s.
Proof.
  remember (String.length s) as n eqn:L.
  revert s L; induction n as [n IH] using lt_wf_ind; intros s ->.
  rewrite replace_split, without_eq.
  destruct (split_first p s) as [[a b]|] eqn:E; [| reflexivity].
  apply split_first_lengths in E. pose proof (nonempty_length _ p_nonempty) as P.
  cbn [String.append]. f_equal. apply (IH (String.length b)); [lia | reflexivity].
Qed.

Lemma without_length (s : string) : (String.length (without p s) <= String.length s)%nat.
Proof.
  remember (String.length s) as n eqn:L.
  revert s L; induction n as [n IH] using lt_wf_ind; intros s ->.
  rewrite without_eq.
  destruct (split_first p s) as [[a b]|] eqn:E; [| lia].
  apply split_first_lengths in E. pose proof (nonempty_length _ p_nonempty) as P.
  rewrite length_append.
  specialize (IH (String.length b) ltac:(lia) b eq_refl). lia.
Qed.

(** A text that starts with [p] loses at least that occurrence. *)
Lemma without_prefix_length (r : string) :
  (String.length (without p (p ++ r)) + String.length p <= String.length (p ++ r))%nat.
Proof.
  rewrite without_eq.
  assert (E : split_first p (p ++ r) = Some (EmptyString, r)).
  { destruct p as [|c q] eqn:P; [discriminate |]. rewrite <- P.
    assert (S : PyStr.startswith p (p ++ r) = true) by apply startswith_app.
    rewrite P in S |- *. cbn [String.append split_first] in *. rewrite S.
    rewrite <- P. change (String c (q ++ r)) with (String c q ++ r). rewrite <- P.
    now rewrite drop_app. }
  rewrite E. cbn [String.append]. rewrite length_append.
  pose proof (without_length r). lia.
Qed.

End Without.

Section Entries.

Lemma lstrip_length (s : string) : (String.length (PyStr.lstrip s) <= String.length s)%nat.
Proof.
  induction s as [|c s IH]; [reflexivity |]. cbn [PyStr.lstrip].
  destruct (PyStr.isspace c); simpl; lia.
Qed.

Lemma rstrip_length (s : string) : (String.length (PyStr.rstrip s) <= String.length s)%nat.
Proof.
  induction s as [|c s IH]; [reflexivity |]. rewrite rstrip_cons.
  destruct (PyStr.rstrip s); [destruct (PyStr.isspace c) |]; simpl in *; lia.
Qed.

Lemma strip_length (s : string) : (String.length (PyStr.strip s) <= String.length s)%nat.
Proof.
  unfold PyStr.strip. pose proof (rstrip_length (PyStr.lstrip s)).
  pose proof (lstrip_length s). lia.
Qed.

Lemma lstrip_lead (s : string) :
  exists lead, s = lead ++ PyStr.lstrip s /\ all_space lead = true.
Proof.
  induction s as [|c s (lead & E & A)]; [now exists EmptyString |]. cbn [PyStr.lstrip].
  destruct (PyStr.isspace c) eqn:Hc; [| now exists EmptyString].
  exists (String c lead). cbn [String.append all_space]. now rewrite <- E, Hc, A.
Qed.

Lemma rstrip_trail (s : string) :
  exists trail, s = PyStr.rstrip s ++ trail /\ all_space trail = true.
Proof.
  induction s as [|c s (trail & E & A)]; [now exists EmptyString |]. rewrite rstrip_cons.
  destruct (PyStr.rstrip s) as [|d r].
  - cbn [String.append] in E. subst trail. destruct (PyStr.isspace c) eqn:Hc.
    + exists (String c s). cbn [String.append all_space]. now rewrite Hc, A.
    + now exists s.
  - exists trail. cbn [String.append] in *. now rewrite <- E.
Qed.

Lemma rstrip_ends_clean (s : string) : ends_clean (PyStr.rstrip s) = true.
Proof.
  induction s as [|c s IH]; [reflexivity |]. rewrite rstrip_cons.
  destruct (PyStr.rstrip s) as [|d r]; [| exact IH].
  destruct (PyStr.isspace c) eqn:Hc; cbn [ends_clean]; [reflexivity | now rewrite Hc].
Qed.

(** [strip] takes the white space off the two ends, and nothing else. *)
Lemma strip_trimmed (s : string) : trimmed_of s (PyStr.strip s).
Proof.
  destruct (lstrip_lead s) as (lead & E & A).
  destruct (rstrip_trail (PyStr.lstrip s)) as (trail & E' & A').
  exists lead, trail. unfold PyStr.strip. split; [now rewrite <- E' |].
  split; [exact A |]. split; [exact A' |].
  split; [apply rstrip_starts_clean, lstrip_starts_clean | apply rstrip_ends_clean].
Qed.

(** The entry of a line that starts with [package:] is shorter than
    the line by that prefix at least. *)
Lemma package_entry_length (line : string) :
  PyStr.startswith "package:" line = true ->
  (String.length (package_entry line) + 8 <= String.length line)%nat.
Proof.
  intros H. apply startswith_true in H. rewrite H at 1 2. unfold package_entry.
  pose proof (without_prefix_length "package:" eq_refl
                (PyStr.drop (String.length "package:") line)) as W.
  pose proof (strip_length
                (without "package:" ("package:" ++ PyStr.drop (String.length "package:") line))).
  change (String.length "package:") with 8%nat in *. lia.
Qed.

Lemma join_length (lines : list string) :
  lines <> [] -> S (String.length (PyStr.join nl lines)) = total lines.
Proof.
  induction lines as [|l ls IH]; [now intros [] |]. intros _.
  destruct ls as [|l2 ls]; [simpl; lia |].
  rewrite join_cons, !length_append. cbn [total] in *.
  specialize (IH ltac:(discriminate)). change (String.length nl) with 1%nat. lia.
Qed.

Lemma package_entries_total (lines : list string) :
  (total (package_entries lines) <= total lines)%nat /\
  (package_entries lines <> [] -> (total (package_entries lines) + 8 <= total lines)%nat).
Proof.
  unfold package_entries. induction lines as [|l ls [IH1 IH2]]; [split; [reflexivity | easy] |].
  cbn [List.filter]. destruct (PyStr.startswith "package:" l) eqn:E; cbn [map total].
  - apply package_entry_length in E. split; [lia | intros _; lia].
  - split; [lia |]. intros N. specialize (IH2 N). lia.
Qed.

(** Only the empty text is the list of its own packages. *)
Lemma package_entries_differ (output : string) (lines : list string) :
  lines_of output lines -> PyStr.join nl (package_entries lines) = output -> output = EmptyString.
Proof.
  intros (N & _ & E) J.
  pose proof (join_length lines N) as L. rewrite <- E in L.
  destruct (package_entries_total lines) as [_ T].
  destruct (package_entries lines) as [|e es] eqn:P; [now rewrite <- J |].
  specialize (T ltac:(discriminate)).
  pose proof (join_length (e :: es) ltac:(discriminate)) as L'. rewrite J in L'. lia.
Qed.

Lemma package_lines_entries (output : string) :
  package_lines output = package_entries (PyStr.split LF output).
Proof.
  unfold package_lines, package_entries, package_entry.
  change (PyStr.split (ascii_of_nat 10) output) with (PyStr.split LF output).
  generalize (PyStr.split LF output) as lines.
  induction lines as [|l ls IH]; [reflexivity |].
  cbn [List.filter]. destruct (PyStr.startswith "package:" l); cbn [map];
    [rewrite (replace_without "package:" eq_refl); f_equal |]; exact IH.
Qed.

End Entries.

Section Packages.

Variable device : trace -> command -> res string.

Lemma get_packages_eq (device_serial : option string) (h : trace) :
  let cmd := adb_command ["shell"; "pm"; "list"; "packages"] device_serial in
  let output := adb_text (device h cmd) in
  get_packages device device_serial h
  = (Return (if PyStr.startswith "Error" output then output
             else PyStr.join nl (package_entries (PyStr.split LF output))),
     (h ++ [cmd])%list).
Proof.
  intros cmd output. unfold get_packages, py_bind, py_ret. rewrite run_adb_eq.
  fold cmd output. rewrite <- package_lines_entries. unfold package_lines.
  now destruct (PyStr.startswith "Error" output).
Qed.

(** C10, as the program has it.  [get_packages] runs one command and
    returns the text of [run_adb] as it is when that text starts with
    [Error].  Any other text is cut in lines at the line feeds, and the
    result is the entries of the lines that start with [package:],
    joined by line feeds; the entry of a line is the line without any
    of its occurrences of [package:], not the one at its start alone,
    and without the white space at its ends.  So the text is returned
    as it is exactly when it starts with [Error] or is empty.  The text
    of an unexpected failure starts with [Unexpected Error: ], not with
    [Error]: the result is the entries of the lines of the message
    after the first, and it is the empty string when no line feed of
    the message is followed by [package:], as in a message of one
    line. *)
Theorem get_packages_error_prefix (device_serial : option string) (h : trace) :
  let cmd := adb_command ["shell"; "pm"; "list"; "packages"] device_serial in
  let output := adb_text (device h cmd) in
  let result := get_packages device device_serial h in
  snd result = (h ++ [cmd])%list /\
  (PyStr.startswith "Error" output = true -> fst result = Return output) /\
  (exists lines, lines_of output lines) /\
  (PyStr.startswith "Error" output = false ->
     forall lines, lines_of output lines ->
       fst result = Return (PyStr.join nl (package_entries lines))) /\
  (forall line, trimmed_of (without "package:" line) (package_entry line)) /\
  (fst result = Return output <->
     PyStr.startswith "Error" output = true \/ output = EmptyString) /\
  (forall e, device h cmd = Raise e -> (forall stderr, e <> CalledProcessError stderr) ->
     output = "Unexpected Error: " ++ exn_message e /\
     PyStr.startswith "Error" output = false /\
     (forall first rest, lines_of (exn_message e) (first :: rest) ->
        fst result = Return (PyStr.join nl (package_entries rest))) /\
     (PyStr.contains (nl ++ "package:") (exn_message e) = false -> fst result = Return "")).
Proof.
  intros cmd output result.
  pose proof (get_packages_eq device_serial h) as G. cbv zeta in G.
  fold cmd output result in G.
  assert (O : PyStr.startswith "Error" output = false ->
              forall lines, lines_of output lines ->
                fst result = Return (PyStr.join nl (package_entries lines))).
  { intros E lines L. rewrite G, E. cbn [fst]. now rewrite (lines_of_unique _ _ L). }
  split; [now rewrite G |]. split; [intros E; now rewrite G, E |].
  split; [exists (PyStr.split LF output); apply lines_of_split |].
  split; [exact O |]. split; [intros line; apply strip_trimmed |]. split.
  - split.
    + intros R. destruct (PyStr.startswith "Error" output) eqn:E; [now left | right].
      rewrite (O eq_refl _ (lines_of_split output)) in R. injection R as R.
      exact (package_entries_differ _ _ (lines_of_split output) R).
    + intros [E | E]; [now rewrite G, E |].
      rewrite G, E. reflexivity.
  - intros e He Hne.
    assert (M : output = "Unexpected Error: " ++ exn_message e).
    { unfold output. rewrite He. destruct e; try reflexivity. now destruct (Hne stderr). }
    assert (E : PyStr.startswith "Error" output = false) by now rewrite M.
    split; [exact M |]. split; [exact E |]. split.
    + intros first rest L. rewrite G, E, M. cbn [fst].
      rewrite split_app_lacks by reflexivity.
      change (PyStr.split (ascii_of_nat 10) (exn_message e))
        with (PyStr.split LF (exn_message e)).
      rewrite (lines_of_unique _ _ L). unfold package_entries. cbn [List.filter].
      now replace (PyStr.startswith "package:" ("Unexpected Error: " ++ first)) with false
        by reflexivity.
    + intros C. rewrite G, E, M. cbn [fst].
      rewrite <- package_lines_entries, package_lines_unexpected; [reflexivity | exact C].
Qed.

End Packages.

Lemma get_packages_error_prefix_witness :
  fst (get_packages no_adb None []) = Return "".
Proof.
  apply (proj2 (proj2 (proj2
           (proj2 (proj2 (proj2 (proj2 (proj2 (proj2
              (get_packages_error_prefix no_adb None []))))))
              (OtherException "[Errno 2] No such file or directory: 'adb'") eq_refl
              (fun stderr H => eq_ind (OtherException "[Errno 2] No such file or directory: 'adb'")
                                 (fun e => match e with OtherException _ => True | _ => False end)
                                 I _ H))))).
  reflexivity.
Defined.

(** C10 as the claim states it fails here: an empty output does not
    start with [Error] and is returned as it is; a line loses every
    [package:], not its prefix alone; and an unexpected failure whose
    message has a line that starts with [package:] gives that package,
    not an empty list. *)
Lemma get_packages_not_as_claimed :
  PyStr.startswith "Error" "" = false /\
  fst (get_packages silent_device None []) = Return "" /\
  fst (get_packages nested_listing None []) = Return "a.b" /\
  PyStr.join nl (prefix_removed ["package:a.package:b "]) = "a.package:b " /\
  fst (get_packages failing_with_a_line None []) = Return "evil".
Proof. repeat split; vm_compute; reflexivity. Qed.

(** ** The matcher on the bounds pattern *)

Section BoundsPattern.

Lemma match_here_greedy (cls : ascii -> bool) (p : Re.pattern) (ms : list string) (s : string) :
  Re.match_here (Re.GreedyStar cls :: p) ms s =
  match s with
  | String d s' =>
      if cls d then
        match Re.match_here (Re.GreedyStar cls :: p) ms s' with
        | Some r => Some r
        | None => Re.match_here p ms s
        end
      else Re.match_here p ms s
  | EmptyString => Re.match_here p ms s
  end.
Proof. destruct s; reflexivity. Qed.

Lemma digits_span_app (s : string) : fst (digits_span s) ++ snd (digits_span s) = s.
Proof.
  induction s as [|c s IH]; [reflexivity |]. simpl.
  destruct (Re.digit c); [| reflexivity].
  destruct (digits_span s) as [a r]. simpl in *. now rewrite IH.
Qed.

(** Giving a digit back never helps when a character that is not a
    digit must follow: the greedy run is the only one tried with
    success. *)
Lemma greedy_digits_then_chr (c : ascii) (p : Re.pattern) (ms : list string) (s : string) :
  Re.digit c = false ->
  Re.match_here (Re.GreedyStar Re.digit :: Re.Mark :: Re.Chr c :: p) ms s =
  Re.match_here (Re.Mark :: Re.Chr c :: p) ms (snd (digits_span s)).
Proof.
  intros Hc. induction s as [|d s IH]; [reflexivity |].
  rewrite match_here_greedy. cbn [digits_span].
  destruct (Re.digit d) eqn:Hd; [| reflexivity].
  rewrite IH. destruct (digits_span s) as [a r]. cbn [snd].
  destruct (Re.match_here (Re.Mark :: Re.Chr c :: p) ms r); [reflexivity |].
  cbn [Re.match_here].
  destruct (Ascii.eqb_spec c d) as [->|]; [congruence | reflexivity].
Qed.

Lemma between_span (s : string) :
  Re.between s (snd (digits_span s)) = fst (digits_span s).
Proof. rewrite <- (digits_span_app s) at 1. apply between_app. Qed.

Lemma match_here_chr (c : ascii) (p : Re.pattern) (ms : list string) (s : string) :
  Re.match_here (Re.Chr c :: p) ms s =
  match s with
  | String d s' => if Ascii.eqb c d then Re.match_here p ms s' else None
  | EmptyString => None
  end.
Proof. reflexivity. Qed.

Lemma match_here_cls (cls : ascii -> bool) (p : Re.pattern) (ms : list string) (s : string) :
  Re.match_here (Re.Cls cls :: p) ms s =
  match s with
  | String d s' => if cls d then Re.match_here p ms s' else None
  | EmptyString => None
  end.
Proof. reflexivity. Qed.

Lemma match_here_mark (p : Re.pattern) (ms : list string) (s : string) :
  Re.match_here (Re.Mark :: p) ms s = Re.match_here p (s :: ms) s.
Proof. reflexivity. Qed.

(** What [\d+] then a literal that is not a digit matches: the run of
    digits at the start, which is not empty, then the literal. *)
Lemma digits_plus_then_chr (c : ascii) (p : Re.pattern) (ms : list string) (s : string) :
  Re.digit c = false ->
  Re.match_here (Re.Mark :: Re.Cls Re.digit :: Re.GreedyStar Re.digit :: Re.Mark
                   :: Re.Chr c :: p) ms s =
  match digits_span s with
  | (String _ _, String c' r as s2) =>
      if Ascii.eqb c c' then Re.match_here p (s2 :: s :: ms) r else None
  | _ => None
  end.
Proof.
  intros Hc. rewrite match_here_mark, match_here_cls.
  destruct s as [|d s]; [reflexivity |]. cbn [digits_span].
  destruct (Re.digit d); [| reflexivity].
  rewrite greedy_digits_then_chr by exact Hc.
  rewrite match_here_mark, match_here_chr.
  destruct (digits_span s) as [a [|c' r]]; reflexivity.
Qed.

(** What [match_at] finds for the bounds pattern. *)
Lemma match_at_bounds (s : string) :
  option_map (fun m => (Re.groups2 m, Re.after m)) (Re.match_at bounds_pattern s) =
  option_map (fun '(a, b, rest) => (Some (a, b), rest)) (bracket_at s).
Proof.
  unfold Re.match_at, bounds_pattern, bracket_at.
  rewrite match_here_chr.
  destruct s as [|c s1]; [reflexivity |].
  destruct (Ascii.eqb_spec "[" c) as [<-|Hc].
  2:{ destruct c as [[] [] [] [] [] [] [] []]; try reflexivity. now destruct Hc. }
  rewrite digits_plus_then_chr by reflexivity.
  pose proof (between_span s1) as B1.
  destruct (digits_span s1) as [[|d a] [|c2 s3]]; try reflexivity.
  destruct (Ascii.eqb_spec "," c2) as [<-|Hc2].
  2:{ destruct c2 as [[] [] [] [] [] [] [] []]; try reflexivity. now destruct Hc2. }
  rewrite digits_plus_then_chr by reflexivity.
  pose proof (between_span s3) as B2.
  destruct (digits_span s3) as [[|e b] [|c4 s5]]; try reflexivity.
  destruct (Ascii.eqb_spec "]" c4) as [<-|Hc4].
  2:{ destruct c4 as [[] [] [] [] [] [] [] []]; try reflexivity. now destruct Hc4. }
  cbn [Re.match_here option_map Re.groups2 Re.marks Re.after fst snd] in *.
  now rewrite B1, B2.
Qed.

End BoundsPattern.

(** ** All the bracket pairs of a text *)

Section Findall.

Lemma digits_span_all_digits (s : string) : all_digits (fst (digits_span s)) = true.
Proof.
  induction s as [|c s IH]; [reflexivity |]. simpl.
  destruct (Re.digit c) eqn:E; [| reflexivity].
  destruct (digits_span s) as [a r]. simpl in *. now rewrite E.
Qed.

Lemma bracket_at_sound (s a b rest : string) :
  bracket_at s = Some (a, b, rest) ->
  s = bracket a b ++ rest /\ is_int_text a = true /\ is_int_text b = true.
Proof.
  unfold bracket_at, bracket.
  destruct s as [|c s1]; [discriminate |].
  destruct (Ascii.eqb_spec c "[") as [->|Hc].
  2:{ destruct c as [[] [] [] [] [] [] [] []]; try discriminate. now destruct Hc. }
  pose proof (digits_span_app s1) as A1. pose proof (digits_span_all_digits s1) as D1.
  destruct (digits_span s1) as [[|d a'] [|c2 s3]]; try discriminate.
  destruct (Ascii.eqb_spec c2 ",") as [->|Hc2].
  2:{ destruct c2 as [[] [] [] [] [] [] [] []]; try discriminate. now destruct Hc2. }
  pose proof (digits_span_app s3) as A2. pose proof (digits_span_all_digits s3) as D2.
  destruct (digits_span s3) as [[|e b'] [|c4 s5]]; try discriminate.
  destruct (Ascii.eqb_spec c4 "]") as [->|Hc4].
  2:{ destruct c4 as [[] [] [] [] [] [] [] []]; try discriminate. now destruct Hc4. }
  intros [= <- <- <-]. cbn [fst snd] in *.
  repeat split; [| exact D1 | exact D2].
  rewrite <- A1, <- A2. now normalize_append.
Qed.

Lemma bracket_at_shorter (s a b rest : string) :
  bracket_at s = Some (a, b, rest) -> (String.length rest < String.length s)%nat.
Proof.
  intros H. destruct (bracket_at_sound _ _ _ _ H) as [-> _].
  unfold bracket. rewrite !length_append. simpl. lia.
Qed.

Lemma findall_fuel_step (fuel : nat) (s : string) :
  Re.findall_fuel (S fuel) bounds_pattern s =
  match bracket_at s with
  | Some (a, b, rest) => (a, b) :: Re.findall_fuel fuel bounds_pattern rest
  | None =>
      match s with
      | String _ s' => Re.findall_fuel fuel bounds_pattern s'
      | EmptyString => []
      end
  end.
Proof.
  cbn [Re.findall_fuel]. pose proof (match_at_bounds s) as M.
  destruct (Re.match_at bounds_pattern s) as [m|], (bracket_at s) as [[[a b] rest]|];
    simpl in M; try discriminate; [| reflexivity].
  injection M as -> ->. reflexivity.
Qed.

(** More fuel than the text is long is enough. *)
Lemma findall_fuel_enough (f1 f2 : nat) (s : string) :
  (String.length s < f1)%nat -> (String.length s < f2)%nat ->
  Re.findall_fuel f1 bounds_pattern s = Re.findall_fuel f2 bounds_pattern s.
Proof.
  revert f2 s; induction f1 as [|f1 IH]; intros [|f2] s H1 H2; try lia.
  rewrite !findall_fuel_step.
  destruct (bracket_at s) as [[[a b] rest]|] eqn:B.
  - apply bracket_at_shorter in B. f_equal. apply IH; lia.
  - destruct s as [|c s]; [reflexivity |]. simpl in H1, H2. apply IH; lia.
Qed.

(** The equation of [findall] on the bounds pattern. *)
Lemma findall_bounds_eq (s : string) :
  Re.findall bounds_pattern s =
  match bracket_at s with
  | Some (a, b, rest) => (a, b) :: Re.findall bounds_pattern rest
  | None =>
      match s with
      | String _ s' => Re.findall bounds_pattern s'
      | EmptyString => []
      end
  end.
Proof.
  unfold Re.findall. rewrite findall_fuel_step.
  destruct (bracket_at s) as [[[a b] rest]|] eqn:B.
  - apply bracket_at_shorter in B. f_equal. apply findall_fuel_enough; lia.
  - destruct s as [|c s]; [reflexivity |]. apply findall_fuel_enough; simpl; lia.
Qed.

(** Every pair [findall] returns is a pair of runs of digits. *)
Lemma findall_bounds_int (s : string) :
  Forall (fun g => is_int_text (fst g) = true /\ is_int_text (snd g) = true)
         (Re.findall bounds_pattern s).
Proof.
  remember (String.length s) as n eqn:L.
  revert s L; induction n as [n IH] using lt_wf_ind; intros s ->.
  rewrite findall_bounds_eq.
  destruct (bracket_at s) as [[[a b] rest]|] eqn:B.
  - destruct (bracket_at_sound _ _ _ _ B) as (_ & Ha & Hb).
    constructor; [now split |].
    apply (IH (String.length rest)); [now apply bracket_at_shorter in B | reflexivity].
  - destruct s as [|c s]; [constructor |].
    apply (IH (String.length s)); [simpl; lia | reflexivity].
Qed.

End Findall.


(** ** The center of a bounds string *)

Lemma center_of_bounds_eq (s : string) :
  center_of_bounds s = Return (center_of_matches (Re.findall bounds_pattern s)).
Proof.
  unfold center_of_bounds. pose proof (findall_bounds_int s) as F.
  destruct (Re.findall bounds_pattern s) as [|g1 [|g2 [|g3 l]]]; try reflexivity.
  inversion F as [|? ? [A1 B1] F']; subst. inversion F' as [|? ? [A2 B2] _]; subst.
  cbn [List.length Nat.eqb index nth_error res_bind center_of_matches].
  unfold readable_pair.
  destruct (readable (fst g1)) eqn:R1;
    [rewrite (int_of_int_text _ A1 R1) | now destruct (int_of_long_text _ A1 R1) as [msg ->]].
  destruct (readable (snd g1)) eqn:R2;
    [rewrite (int_of_int_text _ B1 R2) | now destruct (int_of_long_text _ B1 R2) as [msg ->]].
  cbn [res_bind].
  destruct (readable (fst g2)) eqn:R3;
    [rewrite (int_of_int_text _ A2 R3) | now destruct (int_of_long_text _ A2 R3) as [msg ->]].
  destruct (readable (snd g2)) eqn:R4;
    [rewrite (int_of_int_text _ B2 R4) | now destruct (int_of_long_text _ B2 R4) as [msg ->]].
  reflexivity.
Qed.

Section Render.

Lemma bracket_at_alt (s : string) :
  bracket_at s =
  match s with
  | String c s1 =>
      if Ascii.eqb c "[" then
        match snd (digits_span s1) with
        | String c2 s3 =>
            if PyStr.nonempty (fst (digits_span s1)) && Ascii.eqb c2 "," then
              match snd (digits_span s3) with
              | String c4 s5 =>
                  if PyStr.nonempty (fst (digits_span s3)) && Ascii.eqb c4 "]"
                  then Some (fst (digits_span s1), fst (digits_span s3), s5)
                  else None
              | EmptyString => None
              end
            else None
        | EmptyString => None
        end
      else None
  | EmptyString => None
  end.
Proof.
  unfold bracket_at. destruct s as [|c s1]; [reflexivity |].
  destruct (Ascii.eqb_spec c "[") as [->|Hc].
  2:{ destruct c as [[] [] [] [] [] [] [] []]; try reflexivity. now destruct Hc. }
  destruct (digits_span s1) as [a [|c2 s3]]; cbn [fst snd]; [now destruct a |].
  destruct (Ascii.eqb_spec c2 ",") as [->|Hc2].
  2:{ rewrite andb_false_r.
      destruct a; [reflexivity |].
      destruct c2 as [[] [] [] [] [] [] [] []]; try reflexivity. now destruct Hc2. }
  destruct a as [|d a]; [reflexivity |]. cbn [PyStr.nonempty andb].
  destruct (digits_span s3) as [b [|c4 s5]]; cbn [fst snd]; [now destruct b |].
  destruct (Ascii.eqb_spec c4 "]") as [->|Hc4].
  2:{ rewrite andb_false_r.
      destruct b; [reflexivity |].
      destruct c4 as [[] [] [] [] [] [] [] []]; try reflexivity. now destruct Hc4. }
  now destruct b.
Qed.

Lemma digits_span_stop (a : string) (x : ascii) (r : string) :
  all_digits a = true -> Re.digit x = false ->
  digits_span (a ++ String x r) = (a, String x r).
Proof.
  intros Ha Hx. induction a as [|c a IH]; simpl.
  - now rewrite Hx.
  - simpl in Ha. apply andb_prop in Ha as [Hc Ha]. now rewrite Hc, (IH Ha).
Qed.

(** In a text that is not all digits the run stops before one of its
    characters. *)
Lemma digits_span_inside (a r : string) :
  all_digits a = false ->
  exists y r', snd (digits_span (a ++ r)) = String y r' /\ lacks y a = false.
Proof.
  induction a as [|c a IH]; [discriminate |]. simpl.
  destruct (Re.digit c) eqn:Hc; simpl.
  - intros Ha. destruct (IH Ha) as (y & r' & E & L).
    exists y, r'. destruct (digits_span (a ++ r)). simpl in *.
    split; [exact E |]. now rewrite L, andb_false_r.
  - intros _. exists c, (a ++ r). now rewrite Ascii.eqb_refl.
Qed.

Lemma lacks_neq (x y : ascii) (a : string) :
  lacks x a = true -> lacks y a = false -> Ascii.eqb y x = false.
Proof.
  intros Hx Hy. destruct (Ascii.eqb_spec y x) as [->|]; [congruence | reflexivity].
Qed.

Lemma bracket_at_pair (a b rest : string) :
  is_int_text a = true -> is_int_text b = true ->
  bracket_at (bracket a b ++ rest) = Some (a, b, rest).
Proof.
  unfold is_int_text, bracket. intros Ha Hb.
  apply andb_prop in Ha as [Na Da], Hb as [Nb Db].
  rewrite bracket_at_alt. rewrite !append_assoc. cbn [String.append].
  rewrite Ascii.eqb_refl.
  rewrite (digits_span_stop a "," _ Da eq_refl). cbn [fst snd].
  rewrite Na, Ascii.eqb_refl. cbn [andb].
  rewrite (digits_span_stop b "]" _ Db eq_refl). cbn [fst snd].
  now rewrite Nb, Ascii.eqb_refl.
Qed.

Lemma bracket_at_not_int (a b rest : string) :
  plain a = true -> plain b = true -> is_int_text a && is_int_text b = false ->
  bracket_at (bracket a b ++ rest) = None.
Proof.
  unfold plain, is_int_text, bracket. intros Pa Pb H.
  apply andb_prop in Pa as [Pa Pa3]. apply andb_prop in Pa as [Pa1 Pa2].
  apply andb_prop in Pb as [Pb Pb3]. apply andb_prop in Pb as [Pb1 Pb2].
  rewrite bracket_at_alt. rewrite !append_assoc. cbn [String.append].
  rewrite Ascii.eqb_refl.
  destruct (all_digits a) eqn:Da.
  - rewrite (digits_span_stop a "," _ Da eq_refl). cbn [fst snd].
    rewrite Ascii.eqb_refl, andb_true_r.
    destruct (PyStr.nonempty a); [| reflexivity]. cbn [andb] in H.
    destruct (all_digits b) eqn:Db.
    + rewrite (digits_span_stop b "]" _ Db eq_refl). cbn [fst snd].
      rewrite andb_true_r in H. now rewrite H.
    + destruct (digits_span_inside b (String "]" rest) Db) as (y & r' & E & L).
      rewrite E. now rewrite (lacks_neq _ _ _ Pb2 L), andb_false_r.
  - destruct (digits_span_inside a (String "," (b ++ String "]" rest)) Da)
      as (y & r' & E & L).
    rewrite E. now rewrite (lacks_neq _ _ _ Pa3 L), andb_false_r.
Qed.

Lemma bracket_at_other (c : ascii) (s : string) :
  Ascii.eqb c "[" = false -> bracket_at (String c s) = None.
Proof. intros H. rewrite bracket_at_alt. now rewrite H. Qed.

(** Text without [[] holds no pair. *)
Lemma findall_noise (noise s : string) :
  lacks "[" noise = true ->
  Re.findall bounds_pattern (noise ++ s) = Re.findall bounds_pattern s.
Proof.
  induction noise as [|c n IH]; [reflexivity |]. cbn [lacks String.append]. intros H.
  apply andb_prop in H as [Hc Hn].
  rewrite findall_bounds_eq, bracket_at_other; [now apply IH |].
  rewrite Ascii.eqb_sym. now destruct (Ascii.eqb "[" c).
Qed.

Lemma lacks_app (x : ascii) (a b : string) :
  lacks x (a ++ b) = lacks x a && lacks x b.
Proof. induction a as [|c a IH]; simpl; [reflexivity | now rewrite IH, andb_assoc]. Qed.

Lemma findall_render (l : list (string * string * string)) (last : string) :
  Forall (fun e => lacks "[" (fst (fst e)) = true /\ plain (snd (fst e)) = true
                   /\ plain (snd e) = true) l ->
  lacks "[" last = true ->
  Re.findall bounds_pattern (render l last) = map pair_of (List.filter int_pair l).
Proof.
  intros Hl Hlast. induction Hl as [|[[noise a] b] l (Hn & Pa & Pb) _ IH];
    cbn [render List.filter map].
  - rewrite <- (append_nil_r last). now rewrite findall_noise.
  - cbn [fst snd] in *. rewrite findall_noise by exact Hn.
    change (int_pair (noise, a, b)) with (is_int_text a && is_int_text b).
    destruct (is_int_text a && is_int_text b) eqn:I.
    + apply andb_prop in I as [Ia Ib].
      rewrite findall_bounds_eq, bracket_at_pair by assumption.
      cbn [map]. now rewrite IH.
    + rewrite findall_bounds_eq, (bracket_at_not_int _ _ _ Pa Pb I).
      unfold bracket. rewrite !append_assoc. cbn [String.append].
      rewrite <- IH.
      replace (a ++ String "," (b ++ String "]" (render l last)))
        with ((a ++ "," ++ b ++ "]") ++ render l last)
        by (rewrite !append_assoc; reflexivity).
      apply findall_noise.
      unfold plain in Pa, Pb.
      apply andb_prop in Pa as [Pa _]. apply andb_prop in Pa as [Pa _].
      apply andb_prop in Pb as [Pb _]. apply andb_prop in Pb as [Pb _].
      rewrite lacks_app, Pa. cbn [andb String.append lacks].
      rewrite lacks_app, Pb. reflexivity.
Qed.

End Render.

(** *** The text of four integers *)

Lemma digit_plain (c : ascii) :
  Re.digit c = true ->
  Ascii.eqb "[" c = false /\ Ascii.eqb "]" c = false /\ Ascii.eqb "," c = false.
Proof.
  destruct c as [[] [] [] [] [] [] [] []]; intros H; try discriminate H; repeat split.
Qed.

Lemma all_digits_plain (s : string) : all_digits s = true -> plain s = true.
Proof.
  unfold plain. induction s as [|c s IH]; [reflexivity |]. cbn [all_digits lacks].
  intros H. apply andb_prop in H as [Hc Hs].
  destruct (digit_plain c Hc) as (-> & -> & ->). exact (IH Hs).
Qed.

(** The text of a number holds no bracket and no comma. *)
Lemma decimal_plain (z : Z) : plain (PyInt.decimal z) = true.
Proof.
  destruct z as [|p|p]; [reflexivity | |].
  - rewrite decimal_pos. apply all_digits_plain, string_of_uint_digits.
  - rewrite decimal_neg, decimal_pos.
    pose proof (all_digits_plain _ (string_of_uint_digits (Pos.to_uint p))) as P.
    unfold plain in *. cbn [lacks]. exact P.
Qed.

(** It is a run of digits exactly when the number is not negative. *)
Lemma decimal_is_int_text (z : Z) : is_int_text (PyInt.decimal z) = (0 <=? z)%Z.
Proof.
  destruct z as [|p|p]; [reflexivity | | reflexivity].
  change (0 <=? Z.pos p)%Z with true.
  exact (proj1 (decimal_int_text (N.pos p))).
Qed.

Lemma decimal_value_decimal (z : Z) : (0 <= z)%Z -> decimal_value 0 (PyInt.decimal z) = z.
Proof.
  intros H. rewrite <- (Z2N.id z H) at 2. rewrite <- (Z2N.id z H) at 1.
  exact (proj2 (decimal_int_text (Z.to_N z))).
Qed.

Lemma bounds_text_render (x1 y1 x2 y2 : Z) :
  bounds_text x1 y1 x2 y2
  = render [(EmptyString, PyInt.decimal x1, PyInt.decimal y1);
            (EmptyString, PyInt.decimal x2, PyInt.decimal y2)] EmptyString.
Proof. unfold bounds_text. cbn [render String.append]. now rewrite append_nil_r. Qed.

(** The pairs found in the text of four integers: a corner with a
    negative number is not found. *)
Lemma findall_bounds_text (x1 y1 x2 y2 : Z) :
  Re.findall bounds_pattern (bounds_text x1 y1 x2 y2)
  = ((if (0 <=? x1)%Z && (0 <=? y1)%Z then [(PyInt.decimal x1, PyInt.decimal y1)] else [])
     ++ (if (0 <=? x2)%Z && (0 <=? y2)%Z then [(PyInt.decimal x2, PyInt.decimal y2)] else []))%list.
Proof.
  rewrite bounds_text_render, findall_render.
  - cbn [List.filter]. unfold int_pair. cbn [fst snd]. rewrite !decimal_is_int_text.
    now destruct ((0 <=? x1)%Z && (0 <=? y1)%Z), ((0 <=? x2)%Z && (0 <=? y2)%Z).
  - repeat constructor; cbn [fst snd]; apply decimal_plain.
  - reflexivity.
Qed.

Lemma center_of_bounds_text (x1 y1 x2 y2 : Z) :
  Forall (fun z => (0 <= z < digit_limit)%Z) [x1; y1; x2; y2] ->
  center_of_bounds (bounds_text x1 y1 x2 y2)
  = Return (Some ((x1 + x2) / 2, (y1 + y2) / 2)%Z).
Proof.
  intros H.
  inversion H as [|? ? H1 H']; subst. inversion H' as [|? ? H2 H'']; subst.
  inversion H'' as [|? ? H3 H3']; subst. inversion H3' as [|? ? H4 _]; subst.
  rewrite center_of_bounds_eq, findall_bounds_text.
  rewrite !(proj2 (Z.leb_le 0 _)) by lia. cbn [andb app center_of_matches].
  unfold readable_pair, midpoint. cbn [fst snd].
  rewrite !decimal_readable by assumption. cbn [andb].
  now rewrite !decimal_value_decimal by lia.
Qed.

Lemma center_of_bounds_text_absent (x1 y1 x2 y2 : Z) :
  Exists (fun z => (z < 0)%Z \/ (digit_limit <= z)%Z) [x1; y1; x2; y2] ->
  center_of_bounds (bounds_text x1 y1 x2 y2) = Return None.
Proof.
  intros H. rewrite center_of_bounds_eq, findall_bounds_text.
  destruct (Z.leb_spec 0 x1), (Z.leb_spec 0 y1), (Z.leb_spec 0 x2), (Z.leb_spec 0 y2);
    cbn [andb app center_of_matches]; try reflexivity.
  unfold readable_pair. cbn [fst snd].
  pose proof digit_limit_nonneg.
  repeat match goal with
         | H : Exists _ (_ :: _) |- _ => apply Exists_cons in H as [[H|H]|H]; [lia | |]
         | H : Exists _ [] |- _ => apply Exists_nil in H; destruct H
         end;
    rewrite (decimal_unreadable _ H); now rewrite ?andb_false_r.
Qed.

(** C2, as the program has it.  The center of a bounds string never
    raises and depends on the occurrences of [[<digits>,<digits>]] in
    the string alone, two runs of digits without a sign: with exactly
    two of them, each run of at most 4300 digits, it is the midpoint of
    the two corners, by floor division; with any other number of them,
    or a longer run, it is absent.  In a string made of bracket pairs
    whose contents hold no bracket and no comma, separated by text
    without [[], the occurrences are the pairs with two runs of digits:
    a pair with other content neither counts nor prevents a center.
    For the text [[x1,y1][x2,y2]] of four integers the center is
    [((x1+x2)//2, (y1+y2)//2)] when the four are not negative and below
    [10 ^ 4300], and is absent as soon as one is negative or larger. *)
Theorem center_of_bounds_two_pairs :
  (forall s, center_of_bounds s = Return (center_of_matches (Re.findall bounds_pattern s))) /\
  (forall s, List.length (Re.findall bounds_pattern s) <> 2%nat ->
     center_of_bounds s = Return None) /\
  (forall s g1 g2, Re.findall bounds_pattern s = [g1; g2] ->
     (readable_pair g1 && readable_pair g2 = true ->
        center_of_bounds s = Return (Some (midpoint g1 g2))) /\
     (readable_pair g1 && readable_pair g2 = false -> center_of_bounds s = Return None)) /\
  (forall l last,
     Forall (fun e => lacks "[" (fst (fst e)) = true /\ plain (snd (fst e)) = true
                      /\ plain (snd e) = true) l ->
     lacks "[" last = true ->
     center_of_bounds (render l last)
     = Return (center_of_matches (map pair_of (List.filter int_pair l)))) /\
  (forall x1 y1 x2 y2 : Z,
     Forall (fun z => (0 <= z < digit_limit)%Z) [x1; y1; x2; y2] ->
     center_of_bounds (bounds_text x1 y1 x2 y2)
     = Return (Some ((x1 + x2) / 2, (y1 + y2) / 2)%Z)) /\
  (forall x1 y1 x2 y2 : Z,
     Exists (fun z => (z < 0)%Z \/ (digit_limit <= z)%Z) [x1; y1; x2; y2] ->
     center_of_bounds (bounds_text x1 y1 x2 y2) = Return None).
Proof.
  split; [exact center_of_bounds_eq |]. split; [| split; [| split; [| split]]].
  - intros s H. rewrite center_of_bounds_eq.
    destruct (Re.findall bounds_pattern s) as [|g1 [|g2 [|g3 l]]]; try reflexivity.
    now destruct H.
  - intros s g1 g2 H. rewrite center_of_bounds_eq, H. cbn [center_of_matches].
    split; intros ->; reflexivity.
  - intros l last Hl Hlast. now rewrite center_of_bounds_eq, (findall_render _ _ Hl Hlast).
  - exact center_of_bounds_text.
  - exact center_of_bounds_text_absent.
Qed.

(** Three pairs, the middle one not of integers: the two others count. *)
Lemma center_of_bounds_two_pairs_witness :
  center_of_bounds "bounds=[10,20] [a,b] [30,41];" = Return (Some (20, 30)%Z).
Proof.
  apply (proj1 (proj2 (proj2 (proj2 center_of_bounds_two_pairs)))
           [("bounds=", "10", "20"); (" ", "a", "b"); (" ", "30", "41")] ";").
  - repeat constructor.
  - reflexivity.
Defined.

(** C2 as the claim states it fails here: two bracket pairs of
    integers, one of them negative, get no center; and three bracket
    pairs, one of them not of integers, get one. *)
Lemma center_of_bounds_not_as_claimed :
  bracket_pairs "[-1,2][3,4]" = ["-1,2"; "3,4"] /\
  center_as_claimed "[-1,2][3,4]" = Some (1, 3)%Z /\
  center_of_bounds "[-1,2][3,4]" = Return None /\
  bracket_pairs "[1,2][3,5][x,y]" = ["1,2"; "3,5"; "x,y"] /\
  center_as_claimed "[1,2][3,5][x,y]" = None /\
  center_of_bounds "[1,2][3,5][x,y]" = Return (Some (2, 3)%Z).
Proof. repeat split; vm_compute; reflexivity. Qed.

Example center_of_bounds_examples :
  center_of_bounds "[10,20][30,40]" = Return (Some (20, 30)%Z) /\
  center_as_claimed "[10,20][30,40]" = Some (20, 30)%Z /\
  center_of_bounds "" = Return None /\
  center_of_bounds "[10,20]" = Return None /\
  center_of_bounds "[0,0][10,10][20,20]" = Return None /\
  center_of_bounds "[1.5,2][3,4]" = Return None /\
  center_of_bounds "[007,1][2,4]" = Return (Some (4, 2)%Z) /\
  bounds_text (-1) 2 3 4 = "[-1,2][3,4]".
Proof. repeat split; vm_compute; reflexivity. Qed.

(** ** The elements of a document *)

Section Tree.

Lemma Element_ind' (P : Element -> Prop)
  (H : forall t a cs, Forall P cs -> P (mkElement t a cs)) :
  forall e, P e.
Proof.
  fix IH 1. intros [t a cs]. apply H.
  induction cs as [|c cs IHcs]; constructor; [apply IH | exact IHcs].
Qed.

Lemma iter_eq (t : string) (p : path) (e : Element) :
  iter t p e =
  ((if String.eqb (tag e) t then [(p, e)] else []) ++ iter_children t p 0 (children e))%list.
Proof.
  destruct e as [t' a cs]. cbn [iter tag children]. f_equal.
  generalize 0%nat. induction cs as [|c cs IH]; intros i; [reflexivity |].
  cbn [iter_children]. now rewrite <- IH.
Qed.

(** The paths [iter] yields from [p] are at least as long as [p]. *)
Lemma iter_path_length (t : string) (e : Element) :
  forall p, Forall (fun pe => (List.length p <= List.length (fst pe))%nat) (iter t p e).
Proof.
  induction e as [t' a cs IH] using Element_ind'. intros p.
  rewrite iter_eq. cbn [tag children]. apply Forall_app. split.
  - destruct (String.eqb t' t); constructor; [apply Nat.le_refl | constructor].
  - generalize 0%nat. induction IH as [|c cs Hc _ IHcs]; intros i; [constructor |].
    cbn [iter_children]. apply Forall_app. split; [| apply IHcs].
    eapply Forall_impl; [apply (Hc (p ++ [i])%list) |].
    intros [q x]. cbn [fst]. rewrite length_app. simpl. lia.
Qed.

(** The elements [iter] yields are those of the tag, in document order. *)
Lemma iter_elements (t : string) (e : Element) :
  forall p, map snd (iter t p e) = List.filter (fun x => String.eqb (tag x) t) (preorder e).
Proof.
  induction e as [t' a cs IH] using Element_ind'. intros p.
  rewrite iter_eq. cbn [tag children preorder List.filter].
  rewrite map_app.
  assert (C : forall i, map snd (iter_children t p i cs)
              = List.filter (fun x => String.eqb (tag x) t) (flat_map preorder cs)).
  { induction IH as [|c cs Hc _ IHcs]; intros i; [reflexivity |].
    cbn [iter_children flat_map]. now rewrite map_app, List.filter_app, Hc, IHcs. }
  rewrite C. now destruct (String.eqb t' t).
Qed.

Lemma filter_all {A : Type} (f : A -> bool) (l : list A) :
  Forall (fun x => f x = true) l -> List.filter f l = l.
Proof. induction 1 as [|x l Hx _ IH]; simpl; [reflexivity | now rewrite Hx, IH]. Qed.

(** [findall(".//t")] yields the elements of tag [t] below the root:
    the root itself is left out, whatever its tag. *)
Lemma findall_descendants_eq (t : string) (root : Element) :
  findall_descendants t root
  = List.filter (fun x => String.eqb (tag x) t) (descendants root).
Proof.
  unfold findall_descendants, descendants.
  rewrite iter_eq, List.filter_app.
  replace (List.filter (fun pe : path * Element => negb (bool_decide (fst pe = [])))
             (if String.eqb (tag root) t then [([], root)] else []))
    with (@nil (path * Element)) by now destruct (String.eqb (tag root) t).
  cbn [app].
  assert (C : forall i cs,
             map snd (List.filter (fun pe : path * Element => negb (bool_decide (fst pe = [])))
                        (iter_children t [] i cs))
             = List.filter (fun x => String.eqb (tag x) t) (flat_map preorder cs)).
  { intros i cs; revert i. induction cs as [|c cs IH]; intros i; [reflexivity |].
    cbn [iter_children flat_map]. rewrite !List.filter_app, map_app, IH. f_equal.
    rewrite filter_all; [apply iter_elements |].
    eapply Forall_impl; [apply iter_path_length |].
    intros [q x]. cbn [fst app List.length]. intros L.
    destruct q; [simpl in L; lia | reflexivity]. }
  apply C.
Qed.

Lemma descendants_of_root (root : Element) :
  preorder root = root :: descendants root.
Proof. now destruct root. Qed.

End Tree.

(** ** The records of the extractor *)

Section Records.

Lemma record_of_node_eq (node : Element) : record_of_node node = Return (node_record node).
Proof. unfold record_of_node. now rewrite center_of_bounds_eq. Qed.

Lemma append_records_eq (nodes : list Element) :
  forall elements,
    append_records elements nodes = Return (elements ++ map node_record nodes)%list.
Proof.
  induction nodes as [|n nodes IH]; intros elements; cbn [append_records map].
  - now rewrite app_nil_r.
  - rewrite record_of_node_eq. cbn [res_bind]. rewrite IH.
    now rewrite <- app_assoc.
Qed.

Lemma get_default (node : Element) (key : string) :
  get node key "" = default "" (attrib node !! key).
Proof. unfold get. now destruct (attrib node !! key). Qed.

Lemma node_record_describes (node : Element) : describes node (node_record node).
Proof.
  unfold describes, node_record. cbn. rewrite !get_default.
  repeat split; try reflexivity.
  - intros H. now apply bool_decide_eq_true in H.
  - intros H. now apply bool_decide_eq_true.
Qed.

Variable fromstring : string -> res Element.

Lemma parse_hierarchy_eq (xml_data : string) :
  _parse_hierarchy fromstring xml_data =
  Return match fromstring xml_data with
         | Return root => map node_record (List.filter is_node (descendants root))
         | Raise _ => []
         end.
Proof.
  unfold _parse_hierarchy. destruct (fromstring xml_data) as [root|e]; [| reflexivity].
  now rewrite append_records_eq, findall_descendants_eq.
Qed.

(** C3.  When the parser returns a tree for the input, the extractor
    returns one record for each [node] element below the root, at any
    depth, in document order, and each record describes its node: the
    five trimmed attributes with the empty string for an absent one,
    the clickable flag that holds exactly when the attribute is the
    string [true], the bounds as they are, and the center.  When the
    root is not itself a [node], as in a hierarchy document, these are
    all the [node] elements of the document, so the records are as many
    as the document has [node] elements. *)
Theorem parse_hierarchy_nodes (xml_data : string) (root : Element) :
  fromstring xml_data = Return root ->
  exists records,
    _parse_hierarchy fromstring xml_data = Return records /\
    Forall2 describes (List.filter is_node (descendants root)) records /\
    (tag root <> "node" ->
       Forall2 describes (node_elements root) records /\
       List.length records = List.length (node_elements root)).
Proof.
  intros E. rewrite parse_hierarchy_eq, E.
  eexists. split; [reflexivity |].
  assert (F : Forall2 describes (List.filter is_node (descendants root))
                (map node_record (List.filter is_node (descendants root)))).
  { induction (List.filter is_node (descendants root)) as [|n l IH]; constructor;
      [apply node_record_describes | exact IH]. }
  split; [exact F |].
  intros T.
  assert (N : node_elements root = List.filter is_node (descendants root)).
  { unfold node_elements. rewrite descendants_of_root. cbn [List.filter].
    unfold is_node at 1. now destruct (String.eqb_spec (tag root) "node"). }
  rewrite N. split; [exact F | apply length_map].
Qed.

(** C4.  When the parser raises on the input, whatever it raises, the
    extractor returns the empty list; and on every input the extractor
    returns a list: it never raises. *)
Theorem parse_hierarchy_malformed (xml_data : string) :
  (forall e, fromstring xml_data = Raise e -> _parse_hierarchy fromstring xml_data = Return []) /\
  (exists records, _parse_hierarchy fromstring xml_data = Return records).
Proof.
  split.
  - intros e E. now rewrite parse_hierarchy_eq, E.
  - rewrite parse_hierarchy_eq. eauto.
Qed.

End Records.

Lemma parse_hierarchy_nodes_witness :
  exists records,
    _parse_hierarchy RefXml.fromstring ex_dump = Return records /\
    Forall2 describes (node_elements ex_root) records /\
    List.length records = 3%nat.
Proof.
  destruct (parse_hierarchy_nodes RefXml.fromstring ex_dump ex_root) as (records & E & _ & H).
  - vm_compute. reflexivity.
  - exists records. split; [exact E |].
    destruct H as [F L]; [vm_compute; discriminate |].
    split; [exact F | exact L].
Defined.

Lemma parse_hierarchy_malformed_witness :
  _parse_hierarchy RefXml.fromstring "<hierarchy><node text='a'></hierarchy>" = Return [].
Proof.
  apply (proj1 (parse_hierarchy_malformed RefXml.fromstring
                  "<hierarchy><node text='a'></hierarchy>")
           (ParseError "syntax error")).
  vm_compute. reflexivity.
Defined.

Example parse_hierarchy_dump :
  _parse_hierarchy RefXml.fromstring ex_dump
  = Return
      [ {| el_text := "Settings"; el_content_desc := ""; el_resource_id := "";
           el_class := "android.widget.TextView"; el_package := "";
           el_clickable := true; el_bounds := "[0,100][200,301]";
           el_center := Some (100, 200)%Z |};
        {| el_text := ""; el_content_desc := ""; el_resource_id := "com.app:id/ok";
           el_class := ""; el_package := ""; el_clickable := false;
           el_bounds := "[5,5]"; el_center := None |};
        {| el_text := ""; el_content_desc := ""; el_resource_id := "";
           el_class := "android.view.View"; el_package := ""; el_clickable := false;
           el_bounds := "[0,0][10,10][20,20]"; el_center := None |} ].
Proof. vm_compute. reflexivity. Qed.

(** ** The UI dump and its report *)

Section Report.

Lemma report_blocks_eq (elements : list ElementRecord) :
  forall result,
    report_blocks result elements
    = (result ++ map element_block (List.filter meaningful elements))%list.
Proof.
  induction elements as [|el els IH]; intros result; cbn [report_blocks List.filter map].
  - now rewrite app_nil_r.
  - fold (meaningful el). destruct (meaningful el); rewrite IH; [| reflexivity].
    now rewrite <- app_assoc.
Qed.

Lemma nonempty_iff (s : string) : PyStr.nonempty s = true <-> s <> "".
Proof. destruct s; simpl; split; (discriminate || congruence || auto). Qed.

(** C5.  The blocks of the report are those of the records that pass
    the filter, in their order, and a record passes exactly when its
    text, its content description or its resource id is not empty.  A
    record with the three empty adds nothing to the report, whatever
    its clickable flag and its other fields; a record with one of them
    adds its block at its place.  The report is these blocks joined by
    an empty line, or the sentinel when there is none. *)
Theorem presentation_filter :
  (forall elements,
     report_blocks [] elements = map element_block (List.filter meaningful elements)) /\
  (forall el,
     meaningful el = true <->
     el_text el <> "" \/ el_content_desc el <> "" \/ el_resource_id el <> "") /\
  (forall cls pkg clickable bounds center before after,
     report_blocks [] (before ++ mkRecord "" "" "" cls pkg clickable bounds center :: after)%list
     = report_blocks [] (before ++ after)%list) /\
  (forall el before after,
     el_text el <> "" \/ el_content_desc el <> "" \/ el_resource_id el <> "" ->
     report_blocks [] (before ++ el :: after)%list
     = (report_blocks [] before ++ element_block el :: report_blocks [] after)%list) /\
  (forall elements,
     report elements =
     match map element_block (List.filter meaningful elements) with
     | [] => sentinel
     | blocks => PyStr.join (nl ++ nl) blocks
     end).
Proof.
  assert (M : forall el, meaningful el = true <->
                el_text el <> "" \/ el_content_desc el <> "" \/ el_resource_id el <> "").
  { intros el. unfold meaningful. rewrite !orb_true_iff, !nonempty_iff. tauto. }
  split; [intros; apply report_blocks_eq |]. split; [exact M |]. split; [| split].
  - intros. rewrite !report_blocks_eq, !List.filter_app. reflexivity.
  - intros el before after H. apply M in H.
    rewrite !report_blocks_eq, List.filter_app. cbn [List.filter app]. rewrite H.
    now rewrite map_app.
  - intros elements. unfold report. rewrite report_blocks_eq. cbn [app].
    now destruct (map element_block (List.filter meaningful elements)).
Qed.

Lemma presentation_filter_witness :
  report_blocks []
    [mkRecord "" "" "" "android.view.View" "com.app" true "[0,0][4,4]" (Some (2, 2)%Z);
     mkRecord "" "Back" "" "android.widget.Button" "com.app" false "" None]
  = [element_block
       (mkRecord "" "Back" "" "android.widget.Button" "com.app" false "" None)].
Proof.
  apply (proj1 (proj2 (proj2 (proj2 presentation_filter)))
           (mkRecord "" "Back" "" "android.widget.Button" "com.app" false "" None)
           [mkRecord "" "" "" "android.view.View" "com.app" true "[0,0][4,4]" (Some (2, 2)%Z)]
           []).
  right. left. discriminate.
Defined.

Variable device : trace -> command -> res string.
Variable fromstring : string -> res Element.

Lemma dump_hierarchy_eq (device_serial : option string) (h : trace) :
  let c1 := adb_command dump_to_tty device_serial in
  let c2 := adb_command dump_to_file device_serial in
  let c3 := adb_command cat_file device_serial in
  let out1 := adb_text (device h c1) in
  dump_hierarchy device device_serial h =
  if needs_fallback out1
  then (Return (adb_text (device (h ++ [c1; c2])%list c3)), (h ++ [c1; c2; c3])%list)
  else (Return out1, (h ++ [c1])%list).
Proof.
  intros c1 c2 c3 out1. unfold dump_hierarchy, py_bind, py_ret.
  rewrite run_adb_eq. fold dump_to_tty c1 out1. fold (needs_fallback out1).
  destruct (needs_fallback out1); [| reflexivity].
  rewrite !run_adb_eq. fold dump_to_file cat_file c2 c3.
  now rewrite <- !app_assoc.
Qed.

Lemma get_uilayout_eq (device_serial : option string) (h : trace) (xml_data : string)
    (h' : trace) :
  dump_hierarchy device device_serial h = (Return xml_data, h') ->
  get_uilayout device fromstring device_serial h
  = (Return (layout_of fromstring xml_data), h').
Proof.
  intros D. unfold get_uilayout, py_bind, py_lift, py_ret, layout_of. rewrite D.
  now rewrite parse_hierarchy_eq.
Qed.

End Report.

Section Layout.

Variable device : trace -> command -> res string.
Variable fromstring : string -> res Element.

(** C8.  [get_uilayout] first runs the dump to [/dev/tty].  When the
    text it gets has no [UI hierchary dumped to:] in it and does not,
    once trimmed, start with [<?xml], it runs the dump to
    [/sdcard/view.xml] and then [cat] of that file, and reports on the
    text of the [cat].  When the first text has the marker or starts,
    once trimmed, with [<?xml], no other command is run and the report
    is on that text. *)
Theorem dump_fallback (device_serial : option string) (h : trace) :
  let c1 := adb_command dump_to_tty device_serial in
  let c2 := adb_command dump_to_file device_serial in
  let c3 := adb_command cat_file device_serial in
  let out1 := adb_text (device h c1) in
  let out3 := adb_text (device (h ++ [c1; c2])%list c3) in
  (PyStr.contains "UI hierchary dumped to:" out1 = false /\
   PyStr.startswith "<?xml" (PyStr.strip out1) = false ->
     dump_hierarchy device device_serial h = (Return out3, (h ++ [c1; c2; c3])%list) /\
     get_uilayout device fromstring device_serial h
     = (Return (layout_of fromstring out3), (h ++ [c1; c2; c3])%list)) /\
  (PyStr.contains "UI hierchary dumped to:" out1 = true \/
   PyStr.startswith "<?xml" (PyStr.strip out1) = true ->
     dump_hierarchy device device_serial h = (Return out1, (h ++ [c1])%list) /\
     get_uilayout device fromstring device_serial h
     = (Return (layout_of fromstring out1), (h ++ [c1])%list)).
Proof.
  intros c1 c2 c3 out1 out3.
  pose proof (dump_hierarchy_eq device device_serial h) as D. cbv zeta in D.
  fold c1 c2 c3 out1 out3 in D. unfold needs_fallback in D.
  split.
  - intros [M X]. rewrite M, X in D. cbn [negb andb] in D.
    split; [exact D | now apply get_uilayout_eq].
  - intros H.
    assert (N : negb (PyStr.contains "UI hierchary dumped to:" out1)
                && negb (PyStr.startswith "<?xml" (PyStr.strip out1)) = false).
    { destruct H as [-> | ->]; [reflexivity | apply andb_false_r]. }
    rewrite N in D. split; [exact D | now apply get_uilayout_eq].
Qed.

(** C6.  When none of the records extracted from the dumped text
    passes the filter, [get_uilayout] returns the sentinel: so it does
    when the parser raises on the text, when the tree has no [node]
    below its root, and when no [node] has a [text], a [content-desc]
    or a [resource-id] attribute. *)
Theorem no_meaningful_elements (device_serial : option string) (h : trace)
    (xml_data : string) (h' : trace) :
  dump_hierarchy device device_serial h = (Return xml_data, h') ->
  (forall elements,
     _parse_hierarchy fromstring (clean_xml xml_data) = Return elements ->
     List.filter meaningful elements = [] ->
     get_uilayout device fromstring device_serial h = (Return sentinel, h')) /\
  (forall e,
     fromstring (clean_xml xml_data) = Raise e ->
     get_uilayout device fromstring device_serial h = (Return sentinel, h')) /\
  (forall root,
     fromstring (clean_xml xml_data) = Return root ->
     List.filter is_node (descendants root) = [] ->
     get_uilayout device fromstring device_serial h = (Return sentinel, h')) /\
  (forall root,
     fromstring (clean_xml xml_data) = Return root ->
     Forall (fun node => attrib node !! "text" = None /\
                         attrib node !! "content-desc" = None /\
                         attrib node !! "resource-id" = None)
            (List.filter is_node (descendants root)) ->
     get_uilayout device fromstring device_serial h = (Return sentinel, h')).
Proof.
  intros D. rewrite (get_uilayout_eq device fromstring _ _ _ _ D).
  assert (R : forall elements, List.filter meaningful elements = [] ->
                report elements = sentinel).
  { intros elements F. unfold report. now rewrite report_blocks_eq, F. }
  unfold layout_of. repeat split.
  - intros elements P F. rewrite parse_hierarchy_eq in P. injection P as ->.
    now rewrite (R _ F).
  - intros e ->. reflexivity.
  - intros root -> ->. reflexivity.
  - intros root -> A. rewrite R; [reflexivity |].
    induction A as [|n l (T & C & I) _ IH]; [reflexivity |].
    cbn [map List.filter]. unfold meaningful at 1, node_record at 1 2 3, get.
    cbn [el_text el_content_desc el_resource_id]. rewrite T, C, I. exact IH.
Qed.

End Layout.

Lemma dump_fallback_witness :
  (dump_hierarchy (file_device ex_dump) None []
   = (Return ex_dump,
      [["adb"; "shell"; "uiautomator"; "dump"; "/dev/tty"];
       ["adb"; "shell"; "uiautomator"; "dump"; "/sdcard/view.xml"];
       ["adb"; "shell"; "cat"; "/sdcard/view.xml"]])) /\
  (dump_hierarchy (tty_device ex_tty_output) None []
   = (Return ex_tty_output, [["adb"; "shell"; "uiautomator"; "dump"; "/dev/tty"]])).
Proof.
  split.
  - apply (proj1 (dump_fallback (file_device ex_dump) RefXml.fromstring None [])).
    split; reflexivity.
  - apply (proj2 (dump_fallback (tty_device ex_tty_output) RefXml.fromstring None [])).
    left. vm_compute. reflexivity.
Defined.

Lemma no_meaningful_elements_witness :
  get_uilayout (tty_device ex_bare_output) RefXml.fromstring None []
  = (Return "No meaningful elements found.",
     [["adb"; "shell"; "uiautomator"; "dump"; "/dev/tty"]]).
Proof.
  apply (proj1 (no_meaningful_elements (tty_device ex_bare_output) RefXml.fromstring
                  None [] ex_bare_output _ eq_refl)
           [mkRecord "" "" "" "android.view.View" "" true "" None]).
  - vm_compute. reflexivity.
  - reflexivity.
Defined.

Example uilayout_examples :
  fst (get_uilayout (tty_device ex_tty_output) RefXml.fromstring None [])
  = Return ("Element (Clickable: True):" ++ nl
            ++ "  Text: 'Settings'" ++ nl
            ++ "  Bounds: [0,100][200,301]" ++ nl
            ++ "  Center: (100, 200)" ++ nl ++ nl
            ++ "Element (Clickable: False):" ++ nl
            ++ "  Resource ID: 'com.app:id/ok'" ++ nl
            ++ "  Bounds: [5,5]") /\
  fst (get_uilayout (tty_device "<hierarchy/>") RefXml.fromstring None [])
  = Return "No meaningful elements found." /\
  fst (get_uilayout no_adb RefXml.fromstring None [])
  = Return "No meaningful elements found.".
Proof. repeat split; vm_compute; reflexivity. Qed.

(** ** The text handed to the parser *)

Section CleanXml.

Lemma first_match_sound (s pre a b post : string) :
  first_match s = Some (pre, a, b, post) ->
  exists r1 r2,
    first_occurrence "<?xml" s pre r1 /\ first_occurrence ">" r1 a r2 /\
    first_occurrence "</hierarchy>" r2 b post.
Proof.
  unfold first_match.
  destruct (split_first "<?xml" s) as [[pre' r1]|] eqn:F; [| discriminate].
  destruct (declaration_and_body r1) as [[[a' b'] post']|] eqn:D; [| discriminate].
  intros [= <- <- <- <-].
  destruct (declaration_and_body_sound _ _ _ _ D) as (r2 & H1 & H2).
  exists r1, r2. split; [now apply split_first_sound | now split].
Qed.

Lemma first_match_complete (s pre a b post : string) :
  s = pre ++ "<?xml" ++ a ++ ">" ++ b ++ "</hierarchy>" ++ post -> first_match s <> None.
Proof.
  intros E. unfold first_match.
  destruct (split_first_complete "<?xml" s pre _ E) as (pre' & r1 & F). rewrite F.
  destruct (split_first_sound _ _ _ _ F) as [E' M]. specialize (M pre _ E).
  assert (D : PyStr.drop (String.length pre - String.length pre') r1
              = a ++ ">" ++ b ++ "</hierarchy>" ++ post).
  { transitivity (PyStr.drop (String.length pre + 5) s).
    - rewrite E'. rewrite <- (append_assoc pre' "<?xml").
      replace (String.length pre + 5)%nat
        with (String.length (pre' ++ "<?xml") + (String.length pre - String.length pre'))%nat
        by (rewrite length_append; simpl; lia).
      now rewrite <- drop_drop, drop_app.
    - rewrite E. rewrite <- (append_assoc pre "<?xml"). apply drop_app_length.
      rewrite length_append. reflexivity. }
  destruct (declaration_and_body r1) as [[[a' b'] post']|] eqn:N; [discriminate |].
  apply (declaration_and_body_drop (String.length pre - String.length pre')) in N.
  rewrite D in N. destruct (declaration_and_body_complete _ a b post eq_refl N).
Qed.

Variable device : trace -> command -> res string.
Variable fromstring : string -> res Element.

(** C1, as the program has it.  The match is the minimal one: it
    starts at the first [<?xml] of the text, its declaration runs to
    the first [>] after that, and it ends with the first
    [</hierarchy>] after that [>]; what comes before and after is
    dropped.  Such a match exists as soon as the text holds [<?xml],
    later a [>] and later [</hierarchy>].  When it does not, the text
    is left as it is.  [get_uilayout] hands the parser this text and
    nothing else. *)
Theorem clean_xml_minimal_match (s : string) :
  (forall pre r1 a r2 b post,
     first_occurrence "<?xml" s pre r1 ->
     first_occurrence ">" r1 a r2 ->
     first_occurrence "</hierarchy>" r2 b post ->
     clean_xml s = "<?xml" ++ a ++ ">" ++ b ++ "</hierarchy>") /\
  ((exists pre a b post, s = pre ++ "<?xml" ++ a ++ ">" ++ b ++ "</hierarchy>" ++ post) ->
   exists pre r1 a r2 b post,
     first_occurrence "<?xml" s pre r1 /\ first_occurrence ">" r1 a r2 /\
     first_occurrence "</hierarchy>" r2 b post) /\
  ((forall pre a b post, s <> pre ++ "<?xml" ++ a ++ ">" ++ b ++ "</hierarchy>" ++ post) ->
   clean_xml s = s) /\
  (forall device_serial h h',
     dump_hierarchy device device_serial h = (Return s, h') ->
     get_uilayout device fromstring device_serial h
     = (Return (report match fromstring (clean_xml s) with
                       | Return root => map node_record (List.filter is_node (descendants root))
                       | Raise _ => []
                       end), h')).
Proof.
  split; [| split; [| split]].
  - intros pre r1 a r2 b post H1 H2 H3.
    rewrite clean_xml_first_match. unfold first_match, declaration_and_body.
    now rewrite (split_first_unique _ _ _ _ H1), (split_first_unique _ _ _ _ H2),
      (split_first_unique _ _ _ _ H3).
  - intros (pre & a & b & post & E).
    destruct (first_match s) as [[[[pre' a'] b'] post']|] eqn:F.
    + destruct (first_match_sound _ _ _ _ _ F) as (r1 & r2 & H).
      exists pre', r1, a', r2, b', post'. exact H.
    + now apply first_match_complete in E.
  - intros N. rewrite clean_xml_first_match.
    destruct (first_match s) as [[[[pre a] b] post]|] eqn:F; [| reflexivity].
    destruct (first_match_sound _ _ _ _ _ F) as (r1 & r2 & [E1 _] & [E2 _] & [E3 _]).
    destruct (N pre a b post). now rewrite E1, E2, E3.
  - intros device_serial h h' D. now apply get_uilayout_eq.
Qed.

End CleanXml.

(** C1 as the claim states it fails here: a greedy match would run to
    the last [</hierarchy>]; the program stops at the first. *)
Lemma clean_xml_not_greedy :
  clean_xml ex_noisy = "<?xml version='1.0'?><hierarchy><node text='A'/></hierarchy>" /\
  greedy_clean ex_noisy
  = "<?xml version='1.0'?><hierarchy><node text='A'/></hierarchy>" ++ nl
    ++ "trailing </hierarchy>" /\
  String.eqb (clean_xml ex_noisy) (greedy_clean ex_noisy) = false.
Proof. repeat split; vm_compute; reflexivity. Qed.

Lemma clean_xml_minimal_match_witness :
  clean_xml ex_noisy = "<?xml version='1.0'?><hierarchy><node text='A'/></hierarchy>".
Proof.
  apply (proj1 (clean_xml_minimal_match no_adb RefXml.fromstring ex_noisy)
           ("* daemon started successfully" ++ nl)
           (" version='1.0'?><hierarchy><node text='A'/></hierarchy>" ++ nl
            ++ "trailing </hierarchy> junk")
           " version='1.0'?"
           ("<hierarchy><node text='A'/></hierarchy>" ++ nl ++ "trailing </hierarchy> junk")
           "<hierarchy><node text='A'/>"
           (nl ++ "trailing </hierarchy> junk"));
    apply split_first_sound; vm_compute; reflexivity.
Defined.

(** * Further properties of the code *)

(** ** Spaces in a typed text *)

Section Escape.

Lemma replace_space_eq (s : string) : PyStr.replace " " "%s" s = escape_spaces s.
Proof.
  induction s as [|c s IH]; [reflexivity |].
  rewrite replace_eq by reflexivity. cbn [PyStr.startswith escape_spaces].
  rewrite Ascii.eqb_sym.
  destruct (Ascii.eqb c " ").
  - cbn [String.length PyStr.drop String.append]. now rewrite IH.
  - now rewrite IH.
Qed.

Lemma escape_lacks_space (s : string) : lacks " " (escape_spaces s) = true.
Proof.
  induction s as [|c s IH]; [reflexivity |]. cbn [escape_spaces].
  destruct (Ascii.eqb c " ") eqn:E.
  - cbn [lacks]. rewrite IH. reflexivity.
  - cbn [lacks]. rewrite Ascii.eqb_sym, E, IH. reflexivity.
Qed.

Lemma escape_without_space (s : string) : lacks " " s = true -> escape_spaces s = s.
Proof.
  induction s as [|c s IH]; [reflexivity |]. cbn [lacks escape_spaces].
  rewrite (Ascii.eqb_sym c). destruct (Ascii.eqb " " c); cbn [negb andb]; [discriminate |].
  intros H. now rewrite IH.
Qed.

Lemma escape_starts_with_s (s : string) :
  PyStr.startswith "s" (escape_spaces s) = PyStr.startswith "s" s.
Proof.
  destruct s as [|c s]; [reflexivity |]. cbn [escape_spaces].
  destruct (Ascii.eqb_spec c " ") as [->|]; reflexivity.
Qed.

(** Putting a space back for each [%s] undoes the escape of a text
    that holds no [%s] of its own. *)
Lemma unescape_escape (s : string) :
  PyStr.contains "%s" s = false -> PyStr.replace "%s" " " (escape_spaces s) = s.
Proof.
  induction s as [|c s IH]; intros H; [reflexivity |].
  cbn [PyStr.contains] in H.
  destruct (PyStr.startswith "%s" (String c s)) eqn:E; [discriminate |].
  specialize (IH H). rewrite replace_eq by reflexivity. cbn [escape_spaces].
  destruct (Ascii.eqb_spec c " ") as [->|Hc].
  - cbn [PyStr.startswith]. rewrite !Ascii.eqb_refl.
    cbn [String.length PyStr.drop String.append]. now rewrite IH.
  - replace (PyStr.startswith "%s" (String c (escape_spaces s))) with false.
    + now rewrite IH.
    + symmetry. transitivity (PyStr.startswith "%s" (String c s)); [| exact E].
      change (PyStr.startswith "%s" (String c (escape_spaces s)))
        with (if Ascii.eqb "%" c then PyStr.startswith "s" (escape_spaces s) else false).
      now rewrite escape_starts_with_s.
Qed.

End Escape.

(** ** Typing a text *)

Section InputText.

Variable device : trace -> command -> res string.

(** X3.  The argument of [input text] holds no space: every space of the
    text is written [%s], nothing else is changed, and a text without
    space is passed as it is.  Reading [%s] as a space gives back a
    text that holds no [%s] of its own; a text and its escaped form
    run the same command. *)
Theorem input_text_escapes_spaces (text : string) (device_serial : option string)
    (h : trace) :
  let escaped := escape_spaces text in
  input_text device text device_serial h
  = (Return ("Typed: " ++ text),
     (h ++ [adb_command ["shell"; "input"; "text"; escaped] device_serial])%list) /\
  lacks " " escaped = true /\
  (lacks " " text = true -> escaped = text) /\
  (PyStr.contains "%s" text = false -> PyStr.replace "%s" " " escaped = text) /\
  snd (input_text device escaped device_serial h) = snd (input_text device text device_serial h).
Proof.
  intros escaped.
  assert (T : forall t, input_text device t device_serial h
              = (Return ("Typed: " ++ t),
                 (h ++ [adb_command ["shell"; "input"; "text"; escape_spaces t]
                          device_serial])%list)).
  { intros t. unfold input_text, py_bind, py_ret.
    now rewrite run_adb_eq, replace_space_eq. }
  split; [apply T |]. split; [apply escape_lacks_space |].
  split; [apply escape_without_space |]. split; [apply unescape_escape |].
  rewrite !T. cbn [snd]. unfold escaped.
  now rewrite (escape_without_space _ (escape_lacks_space text)).
Qed.

End InputText.

Lemma input_text_escapes_spaces_witness :
  PyStr.replace "%s" " " (escape_spaces "50% off today") = "50% off today".
Proof.
  apply (proj1 (proj2 (proj2 (proj2
           (input_text_escapes_spaces no_adb "50% off today" None []))))).
  reflexivity.
Defined.

(** ** Numbers on the command line *)

Section Numbers.

Lemma all_digits_no_space (s : string) : all_digits s = true -> no_space s = true.
Proof.
  induction s as [|c s IH]; [reflexivity |]. cbn [all_digits no_space].
  intros H. apply andb_prop in H as [Hc Hs].
  now rewrite (digit_not_space _ Hc), (IH Hs).
Qed.

Lemma digits_int_text (s : string) :
  is_int_text s = true -> PyInt.digits 0 false s = Some (decimal_value 0 s).
Proof.
  unfold is_int_text. intros H. apply andb_prop in H as [Hn Hd].
  destruct s as [|c s]; [discriminate |].
  cbn [all_digits] in Hd. apply andb_prop in Hd as [Hc Hs].
  cbn [PyInt.digits decimal_value]. rewrite Hc. now apply digits_all_digits.
Qed.

Lemma int_of_negative (s : string) :
  is_int_text s = true -> readable s = true ->
  PyInt.int (String "-" s) = Return (- decimal_value 0 s)%Z.
Proof.
  intros H R. unfold PyInt.int.
  assert (D : all_digits s = true) by (unfold is_int_text in H; now apply andb_prop in H).
  rewrite strip_no_space by (cbn [no_space]; now rewrite (all_digits_no_space _ D)).
  change (PyInt.signed (String "-" s)) with (option_map Z.opp (PyInt.digits 0 false s)).
  rewrite (digits_int_text _ H). cbn [option_map].
  change (PyInt.count_digits (String "-" s)) with (PyInt.count_digits s).
  rewrite (count_digits_all_digits _ D).
  unfold readable in R. unfold PyInt.max_str_digits. now rewrite R.
Qed.

(** [int(str(z)) == z] for every number [str] writes. *)
Lemma int_decimal (z : Z) :
  (Z.abs z < digit_limit)%Z -> PyInt.int (PyInt.decimal z) = Return z.
Proof.
  intros H. destruct z as [|p|p].
  - reflexivity.
  - destruct (decimal_int_text (N.pos p)) as [I V].
    change (Z.of_N (N.pos p)) with (Z.pos p) in I, V.
    rewrite (int_of_int_text _ I), V; [reflexivity |].
    apply decimal_readable. split; [lia | exact H].
  - rewrite decimal_neg.
    destruct (decimal_int_text (N.pos p)) as [I V].
    change (Z.of_N (N.pos p)) with (Z.pos p) in I, V.
    rewrite (int_of_negative _ I), V; [reflexivity |].
    apply decimal_readable. split; [lia | exact H].
Qed.

Lemma decimal_word (z : Z) : word (PyInt.decimal z) = true.
Proof.
  destruct z as [|p|p]; [reflexivity | |].
  - destruct (decimal_int_text (N.pos p)) as [I _].
    change (Z.of_N (N.pos p)) with (Z.pos p) in I.
    unfold is_int_text in I. apply andb_prop in I as [N D].
    unfold word. now rewrite N, (all_digits_no_space _ D).
  - rewrite decimal_neg, decimal_pos. unfold word. cbn [PyStr.nonempty no_space andb].
    now rewrite (all_digits_no_space _ (string_of_uint_digits _)).
Qed.

End Numbers.

Section Coordinates.

Variable device : trace -> command -> res string.

(** X4.  [touch] and [swipe] either put each of their numbers on the
    command line as one word that [int] reads back to the number given,
    negative ones too, or run no command at all: a number is never
    cut, rounded or sent with a part of the others.  The first holds
    when every number is below [10 ^ 4300] in absolute value; when one
    is not, the duration of a swipe included, the tool raises before it
    runs anything. *)
Theorem coordinates_round_trip (device_serial : option string) (h : trace) :
  (forall x y,
     (Forall (fun z => (Z.abs z < digit_limit)%Z) [x; y] /\
      exists sx sy,
        touch device x y device_serial h
        = (Return ("Touch at (" ++ sx ++ ", " ++ sy ++ ")"),
           (h ++ [adb_command ["shell"; "input"; "tap"; sx; sy] device_serial])%list) /\
        Forall2 (fun s z => PyInt.int s = Return z /\ word s = true) [sx; sy] [x; y]) \/
     (Exists (fun z => (digit_limit <= Z.abs z)%Z) [x; y] /\
      touch device x y device_serial h = (Raise PyInt.too_many_digits, h))) /\
  (forall x1 y1 x2 y2 duration_ms,
     (Forall (fun z => (Z.abs z < digit_limit)%Z) [x1; y1; x2; y2; duration_ms] /\
      exists s1 s2 s3 s4 s5,
        swipe device x1 y1 x2 y2 duration_ms device_serial h
        = (Return ("Swipe from (" ++ s1 ++ ", " ++ s2 ++ ") to (" ++ s3 ++ ", " ++ s4 ++ ")"),
           (h ++ [adb_command ["shell"; "input"; "swipe"; s1; s2; s3; s4; s5]
                    device_serial])%list) /\
        Forall2 (fun s z => PyInt.int s = Return z /\ word s = true)
          [s1; s2; s3; s4; s5] [x1; y1; x2; y2; duration_ms]) \/
     (Exists (fun z => (digit_limit <= Z.abs z)%Z) [x1; y1; x2; y2; duration_ms] /\
      swipe device x1 y1 x2 y2 duration_ms device_serial h = (Raise PyInt.too_many_digits, h))).
Proof.
  assert (D : forall l, Forall (fun z => (Z.abs z < digit_limit)%Z) l
                        \/ Exists (fun z => (digit_limit <= Z.abs z)%Z) l).
  { induction l as [|z l [IH|IH]].
    - left. constructor.
    - destruct (within_or_beyond z); [left; now constructor | right; now apply Exists_cons_hd].
    - right. now apply Exists_cons_tl. }
  split.
  - intros x y. destruct (D [x; y]) as [F|E].
    + left. split; [exact F |].
      inversion F as [|? ? H1 F1]; subst. inversion F1 as [|? ? H2 _]; subst.
      exists (PyInt.decimal x), (PyInt.decimal y). split.
      * now rewrite touch_eq, (str_within _ H1), (str_within _ H2).
      * repeat constructor; (now apply int_decimal) || apply decimal_word.
    + right. split; [exact E |]. apply touch_beyond.
      apply Exists_cons in E as [E|E]; [now left |].
      apply Exists_cons in E as [E|E]; [now right |]. now apply Exists_nil in E.
  - intros x1 y1 x2 y2 d. destruct (D [x1; y1; x2; y2; d]) as [F|E].
    + left. split; [exact F |].
      inversion F as [|? ? H1 F1]; subst. inversion F1 as [|? ? H2 F2]; subst.
      inversion F2 as [|? ? H3 F3]; subst. inversion F3 as [|? ? H4 F4]; subst.
      inversion F4 as [|? ? H5 _]; subst.
      exists (PyInt.decimal x1), (PyInt.decimal y1), (PyInt.decimal x2), (PyInt.decimal y2),
        (PyInt.decimal d). split.
      * now rewrite swipe_eq, (str_within _ H1), (str_within _ H2), (str_within _ H3),
          (str_within _ H4), (str_within _ H5).
      * repeat constructor; (now apply int_decimal) || apply decimal_word.
    + right. split; [exact E | now apply swipe_beyond].
Qed.

End Coordinates.

(** ** The words of a shell command *)

Section Words.

Lemma no_space_app (a b : string) : no_space (a ++ b) = no_space a && no_space b.
Proof.
  induction a as [|c a IH]; [reflexivity |]. cbn [String.append no_space].
  now rewrite IH, andb_assoc.
Qed.

Lemma split_from_word (w : string) :
  no_space w = true ->
  forall cur rest,
    PyStr.split_whitespace_from (Some cur) (w ++ rest)
    = PyStr.split_whitespace_from (Some (cur ++ w)) rest.
Proof.
  induction w as [|c w IH]; intros H cur rest.
  - now rewrite append_nil_r.
  - cbn [no_space] in H. apply andb_prop in H as [Hc Hw].
    cbn [String.append PyStr.split_whitespace_from].
    destruct (PyStr.isspace c); [discriminate |].
    rewrite (IH Hw). f_equal. f_equal. now normalize_append.
Qed.

Lemma split_none_word (w rest : string) :
  word w = true ->
  PyStr.split_whitespace_from None (w ++ rest) = PyStr.split_whitespace_from (Some w) rest.
Proof.
  unfold word. intros H. apply andb_prop in H as [Hn Hs].
  destruct w as [|c w]; [discriminate |].
  cbn [no_space] in Hs. apply andb_prop in Hs as [Hc Hw].
  cbn [String.append PyStr.split_whitespace_from].
  destruct (PyStr.isspace c); [discriminate |].
  now rewrite (split_from_word _ Hw).
Qed.

(** [" ".join(ws).split() == ws] for words. *)
Lemma split_whitespace_join (ws : list string) :
  Forall (fun w => word w = true) ws -> PyStr.split_whitespace (PyStr.join " " ws) = ws.
Proof.
  unfold PyStr.split_whitespace, PyStr.join.
  induction 1 as [|w ws Hw Hws IH]; [reflexivity |].
  destruct ws as [|w2 ws].
  - cbn [String.concat]. rewrite <- (append_nil_r w) at 1.
    now rewrite (split_none_word _ _ Hw).
  - change (String.concat " " (w :: w2 :: ws))
      with (w ++ String " " (String.concat " " (w2 :: ws))).
    rewrite (split_none_word _ _ Hw).
    change (PyStr.split_whitespace_from (Some w) (String " " (String.concat " " (w2 :: ws))))
      with (w :: PyStr.split_whitespace_from None (String.concat " " (w2 :: ws))).
    now rewrite IH.
Qed.

(** White space before the first word is skipped. *)
Lemma split_lead (lead s : string) :
  all_space lead = true ->
  PyStr.split_whitespace_from None (lead ++ s) = PyStr.split_whitespace_from None s.
Proof.
  induction lead as [|c lead IH]; [reflexivity |].
  cbn [all_space String.append PyStr.split_whitespace_from]. intros H.
  apply andb_prop in H as [Hc Hl]. rewrite Hc. now apply IH.
Qed.

(** White space after a word ends it. *)
Lemma split_gap (w gap s : string) :
  PyStr.nonempty gap = true -> all_space gap = true ->
  PyStr.split_whitespace_from (Some w) (gap ++ s) = w :: PyStr.split_whitespace_from None s.
Proof.
  destruct gap as [|c gap]; [discriminate |]. intros _.
  cbn [all_space String.append PyStr.split_whitespace_from]. intros H.
  apply andb_prop in H as [Hc Hg]. rewrite Hc. f_equal. now apply split_lead.
Qed.

(** The words of a text are its words, whatever the white space
    between them. *)
Lemma split_spaced (l : list (string * string)) :
  well_spaced l = true -> PyStr.split_whitespace_from None (spaced l) = map fst l.
Proof.
  induction l as [|[w gap] l IH]; [reflexivity |].
  cbn [well_spaced spaced map fst]. intros H.
  apply andb_prop in H as [H Hg]. apply andb_prop in H as [H Hl].
  apply andb_prop in H as [Hw Ha].
  rewrite (split_none_word _ _ Hw).
  destruct l as [|e l'].
  - cbn [spaced map]. rewrite append_nil_r.
    destruct gap as [|c gap]; [reflexivity |].
    rewrite <- (append_nil_r (String c gap)). now rewrite split_gap.
  - rewrite (split_gap _ _ _ Hg Ha). f_equal. now apply IH.
Qed.

(** Every text is words and white space. *)
Lemma spaced_exists (s : string) :
  exists lead l, s = lead ++ spaced l /\ all_space lead = true /\ well_spaced l = true.
Proof.
  induction s as [|c s (lead & l & E & A & W)].
  - exists EmptyString, []. repeat split.
  - destruct (PyStr.isspace c) eqn:Hc.
    + exists (String c lead), l. cbn [String.append all_space].
      rewrite <- E, Hc, A. repeat split. exact W.
    + destruct lead as [|d lead].
      * cbn [String.append] in E. destruct l as [|[w gap] l].
        -- exists EmptyString, [(String c EmptyString, EmptyString)].
           cbn [spaced] in E. subst s. cbn [well_spaced all_space]. unfold word.
           cbn [PyStr.nonempty no_space]. rewrite Hc. repeat split.
        -- exists EmptyString, ((String c w, gap) :: l).
           split; [cbn [spaced String.append] in *; now rewrite E |]. split; [reflexivity |].
           cbn [well_spaced] in *.
           assert (Ww : word w = true) by (destruct (word w); [reflexivity | discriminate W]).
           rewrite Ww in W.
           replace (word (String c w)) with true; [exact W |].
           unfold word in Ww |- *. cbn [PyStr.nonempty no_space]. rewrite Hc.
           apply andb_prop in Ww as [_ Ww]. now rewrite Ww.
      * exists EmptyString, ((String c EmptyString, String d lead) :: l).
        split; [cbn [spaced String.append] in *; now rewrite E |]. split; [reflexivity |].
        cbn [well_spaced]. unfold word at 1. cbn [PyStr.nonempty no_space].
        rewrite Hc, A, W. now destruct l.
Qed.

(** A text that starts with the word [p] and a space has [p] as its
    first word. *)
Lemma first_word_is (p w rest : string) :
  no_space p = true -> no_space w = true ->
  rest = EmptyString \/ (exists r, rest = String " " r) ->
  PyStr.startswith (p ++ " ") (w ++ rest) = true -> w = p.
Proof.
  intros Hp; revert w; induction p as [|a p IH]; intros w Hw Hrest H.
  - destruct w as [|c w]; [reflexivity |].
    cbn [String.append PyStr.startswith] in H. cbn [no_space] in Hw.
    destruct (Ascii.eqb_spec " " c) as [<-|]; [discriminate Hw | discriminate H].
  - cbn [no_space] in Hp. apply andb_prop in Hp as [Ha Hp].
    destruct w as [|c w].
    + cbn [String.append] in H. destruct Hrest as [-> | [r ->]]; [discriminate H |].
      cbn [PyStr.startswith] in H.
      destruct (Ascii.eqb_spec a " ") as [->|]; [discriminate Ha | discriminate H].
    + cbn [String.append PyStr.startswith] in H. cbn [no_space] in Hw.
      apply andb_prop in Hw as [_ Hw].
      destruct (Ascii.eqb_spec a c) as [->|]; [| discriminate H].
      f_equal. now apply IH.
Qed.

Lemma join_first_word (w : string) (ws : list string) :
  exists rest, PyStr.join " " (w :: ws) = w ++ rest /\
               (rest = EmptyString \/ exists r, rest = String " " r).
Proof.
  destruct ws as [|w2 ws].
  - exists EmptyString. split; [symmetry; apply append_nil_r | now left].
  - exists (String " " (String.concat " " (w2 :: ws))). split; [reflexivity | right; eauto].
Qed.

Lemma join_not_prefixed (p : string) (ws : list string) :
  no_space p = true -> Forall (fun w => word w = true) ws ->
  List.hd EmptyString ws <> p ->
  PyStr.startswith (p ++ " ") (PyStr.join " " ws) = false.
Proof.
  intros Hp Hws Hhd.
  destruct (PyStr.startswith (p ++ " ") (PyStr.join " " ws)) eqn:E; [| reflexivity].
  destruct Hws as [|w ws Hw _].
  - destruct p; discriminate E.
  - destruct (join_first_word w ws) as (rest & J & R). rewrite J in E.
    unfold word in Hw. apply andb_prop in Hw as [_ Hw].
    now destruct Hhd; apply (first_word_is p w rest).
Qed.

End Words.

Section Shell.

Variable device : trace -> command -> res string.

Lemma execute_eq (command : string) (device_serial : option string) (h : trace) :
  let inner :=
    if PyStr.startswith "adb shell " command then PyStr.drop 10 command
    else if PyStr.startswith "adb " command then PyStr.drop 4 command
    else command in
  let cmd := adb_command ("shell" :: PyStr.split_whitespace inner) device_serial in
  execute_adb_shell_command device command device_serial h
  = (Return (adb_text (device h cmd)), (h ++ [cmd])%list).
Proof. intros inner cmd. unfold execute_adb_shell_command. now rewrite run_adb_eq. Qed.

Lemma inner_command_eq (command inner : string) :
  inner_command command inner ->
  (if PyStr.startswith "adb shell " command then PyStr.drop 10 command
   else if PyStr.startswith "adb " command then PyStr.drop 4 command
   else command) = inner.
Proof.
  intros [-> | [[N ->] | [N ->]]].
  - rewrite (startswith_app "adb shell " inner). exact (drop_app "adb shell " inner).
  - rewrite N, (startswith_app "adb " inner). exact (drop_app "adb " inner).
  - rewrite N.
    destruct (PyStr.startswith "adb shell " inner) eqn:E; [| reflexivity].
    apply startswith_true in E. rewrite E in N. discriminate N.
Qed.

Lemma inner_command_exists (command : string) : exists inner, inner_command command inner.
Proof.
  destruct (PyStr.startswith "adb shell " command) eqn:E1.
  - exists (PyStr.drop 10 command). left. now apply startswith_true in E1.
  - destruct (PyStr.startswith "adb " command) eqn:E2.
    + exists (PyStr.drop 4 command). right; left. split; [exact E1 |].
      now apply startswith_true in E2.
    + exists command. right; right. now split.
Qed.

(** X1.  Whatever the text of the command, [execute_adb_shell_command]
    runs one command and returns what [run_adb] returns; it never
    raises.  The command is [adb shell] followed by the words of the
    text that is left once [adb shell ] or else [adb ] is taken off the
    start: read as white space, then words each followed by white
    space, that text gives exactly its words, in order, however much
    white space stands before, between and after them.  Every text
    can be read so, in one way only for the words. *)
Theorem execute_adb_shell_command_always_shell (command : string)
    (device_serial : option string) (h : trace) :
  (forall inner lead l,
     inner_command command inner ->
     inner = lead ++ spaced l -> all_space lead = true -> well_spaced l = true ->
     let cmd := adb_command ("shell" :: map fst l) device_serial in
     execute_adb_shell_command device command device_serial h
     = (Return (adb_text (device h cmd)), (h ++ [cmd])%list)) /\
  (exists inner lead l,
     inner_command command inner /\
     inner = lead ++ spaced l /\ all_space lead = true /\ well_spaced l = true).
Proof.
  split.
  - intros inner lead l I E A W cmd.
    pose proof (execute_eq command device_serial h) as X. cbv zeta in X.
    rewrite (inner_command_eq _ _ I) in X. rewrite X. subst inner.
    unfold PyStr.split_whitespace. now rewrite (split_lead _ _ A), (split_spaced _ W).
  - destruct (inner_command_exists command) as (inner & I).
    destruct (spaced_exists inner) as (lead & l & E & A & W).
    exists inner, lead, l. now repeat split.
Qed.

(** X2.  For words [ws], the texts ["adb shell " + " ".join(ws)], and
    [" ".join(ws)] when the first word is not [adb], and
    ["adb " + " ".join(ws)] when the first word is not [shell], all
    run [adb shell ws]: so [adb devices] runs [adb shell devices]. *)
Theorem execute_adb_shell_command_words (ws : list string)
    (device_serial : option string) (h : trace) :
  Forall (fun w => word w = true) ws ->
  let line := PyStr.join " " ws in
  let cmd := adb_command ("shell" :: ws) device_serial in
  let ran := (Return (adb_text (device h cmd)), (h ++ [cmd])%list) in
  execute_adb_shell_command device ("adb shell " ++ line) device_serial h = ran /\
  (List.hd EmptyString ws <> "adb" ->
     execute_adb_shell_command device line device_serial h = ran) /\
  (List.hd EmptyString ws <> "shell" ->
     execute_adb_shell_command device ("adb " ++ line) device_serial h = ran).
Proof.
  intros Hws line cmd ran.
  pose proof (split_whitespace_join ws Hws) as J. fold line in J.
  split; [| split].
  - rewrite execute_eq. cbv zeta.
    rewrite (startswith_app "adb shell " line).
    change (PyStr.drop 10 ("adb shell " ++ line)) with line. now rewrite J.
  - intros Hhd. rewrite execute_eq. cbv zeta.
    assert (N : PyStr.startswith "adb " line = false)
      by (apply (join_not_prefixed "adb"); [reflexivity | exact Hws | exact Hhd]).
    assert (N' : PyStr.startswith "adb shell " line = false).
    { destruct (PyStr.startswith "adb shell " line) eqn:E; [| reflexivity].
      apply startswith_true in E. rewrite E in N. discriminate N. }
    now rewrite N', N, J.
  - intros Hhd. rewrite execute_eq. cbv zeta.
    assert (N : PyStr.startswith "adb shell " ("adb " ++ line) = false)
      by (apply (join_not_prefixed "shell"); [reflexivity | exact Hws | exact Hhd]).
    rewrite N, (startswith_app "adb " line).
    change (PyStr.drop 4 ("adb " ++ line)) with line. now rewrite J.
Qed.

End Shell.

Lemma execute_adb_shell_command_always_shell_witness :
  execute_adb_shell_command no_adb "adb shell   ls  -la /sdcard " None []
  = (Return "Unexpected Error: [Errno 2] No such file or directory: 'adb'",
     [["adb"; "shell"; "ls"; "-la"; "/sdcard"]]).
Proof.
  apply (proj1 (execute_adb_shell_command_always_shell no_adb
                  "adb shell   ls  -la /sdcard " None [])
           "  ls  -la /sdcard " "  " [("ls", "  "); ("-la", " "); ("/sdcard", " ")]);
    [left |..]; reflexivity.
Defined.

Lemma execute_adb_shell_command_words_witness :
  execute_adb_shell_command no_adb "adb devices" (Some "emulator-5554") []
  = (Return "Unexpected Error: [Errno 2] No such file or directory: 'adb'",
     [["adb"; "-s"; "emulator-5554"; "shell"; "devices"]]).
Proof.
  apply (proj2 (proj2 (execute_adb_shell_command_words no_adb ["devices"]
                         (Some "emulator-5554") []
                         ltac:(repeat constructor)))).
  discriminate.
Defined.

(** ** The package list of a device *)

Section Listing.

Lemma no_space_lacks (c : ascii) (s : string) :
  PyStr.isspace c = true -> no_space s = true -> lacks c s = true.
Proof.
  intros Hc. induction s as [|d s IH]; [reflexivity |]. cbn [no_space lacks].
  intros H. apply andb_prop in H as [Hd Hs]. rewrite (IH Hs), andb_true_r.
  destruct (Ascii.eqb_spec c d) as [<-|]; [| reflexivity].
  rewrite Hc in Hd. discriminate Hd.
Qed.

Lemma package_lines_listing (names : list string) :
  Forall (fun n => package_name n = true) names ->
  package_lines (pm_listing names) = names.
Proof.
  unfold package_lines. induction 1 as [|n names Hn _ IH]; [reflexivity |].
  unfold package_name in Hn. apply andb_prop in Hn as [Hs Hc].
  apply negb_true_iff in Hc.
  cbn [pm_listing].
  replace ("package:" ++ n ++ nl ++ pm_listing names)
    with (("package:" ++ n) ++ nl ++ pm_listing names) by now rewrite append_assoc.
  rewrite split_line.
  - cbn [List.filter]. rewrite (startswith_app "package:" n). cbn [map].
    change LF with (ascii_of_nat 10). rewrite IH. f_equal.
    rewrite replace_eq by reflexivity. rewrite (startswith_app "package:" n).
    change (PyStr.drop (String.length "package:") ("package:" ++ n)) with n.
    rewrite (replace_absent "package:" "" eq_refl _ Hc). cbn [String.append].
    now apply strip_no_space.
  - rewrite lacks_app. rewrite (no_space_lacks LF n eq_refl Hs). reflexivity.
Qed.

Variable device : trace -> command -> res string.

(** X5.  When [pm list packages] succeeds and prints one line
    [package:name] for each package, [get_packages] returns the names,
    one on each line, in the same order; with no package at all it
    returns the empty string. *)
Theorem get_packages_lists_names (names : list string) (device_serial : option string)
    (h : trace) :
  Forall (fun n => package_name n = true) names ->
  device h (adb_command ["shell"; "pm"; "list"; "packages"] device_serial)
  = Return (pm_listing names) ->
  get_packages device device_serial h
  = (Return (PyStr.join nl names),
     (h ++ [adb_command ["shell"; "pm"; "list"; "packages"] device_serial])%list).
Proof.
  intros Hn D. unfold get_packages, py_bind, py_ret. rewrite run_adb_eq, D.
  cbn [adb_text].
  replace (PyStr.startswith "Error" (pm_listing names)) with false
    by now destruct names.
  fold (package_lines (pm_listing names)). now rewrite (package_lines_listing _ Hn).
Qed.

End Listing.

Lemma get_packages_lists_names_witness :
  get_packages two_packages None []
  = (Return ("com.android.settings" ++ nl ++ "org.example.app"),
     [["adb"; "shell"; "pm"; "list"; "packages"]]).
Proof.
  apply (get_packages_lists_names two_packages
           ["com.android.settings"; "org.example.app"] None []).
  - repeat constructor.
  - reflexivity.
Defined.

(** ** The sentinel of the report *)

Section Sentinel.

Lemma element_block_header (el : ElementRecord) :
  exists rest, element_block el = "Element (Clickable: " ++ rest.
Proof.
  unfold element_block, PyStr.join.
  destruct (PyStr.nonempty (el_text el)), (PyStr.nonempty (el_content_desc el)),
    (PyStr.nonempty (el_resource_id el)), (el_center el);
    cbn [app String.concat]; eexists; normalize_append; reflexivity.
Qed.

Lemma join_head (sep b : string) (bs : list string) :
  exists rest, PyStr.join sep (b :: bs) = b ++ rest.
Proof.
  destruct bs as [|b2 bs].
  - exists EmptyString. symmetry. apply append_nil_r.
  - eexists. reflexivity.
Qed.

(** X6.  The report is the sentinel exactly when no record passes the
    filter: a report of blocks starts with [Element (Clickable: ] and
    cannot be taken for it. *)
Theorem report_sentinel_iff (elements : list ElementRecord) :
  report elements = sentinel <-> List.filter meaningful elements = [].
Proof.
  unfold report. rewrite report_blocks_eq. cbn [app].
  destruct (List.filter meaningful elements) as [|el els]; [split; reflexivity |].
  cbn [map]. split; [| discriminate].
  destruct (join_head (nl ++ nl) (element_block el) (map element_block els)) as [r1 ->].
  destruct (element_block_header el) as [r2 ->].
  discriminate.
Qed.

End Sentinel.

Lemma report_sentinel_iff_witness :
  report [mkRecord "" "" "" "android.view.View" "com.app" true "[0,0][4,4]" (Some (2, 2)%Z)]
  = sentinel.
Proof.
  apply (proj2 (report_sentinel_iff
                  [mkRecord "" "" "" "android.view.View" "com.app" true "[0,0][4,4]"
                     (Some (2, 2)%Z)])).
  reflexivity.
Defined.

(** ** Cleaning twice *)

Section Idempotent.

Lemma split_first_eq (p s : string) :
  split_first p s =
  if PyStr.startswith p s then Some (EmptyString, PyStr.drop (String.length p) s)
  else match s with
       | EmptyString => None
       | String c s' =>
           match split_first p s' with
           | Some (a, b) => Some (String c a, b)
           | None => None
           end
       end.
Proof. destruct s; reflexivity. Qed.

Lemma split_first_here (p r : string) : split_first p (p ++ r) = Some (EmptyString, r).
Proof. now rewrite split_first_eq, startswith_app, drop_app. Qed.

(** Whether a text starts with [p] depends on its first characters only. *)
Lemma startswith_prefix_only (p u r r' : string) :
  (String.length p <= String.length u)%nat ->
  PyStr.startswith p (u ++ r) = PyStr.startswith p (u ++ r').
Proof.
  revert u; induction p as [|a p IH]; intros u L; [reflexivity |].
  destruct u as [|c u]; [simpl in L; lia |].
  cbn [String.append PyStr.startswith]. destruct (Ascii.eqb a c); [| reflexivity].
  apply IH. simpl in L. lia.
Qed.

(** The place of the first occurrence does not depend on what follows it. *)
Lemma split_first_same_prefix (p a r r' : string) :
  split_first p (a ++ p ++ r) = Some (a, r) -> split_first p (a ++ p ++ r') = Some (a, r').
Proof.
  induction a as [|c a IH]; intros H; [exact (split_first_here p r') |].
  cbn [String.append] in *. rewrite split_first_eq in H. rewrite split_first_eq.
  assert (E : PyStr.startswith p (String c (a ++ p ++ r'))
              = PyStr.startswith p (String c (a ++ p ++ r))).
  { change (String c (a ++ p ++ r')) with (String c a ++ p ++ r').
    change (String c (a ++ p ++ r)) with (String c a ++ p ++ r).
    rewrite <- !(append_assoc (String c a) p).
    apply startswith_prefix_only. rewrite length_append. lia. }
  rewrite E. destruct (PyStr.startswith p (String c (a ++ p ++ r))); [discriminate H |].
  destruct (split_first p (a ++ p ++ r)) as [[x y]|] eqn:F; [| discriminate H].
  injection H as -> ->. now rewrite (IH eq_refl).
Qed.

Lemma first_match_of_match (s pre a b post : string) :
  first_match s = Some (pre, a, b, post) ->
  first_match ("<?xml" ++ a ++ ">" ++ b ++ "</hierarchy>")
  = Some (EmptyString, a, b, EmptyString).
Proof.
  unfold first_match, declaration_and_body.
  destruct (split_first "<?xml" s) as [[pre' r1]|]; [| discriminate].
  destruct (split_first ">" r1) as [[a' r2]|] eqn:F; [| discriminate].
  destruct (split_first "</hierarchy>" r2) as [[b' post']|] eqn:G; [| discriminate].
  intros [= <- <- <- <-].
  rewrite split_first_here.
  pose proof (proj1 (split_first_sound _ _ _ _ F)) as E1.
  pose proof (proj1 (split_first_sound _ _ _ _ G)) as E2.
  rewrite E1 in F. rewrite E2 in G.
  rewrite (split_first_same_prefix ">" a' r2 (b' ++ "</hierarchy>") F).
  change (split_first "</hierarchy>" (b' ++ "</hierarchy>"))
    with (split_first "</hierarchy>" (b' ++ "</hierarchy>" ++ "")).
  now rewrite (split_first_same_prefix "</hierarchy>" b' post' EmptyString G).
Qed.

(** X7.  [clean_xml] returns a part of its text in one piece, and cleaning
    what it returns changes nothing. *)
Theorem clean_xml_idempotent (s : string) :
  clean_xml (clean_xml s) = clean_xml s /\
  exists pre post, s = pre ++ clean_xml s ++ post.
Proof.
  rewrite (clean_xml_first_match s).
  destruct (first_match s) as [[[[pre a] b] post]|] eqn:F.
  - split.
    + rewrite clean_xml_first_match. now rewrite (first_match_of_match _ _ _ _ _ F).
    + destruct (first_match_sound _ _ _ _ _ F) as (r1 & r2 & [E1 _] & [E2 _] & [E3 _]).
      exists pre, post. rewrite E1, E2, E3. now normalize_append.
  - split.
    + rewrite clean_xml_first_match. now rewrite F.
    + exists EmptyString, EmptyString. cbn [String.append]. now rewrite append_nil_r.
Qed.

End Idempotent.

(** ** What every record satisfies *)

Section RecordInvariants.

Lemma decimal_value_nonneg (s : string) :
  forall acc, (0 <= acc)%Z -> (0 <= decimal_value acc s)%Z.
Proof.
  induction s as [|c s IH]; intros acc H; [exact H |]. cbn [decimal_value].
  apply IH. unfold PyInt.digit_val. lia.
Qed.

Lemma midpoint_between (x1 x2 : Z) :
  (0 <= x1)%Z -> (0 <= x2)%Z ->
  (0 <= Z.min x1 x2 <= (x1 + x2) / 2)%Z /\ ((x1 + x2) / 2 <= Z.max x1 x2)%Z.
Proof.
  intros H1 H2.
  pose proof (Z.div_le_lower_bound (x1 + x2) 2 (Z.min x1 x2)) as L.
  pose proof (Z.div_le_upper_bound (x1 + x2) 2 (Z.max x1 x2)) as U.
  split; [split |]; lia.
Qed.

Lemma decimal_value_split (s : string) :
  forall acc,
    decimal_value acc s = (acc * 10 ^ Z.of_nat (String.length s) + decimal_value 0 s)%Z.
Proof.
  induction s as [|c s IH]; intros acc; cbn [decimal_value String.length].
  - change (10 ^ Z.of_nat 0)%Z with 1%Z. lia.
  - rewrite Nat2Z.inj_succ, Z.pow_succ_r by lia.
    rewrite (IH (10 * acc + PyInt.digit_val c)%Z), (IH (10 * 0 + PyInt.digit_val c)%Z). ring.
Qed.

Lemma digit_val_bound (c : ascii) : Re.digit c = true -> (0 <= PyInt.digit_val c <= 9)%Z.
Proof.
  unfold Re.digit, PyInt.digit_val. intros H. apply andb_prop in H as [H1 H2].
  apply Nat.leb_le in H1, H2. lia.
Qed.

Lemma decimal_value_bound (s : string) :
  all_digits s = true -> (0 <= decimal_value 0 s < 10 ^ Z.of_nat (String.length s))%Z.
Proof.
  induction s as [|c s IH]; cbn [all_digits decimal_value String.length]; intros H.
  - change (10 ^ Z.of_nat 0)%Z with 1%Z. lia.
  - apply andb_prop in H as [Hc Hs]. specialize (IH Hs).
    pose proof (digit_val_bound c Hc).
    rewrite Nat2Z.inj_succ, Z.pow_succ_r by lia. rewrite decimal_value_split.
    set (P := (10 ^ Z.of_nat (String.length s))%Z) in *. nia.
Qed.

(** A run of digits that is read as a number has a value below the
    limit. *)
Lemma readable_value (s : string) :
  all_digits s = true -> readable s = true -> (0 <= decimal_value 0 s < digit_limit)%Z.
Proof.
  intros D R. pose proof (decimal_value_bound s D) as [B0 B1]. split; [exact B0 |].
  apply Z.lt_le_trans with (1 := B1). unfold digit_limit.
  unfold readable in R. apply Nat.leb_le in R. apply Z.pow_le_mono_r; lia.
Qed.

(** The coordinates of a center are below the limit, since the corners
    are: [str] does not refuse them, and the text [element_block]
    writes for a center is the one an f-string gives. *)
Lemma center_within_limit (s : string) (cx cy : Z) :
  center_of_bounds s = Return (Some (cx, cy)) ->
  PyInt.str cx = Return (PyInt.decimal cx) /\ PyInt.str cy = Return (PyInt.decimal cy).
Proof.
  rewrite center_of_bounds_eq. pose proof (findall_bounds_int s) as F.
  destruct (Re.findall bounds_pattern s) as [|[a1 b1] [|[a2 b2] [|g3 l]]]; try discriminate.
  cbn [center_of_matches]. unfold readable_pair. cbn [fst snd].
  apply Forall_cons in F as [[A1 B1] F]. apply Forall_cons in F as [[A2 B2] _].
  cbn [fst snd] in *. unfold is_int_text in *.
  apply andb_prop in A1 as [_ A1], B1 as [_ B1], A2 as [_ A2], B2 as [_ B2].
  destruct (readable a1) eqn:R1; [| discriminate].
  destruct (readable b1) eqn:R2; [| discriminate].
  destruct (readable a2) eqn:R3; [| discriminate].
  destruct (readable b2) eqn:R4; [| discriminate].
  unfold midpoint. cbn [andb fst snd]. intros [= <- <-].
  pose proof (readable_value _ A1 R1). pose proof (readable_value _ B1 R2).
  pose proof (readable_value _ A2 R3). pose proof (readable_value _ B2 R4).
  pose proof (midpoint_between (decimal_value 0 a1) (decimal_value 0 a2)).
  pose proof (midpoint_between (decimal_value 0 b1) (decimal_value 0 b2)).
  split; apply str_within; rewrite Z.abs_eq; lia.
Qed.

Lemma node_record_center_inside (node : Element) : center_inside (node_record node).
Proof.
  unfold center_inside, node_record. cbn [el_center el_bounds].
  intros cx cy. unfold center_of_matches.
  destruct (Re.findall bounds_pattern (get node "bounds" ""))
    as [|[a1 b1] [|[a2 b2] [|g3 l]]]; try discriminate.
  destruct (readable_pair (a1, b1) && readable_pair (a2, b2)); [| discriminate].
  unfold midpoint. cbn [fst snd]. intros [= <- <-].
  exists a1, b1, a2, b2. split; [reflexivity |].
  pose proof (decimal_value_nonneg a1 0 (Z.le_refl 0)).
  pose proof (decimal_value_nonneg a2 0 (Z.le_refl 0)).
  pose proof (decimal_value_nonneg b1 0 (Z.le_refl 0)).
  pose proof (decimal_value_nonneg b2 0 (Z.le_refl 0)).
  pose proof (midpoint_between (decimal_value 0 a1) (decimal_value 0 a2)).
  pose proof (midpoint_between (decimal_value 0 b1) (decimal_value 0 b2)).
  tauto.
Qed.

Lemma strip_clean (s : string) :
  PyStr.strip (PyStr.strip s) = PyStr.strip s /\ starts_clean (PyStr.strip s) = true.
Proof.
  split; [apply strip_idempotent |].
  unfold PyStr.strip. apply rstrip_starts_clean, lstrip_starts_clean.
Qed.

Lemma node_record_trimmed (node : Element) : trimmed (node_record node).
Proof. unfold trimmed, node_record. cbn. repeat constructor; apply strip_clean. Qed.

Variable fromstring : string -> res Element.

(** X8.  Every record the extractor returns has its five text fields
    trimmed: stripping one again changes nothing, and none starts with
    white space. *)
Theorem records_are_trimmed (xml_data : string) (records : list ElementRecord) :
  _parse_hierarchy fromstring xml_data = Return records -> Forall trimmed records.
Proof.
  rewrite parse_hierarchy_eq. intros [= <-].
  destruct (fromstring xml_data) as [root|e]; [| constructor].
  induction (List.filter is_node (descendants root)) as [|n l IH]; constructor;
    [apply node_record_trimmed | exact IH].
Qed.

(** X9.  Every center the extractor returns lies between the two corners
    of the bounds it was computed from, and is not negative. *)
Theorem record_centers_inside (xml_data : string) (records : list ElementRecord) :
  _parse_hierarchy fromstring xml_data = Return records -> Forall center_inside records.
Proof.
  rewrite parse_hierarchy_eq. intros [= <-].
  destruct (fromstring xml_data) as [root|e]; [| constructor].
  induction (List.filter is_node (descendants root)) as [|n l IH]; constructor;
    [apply node_record_center_inside | exact IH].
Qed.

(** X11.  When the root of the document is itself a [node], it gets no
    record: the records are one fewer than the [node] elements of the
    document, and describe those below the root. *)
Theorem root_node_has_no_record (xml_data : string) (root : Element) :
  fromstring xml_data = Return root -> tag root = "node" ->
  exists records,
    _parse_hierarchy fromstring xml_data = Return records /\
    S (List.length records) = List.length (node_elements root) /\
    Forall2 describes (List.filter is_node (descendants root)) records.
Proof.
  intros E T. rewrite parse_hierarchy_eq, E. eexists. split; [reflexivity |]. split.
  - unfold node_elements. rewrite descendants_of_root. cbn [List.filter].
    unfold is_node at 2. rewrite T. cbn [String.eqb List.length].
    now rewrite length_map.
  - induction (List.filter is_node (descendants root)) as [|n l IH]; constructor;
      [apply node_record_describes | exact IH].
Qed.

End RecordInvariants.

Lemma records_are_trimmed_witness : Forall trimmed ex_records.
Proof.
  apply (records_are_trimmed RefXml.fromstring ex_dump ex_records).
  vm_compute. reflexivity.
Defined.

Lemma record_centers_inside_witness : Forall center_inside ex_records.
Proof.
  apply (record_centers_inside RefXml.fromstring ex_dump ex_records).
  vm_compute. reflexivity.
Defined.

Lemma root_node_has_no_record_witness :
  exists records,
    _parse_hierarchy RefXml.fromstring ex_node_root = Return records /\
    S (List.length records) = 2%nat /\
    Forall2 describes (List.filter is_node (descendants ex_node_root_tree)) records.
Proof.
  apply (root_node_has_no_record RefXml.fromstring ex_node_root ex_node_root_tree).
  - vm_compute. reflexivity.
  - reflexivity.
Defined.

(** ** Fields of white space *)

Section Blank.

Lemma nonempty_false (s : string) : PyStr.nonempty s = false <-> s = EmptyString.
Proof. destruct s; split; (reflexivity || discriminate). Qed.

(** X10.  A node whose [text], [content-desc] and [resource-id] are absent,
    empty or made of white space only is left out of the report, and
    no other node is. *)
Theorem blank_fields_are_left_out (node : Element) :
  exists r,
    record_of_node node = Return r /\
    (report_blocks [] [r] = [] <->
     all_space (get node "text" "") = true /\
     all_space (get node "content-desc" "") = true /\
     all_space (get node "resource-id" "") = true).
Proof.
  exists (node_record node). split; [apply record_of_node_eq |].
  rewrite report_blocks_eq. cbn [app List.filter].
  rewrite <- !strip_empty_iff, <- !nonempty_false.
  unfold meaningful, node_record. cbn [el_text el_content_desc el_resource_id].
  destruct (PyStr.nonempty (PyStr.strip (get node "text" ""))),
    (PyStr.nonempty (PyStr.strip (get node "content-desc" ""))),
    (PyStr.nonempty (PyStr.strip (get node "resource-id" "")));
    cbn [orb map]; split; try discriminate; try tauto; intros (? & ? & ?); discriminate.
Qed.

End Blank.

Lemma blank_fields_are_left_out_witness :
  exists r, record_of_node ex_blank_node = Return r /\ report_blocks [] [r] = [].
Proof.
  destruct (blank_fields_are_left_out ex_blank_node) as (r & E & B).
  exists r. split; [exact E |]. apply B. vm_compute. repeat split; reflexivity.
Defined.

(** ** The commands of the tools *)

Section Scoped.

Variable device : trace -> command -> res string.
Variable fromstring : string -> res Element.
Variable abspath : trace -> string -> res string.





End Scoped.
